(** * expo-video-proxy: the local header-injecting proxy, embedded and verified

    The development embeds the proxy of the repository in its variants:
    - [Android]   android/.../proxy/CMCDProxy.kt (query-embedding, manifest
                  rewriting, OkHttp upstream);
    - [IOS]       ios/Proxy/CMCDProxy.swift (path-embedding, explicit
                  redirect translation);
    - [IOSQuery]  the earlier Swift proxy, src/unnamed/part_001
                  (query-embedding, manifest rewriting, URLSession.shared
                  upstream);
    - [TS]        src/CMCDProxy.ts and its compiled form
                  src/unnamed/part_000 (the JavaScript facade and the CMCD
                  header formatter).

    Strings are sequences of bytes (the UTF-8 form of the text the code
    handles), dictionaries are finite maps, and the platform routines the
    code calls (URLEncoder, URLDecoder, java.net.URI, Foundation's URL) are
    given as executable models in [Java] and [Foundation]. *)

From Stdlib Require Import ZArith NArith QArith List Ascii String Bool Lia.
From stdpp Require Import base option list gmap strings pretty.

Local Open Scope string_scope.

(** ** Strings as the code uses them *)

Module Str.

(** [s.startsWith(p)] / [s.hasPrefix(p)]. *)
Definition startsWith (p s : string) : bool := String.prefix p s.

(** [s.dropFirst(n)] / [s.substring(n)] (the empty string past the end). *)
Fixpoint drop (n : nat) (s : string) : string :=
  match n, s with
  | O, _ => s
  | S n', String _ s' => drop n' s'
  | S _, EmptyString => EmptyString
  end.

(** The text that follows the first occurrence of [d] in [s], if any. *)
Fixpoint after_first (d s : string) : option string :=
  if startsWith d s then Some (drop (String.length d) s)
  else match s with
       | EmptyString => None
       | String _ s' => after_first d s'
       end.

(** Kotlin's [s.substringAfter(d)]: the whole of [s] when [d] is missing. *)
Definition substringAfter (d s : string) : string :=
  default s (after_first d s).

(** [s.contains(d)]. *)
Definition contains (d s : string) : bool :=
  match after_first d s with Some _ => true | None => false end.

(** [s.endsWith(d)]. *)
Fixpoint endsWith (d s : string) : bool :=
  if String.eqb d s then true
  else match s with
       | EmptyString => false
       | String _ s' => endsWith d s'
       end.

(** Put a character in front of the first piece of a split. *)
Definition cons_head (a : ascii) (l : list string) : list string :=
  match l with
  | [] => [String a EmptyString]
  | h :: t => String a h :: t
  end.

(** [s.split(c)] / [s.components(separatedBy: c)] for a one-character
    separator: empty pieces are kept, so the result is never empty. *)
Fixpoint split (c : ascii) (s : string) : list string :=
  match s with
  | EmptyString => [EmptyString]
  | String a s' =>
      if Ascii.eqb a c then EmptyString :: split c s'
      else cons_head a (split c s')
  end.

(** [s.components(separatedBy: "\r\n")]. *)
Fixpoint components_crlf (s : string) : list string :=
  match s with
  | EmptyString => [EmptyString]
  | String a s' =>
      match s' with
      | String b s'' =>
          if Ascii.eqb a "013" && Ascii.eqb b "010"
          then EmptyString :: components_crlf s''
          else cons_head a (components_crlf s')
      | EmptyString => cons_head a (components_crlf s')
      end
  end.

(** [pieces.joinToString(sep)]. *)
Fixpoint join (sep : string) (l : list string) : string :=
  match l with
  | [] => EmptyString
  | [x] => x
  | x :: t => x +:+ sep +:+ join sep t
  end.

Definition is_upper (c : ascii) : bool :=
  (65 <=? nat_of_ascii c)%nat && (nat_of_ascii c <=? 90)%nat.
Definition is_lower (c : ascii) : bool :=
  (97 <=? nat_of_ascii c)%nat && (nat_of_ascii c <=? 122)%nat.
Definition is_digit (c : ascii) : bool :=
  (48 <=? nat_of_ascii c)%nat && (nat_of_ascii c <=? 57)%nat.
Definition is_alnum (c : ascii) : bool := is_upper c || is_lower c || is_digit c.

(** Membership of a character in a literal set of characters. *)
Fixpoint mem (c : ascii) (set : string) : bool :=
  match set with
  | EmptyString => false
  | String a set' => Ascii.eqb c a || mem c set'
  end.

Fixpoint forallb (p : ascii → bool) (s : string) : bool :=
  match s with
  | EmptyString => true
  | String a s' => p a && forallb p s'
  end.

(** [lowercase()] / [lowercased()] on the ASCII letters; the bytes of other
    characters are left as they are. *)
Definition lower_char (c : ascii) : ascii :=
  if is_upper c then ascii_of_nat (nat_of_ascii c + 32) else c.
Fixpoint lowercase (s : string) : string :=
  match s with
  | EmptyString => EmptyString
  | String a s' => String (lower_char a) (lowercase s')
  end.

(** Kotlin's [Char.isWhitespace] on one-byte characters: TAB..CR, FS..US
    and the space. *)
Definition isWhitespace (c : ascii) : bool :=
  let n := nat_of_ascii c in
  ((9 <=? n)%nat && (n <=? 13)%nat) || ((28 <=? n)%nat && (n <=? 32)%nat).

(** Foundation's [CharacterSet.whitespaces] on one-byte characters: the
    space and the horizontal tab (no line terminators). *)
Definition isBlank (c : ascii) : bool :=
  Ascii.eqb c " " || Ascii.eqb c "009".

Fixpoint trim_left (ws : ascii → bool) (s : string) : string :=
  match s with
  | EmptyString => EmptyString
  | String a s' => if ws a then trim_left ws s' else s
  end.

Fixpoint trim_right (ws : ascii → bool) (s : string) : string :=
  match s with
  | EmptyString => EmptyString
  | String a s' =>
      match trim_right ws s' with
      | EmptyString => if ws a then EmptyString else String a EmptyString
      | r => String a r
      end
  end.

(** [s.trim()] (with [isWhitespace]) and
    [s.trimmingCharacters(in: .whitespaces)] (with [isBlank]). *)
Definition trim (ws : ascii → bool) (s : string) : string :=
  trim_right ws (trim_left ws s).

Definition isEmpty (s : string) : bool :=
  match s with EmptyString => true | _ => false end.

End Str.

(** ** Percent escapes and reference resolution (RFC 2396 / RFC 3986) *)

Module RFC.

(** The value of a hexadecimal digit. *)
Definition hexval (c : ascii) : option N :=
  let n := N_of_ascii c in
  if Str.is_digit c then Some (n - 48)%N
  else if ((65 <=? n) && (n <=? 70))%N then Some (n - 55)%N
  else if ((97 <=? n) && (n <=? 102))%N then Some (n - 87)%N
  else None.

(** The upper-case hexadecimal digit of a value below sixteen. *)
Definition hexdigit (v : N) : ascii :=
  if (v <? 10)%N then ascii_of_N (48 + v) else ascii_of_N (55 + v).

(** The escape [%XY] of a byte. *)
Definition escape (c : ascii) : string :=
  let n := N_of_ascii c in
  String "%" (String (hexdigit (n / 16)) (String (hexdigit (n mod 16)) EmptyString)).

(** Escape the bytes outside [allowed], keep the others. *)
Fixpoint percent_encode (allowed : ascii → bool) (s : string) : string :=
  match s with
  | EmptyString => EmptyString
  | String c s' =>
      (if allowed c then String c EmptyString else escape c)
      +:+ percent_encode allowed s'
  end.

(** Replace every escape by its byte; [None] on a malformed escape. *)
Fixpoint percent_decode (s : string) : option string :=
  match s with
  | EmptyString => Some EmptyString
  | String c s' =>
      if Ascii.eqb c "%" then
        match s' with
        | String h (String l rest) =>
            match hexval h, hexval l with
            | Some x, Some y =>
                String (ascii_of_N (16 * x + y)) <$> percent_decode rest
            | _, _ => None
            end
        | _ => None
        end
      else String c <$> percent_decode s'
  end.

(** Every [%] is followed by two hexadecimal digits. *)
Fixpoint escapes_ok (s : string) : bool :=
  match s with
  | EmptyString => true
  | String c s' =>
      if Ascii.eqb c "%" then
        match s' with
        | String h (String l rest) =>
            match hexval h, hexval l with
            | Some _, Some _ => escapes_ok rest
            | _, _ => false
            end
        | _ => false
        end
      else escapes_ok s'
  end.

(** A URI reference in its five components. *)
Record Ref := mkRef {
  scheme : option string;
  authority : option string;
  path : string;
  query : option string;
  fragment : option string
}.

(** Cut [s] at the first [c]: the text before it and, if [c] occurs, the
    text after it. *)
Fixpoint cut (c : ascii) (s : string) : string * option string :=
  match s with
  | EmptyString => (EmptyString, None)
  | String a s' =>
      if Ascii.eqb a c then (EmptyString, Some s')
      else let '(h, t) := cut c s' in (String a h, t)
  end.

Definition is_scheme (s : string) : bool :=
  match s with
  | EmptyString => false
  | String a r =>
      (Str.is_upper a || Str.is_lower a)
      && Str.forallb (λ c, Str.is_alnum c || Str.mem c "+-.") r
  end.

(** The components of a reference: fragment after the first [#], query
    after the first [?], scheme before the first [:] when what precedes it
    is a scheme name, authority after a leading [//]. *)
Definition parse (s : string) : Ref :=
  let '(s1, frag) := cut "#" s in
  let '(s2, qry) := cut "?" s1 in
  let '(sch, rest) :=
    match cut ":" s2 with
    | (h, Some t) => if is_scheme h then (Some h, t) else (None, s2)
    | (_, None) => (None, s2)
    end in
  let '(auth, pth) :=
    if Str.startsWith "//" rest then
      match cut "/" (Str.drop 2 rest) with
      | (a, Some p) => (Some a, String "/" p)
      | (a, None) => (Some a, EmptyString)
      end
    else (None, rest) in
  mkRef sch auth pth qry frag.

(** The text of a reference (RFC 3986, section 5.3). *)
Definition unparse (r : Ref) : string :=
  (match scheme r with Some s => s +:+ ":" | None => "" end)
  +:+ (match authority r with Some a => "//" +:+ a | None => "" end)
  +:+ path r
  +:+ (match query r with Some q => "?" +:+ q | None => "" end)
  +:+ (match fragment r with Some f => "#" +:+ f | None => "" end).

(** The path up to and including its last slash. *)
Fixpoint dir_of (p : string) : string :=
  match p with
  | EmptyString => EmptyString
  | String a p' =>
      if Str.mem "/" p' then String a (dir_of p')
      else if Ascii.eqb a "/" then "/" else EmptyString
  end.

(** Removal of [.] and [..] segments over the pieces of a path; [st] holds
    the segments kept so far, the latest first.  With [keep] (RFC 2396, as
    java.net.URI normalizes) a [..] with nothing to cancel stays and empty
    inner segments are dropped; without it (RFC 3986, section 5.2.4) such a
    [..] is dropped and empty segments stay. *)
Fixpoint dots (keep : bool) (st ps : list string) : list string :=
  match ps with
  | [] => rev st
  | p :: rest =>
      let last := match rest with [] => true | _ => false end in
      if String.eqb p "." then
        dots keep (if last then "" :: st else st) rest
      else if String.eqb p ".." then
        match st with
        | h :: t =>
            if keep && String.eqb h ".." then dots keep (p :: st) rest
            else dots keep (if last then "" :: t else t) rest
        | [] =>
            if keep then dots keep [p] rest
            else dots keep (if last then [""] else []) rest
        end
      else if String.eqb p "" && keep && negb last then dots keep st rest
      else dots keep (p :: st) rest
  end.

Definition normalize (keep : bool) (p : string) : string :=
  if Str.startsWith "/" p
  then String "/" (Str.join "/" (dots keep [] (Str.split "/" (Str.drop 1 p))))
  else Str.join "/" (dots keep [] (Str.split "/" p)).

(** Resolution of the reference [r] against the base [b].  With [keep] it
    is RFC 2396 section 5.2 as java.net.URI.resolve performs it on
    hierarchical URIs (a reference that is only a fragment keeps the base's
    path and query; any other reference with an empty path resolves to the
    base's directory); without it, RFC 3986 section 5.2.2. *)
Definition resolve (keep : bool) (b r : Ref) : Ref :=
  match scheme r with
  | Some _ =>
      if keep then r
      else mkRef (scheme r) (authority r) (normalize keep (path r)) (query r) (fragment r)
  | None =>
      match authority r with
      | Some _ =>
          mkRef (scheme b) (authority r)
                (if keep then path r else normalize keep (path r))
                (query r) (fragment r)
      | None =>
          if Str.isEmpty (path r)
             && (negb keep
                 || (bool_decide (is_Some (fragment r))
                     && negb (bool_decide (is_Some (query r))))) then
            mkRef (scheme b) (authority b) (path b)
                  (match query r with Some q => Some q | None => query b end)
                  (fragment r)
          else if Str.startsWith "/" (path r) then
            mkRef (scheme b) (authority b)
                  (if keep then path r else normalize keep (path r))
                  (query r) (fragment r)
          else
            let merged :=
              if negb keep && bool_decide (is_Some (authority b)) && Str.isEmpty (path b)
              then String "/" (path r)
              else dir_of (path b) +:+ path r in
            mkRef (scheme b) (authority b) (normalize keep merged)
                  (query r) (fragment r)
      end
  end.

End RFC.

(** ** The Java routines the Android proxy calls *)

Module Java.

(** [URLEncoder.encode(s, "UTF-8")], byte by byte: letters, digits and
    [. - * _] stay, the space becomes [+], every other byte is escaped with
    upper-case hexadecimal digits. *)
Definition dontNeedEncoding (c : ascii) : bool :=
  Str.is_alnum c || Str.mem c "-_.*".

Definition encodeByte (c : ascii) : string :=
  if dontNeedEncoding c then String c EmptyString
  else if Ascii.eqb c " " then "+"
  else RFC.escape c.

Fixpoint URLEncoder_encode (s : string) : string :=
  match s with
  | EmptyString => EmptyString
  | String c s' => encodeByte c +:+ URLEncoder_encode s'
  end.

(** The two characters after a [%] as [Integer.parseInt(_, 16)] reads them:
    two hexadecimal digits, or a sign and one digit; a negative value is
    refused. *)
Definition parseEscape (h l : ascii) : option N :=
  if Ascii.eqb h "+" then RFC.hexval l
  else if Ascii.eqb h "-" then
    match RFC.hexval l with
    | Some 0%N => Some 0%N
    | _ => None
    end
  else
    match RFC.hexval h, RFC.hexval l with
    | Some x, Some y => Some (16 * x + y)%N
    | _, _ => None
    end.

(** [URLDecoder.decode(s, "UTF-8")]: [+] is a space, [%XY] a byte, anything
    else itself; [None] stands for the IllegalArgumentException thrown on an
    incomplete or ill-formed escape. *)
Fixpoint URLDecoder_decode (s : string) : option string :=
  match s with
  | EmptyString => Some EmptyString
  | String c s' =>
      if Ascii.eqb c "+" then String " " <$> URLDecoder_decode s'
      else if Ascii.eqb c "%" then
        match s' with
        | String h (String l rest) =>
            match parseEscape h l with
            | Some v => String (ascii_of_N v) <$> URLDecoder_decode rest
            | None => None
            end
        | _ => None
        end
      else String c <$> URLDecoder_decode s'
  end.

(** The characters java.net.URI accepts in a reference: unreserved,
    reserved, [%], [#] and the bytes of non-ASCII text. *)
Definition uriChar (c : ascii) : bool :=
  Str.is_alnum c || Str.mem c "-_.!~*'()" || Str.mem c ";/?:@&=+$,[]"
  || Str.mem c "%#" || (128 <=? nat_of_ascii c)%nat.

(** [URI(s)] / [URI.create(s)]: [None] stands for the syntax exception. *)
Definition URI_create (s : string) : option RFC.Ref :=
  if Str.forallb uriChar s && RFC.escapes_ok s && negb (Str.startsWith ":" s)
  then Some (RFC.parse s) else None.

(** A URI with a scheme whose scheme-specific part does not begin with a
    slash is opaque; [resolve] hands the reference back unchanged if it or
    the base is opaque. *)
Definition isOpaque (u : RFC.Ref) : bool :=
  bool_decide (is_Some (RFC.scheme u))
  && negb (bool_decide (is_Some (RFC.authority u)))
  && negb (Str.startsWith "/" (RFC.path u)).

Definition URI_resolve (base child : RFC.Ref) : RFC.Ref :=
  if isOpaque child || isOpaque base then child
  else RFC.resolve true base child.

Definition URI_toString (u : RFC.Ref) : string := RFC.unparse u.

(** [URI(s).path]: the path with its escapes decoded. *)
Definition URI_path (u : RFC.Ref) : string :=
  default (RFC.path u) (RFC.percent_decode (RFC.path u)).

End Java.

(** ** Foundation's URL as the Swift proxies use it *)

Module Foundation.

(** The characters of a URL string: unreserved, general and sub-delimiters
    and the percent sign. *)
Definition isURLLegalCharacter (c : ascii) : bool :=
  Str.is_alnum c || Str.mem c "-._~" || Str.mem c ":/?#[]@"
  || Str.mem c "!$&'()*+,;=" || Ascii.eqb c "%".

(** The strings [URL(string:)] accepts: not empty, legal characters only,
    every [%] heading an escape. *)
Definition isLegalURLString (s : string) : bool :=
  negb (Str.isEmpty s) && Str.forallb isURLLegalCharacter s && RFC.escapes_ok s.

(** A URL value: the string it was made from and, for a URL made relative
    to another, the absolute string of that base. *)
Record URL := mkURL {
  relativeString : string;
  baseURL : option string
}.

(** [URL(string: s)]; [None] is Swift's [nil]. *)
Definition URL_string (s : string) : option URL :=
  if isLegalURLString s then Some (mkURL s None) else None.

(** [u.absoluteString]. *)
Definition absoluteString (u : URL) : string :=
  match baseURL u with
  | None => relativeString u
  | Some b =>
      RFC.unparse (RFC.resolve false (RFC.parse b) (RFC.parse (relativeString u)))
  end.

(** [URL(string: s, relativeTo: base)]. *)
Definition URL_string_relativeTo (s : string) (base : URL) : option URL :=
  if isLegalURLString s then Some (mkURL s (Some (absoluteString base))) else None.

(** [u.absoluteURL]. *)
Definition absoluteURL (u : URL) : URL := mkURL (absoluteString u) None.

(** [CharacterSet.urlQueryAllowed]. *)
Definition urlQueryAllowed (c : ascii) : bool :=
  Str.is_alnum c || Str.mem c "!$&'()*+,-./:;=?@_~".

(** [s.addingPercentEncoding(withAllowedCharacters: .urlQueryAllowed)];
    on the bytes of well-formed text the transformation always succeeds. *)
Definition addingPercentEncoding (s : string) : option string :=
  Some (RFC.percent_encode urlQueryAllowed s).

(** [s.removingPercentEncoding]. *)
Definition removingPercentEncoding (s : string) : option string :=
  RFC.percent_decode s.

(** The text after the last [c] of [s], if [c] occurs. *)
Fixpoint after_last (c : ascii) (s : string) : option string :=
  match s with
  | EmptyString => None
  | String a s' =>
      match after_last c s' with
      | Some r => Some r
      | None => if Ascii.eqb a c then Some s' else None
      end
  end.

(** [u.pathExtension]: what follows the last dot of the last path
    component, the empty string when there is none. *)
Definition pathExtension (u : URL) : string :=
  let p := RFC.path (RFC.parse (absoluteString u)) in
  let comp := default p (after_last "/" (Str.trim_right (λ c, Ascii.eqb c "/") p)) in
  let comp := Str.trim_right (λ c, Ascii.eqb c "/") comp in
  match comp with
  | String "." _ => ""
  | _ => default "" (after_last "." comp)
  end.

End Foundation.

(** ** HTTP messages *)

Module Http.

(** What an origin answers: status code, header fields in wire order, body. *)
Record UpstreamResponse := mkUpstream {
  statusCode : Z;
  allHeaderFields : list (string * string);
  data : string
}.

(** The outcome of an upstream exchange: a response, or a failure (invalid
    URL, DNS, TLS, timeout, ...) with its message. *)
Inductive Upstream :=
| UpstreamError (message : string)
| UpstreamOk (response : UpstreamResponse).

(** An origin: what a GET of a URL with the given request header lines
    yields, one exchange at a time. *)
Definition Origin := string → list (string * string) → Upstream.

(** The value of a header field, names compared without regard to case;
    the last field of that name counts. *)
Definition headerValue (name : string) (hs : list (string * string)) : option string :=
  snd <$> last (filter (λ h, Str.lowercase (fst h) = Str.lowercase name) hs).

(** A response as a proxy writes it to the client: status line, header
    lines in the order written, body. *)
Record Response := mkResponse {
  status : Z;
  reason : string;
  headerLines : list (string * string);
  body : string
}.

Definition CRLF : string := String "013" (String "010" EmptyString).
Definition LF : string := String "010" EmptyString.

Definition headerLine (eol : string) (h : string * string) : string :=
  fst h +:+ ": " +:+ snd h +:+ eol.

(** The bytes on the wire, with [eol] ending the status and header lines. *)
Definition wire (eol : string) (r : Response) : string :=
  "HTTP/1.1 " +:+ pretty (status r) +:+ " " +:+ reason r +:+ eol
  +:+ Str.join "" (headerLine eol <$> headerLines r)
  +:+ CRLF +:+ body r.

(** The fields of a given name in a header block. *)
Definition fieldsNamed (name : string) (hs : list (string * string)) : list (string * string) :=
  filter (λ h, Str.lowercase (fst h) = Str.lowercase name) hs.

(** What one connection does, in order. *)
Inductive Event :=
| Fetch (url : string) (requestHeaders : list (string * string))
| Send (r : Response)
| Close.

Definition isFetch (e : Event) : bool :=
  match e with Fetch _ _ => true | _ => false end.

Definition isRedirectStatus (code : Z) : bool :=
  (code =? 301)%Z || (code =? 302)%Z || (code =? 307)%Z || (code =? 308)%Z.

(** What the response writer owes every response: the CORS header, no
    Content-Encoding and no Transfer-Encoding field, and exactly one
    Content-Length field, holding the byte count of the body written. *)
Definition hasCorsHeader (r : Response) : Prop :=
  ("Access-Control-Allow-Origin", "*") ∈ headerLines r.

Definition lengthRecomputed (r : Response) : Prop :=
  fieldsNamed "Content-Length" (headerLines r)
  = [("Content-Length", pretty (Z.of_nat (String.length (body r))))].

Definition wellWritten (r : Response) : Prop :=
  hasCorsHeader r
  ∧ fieldsNamed "Content-Encoding" (headerLines r) = []
  ∧ fieldsNamed "Transfer-Encoding" (headerLines r) = []
  ∧ lengthRecomputed r.

(** A connection on which one response of the given status is written, the
    connection closed, and nothing fetched. *)
Definition refusedWith (code : Z) (events : list Event) : Prop :=
  ∃ r, events = [Send r; Close]
       ∧ status r = code
       ∧ Forall (λ e, isFetch e = false) events.

End Http.

(** ** The HLS playlist rewriter shared by the query-embedding proxies *)

Module HLS.

Definition quote : ascii := "034".

(** The attribute opener: URI, the equals sign and a double quote. *)
Definition uriOpen : string := "URI=" +:+ String quote EmptyString.

Section Rewriter.

(** The resolved-URL type of the platform, its resolver against the
    playlist's own URL, the proxy-URL maker and the blanks [trim] removes. *)
Variable U : Type.
Variable resolveUrl : string → option U.
Variable createProxyUrl : U → option string.
Variable ws : ascii → bool.

(** The replacement of one match of the attribute pattern (the opener, a
    run of characters other than the double quote, a closing double quote):
    the proxied attribute, or the match itself when the value does not
    resolve or no proxy URL can be made. *)
Definition replaceMatch (uri : string) : string :=
  match resolveUrl uri with
  | Some resolved =>
      match createProxyUrl resolved with
      | Some proxyUrl => uriOpen +:+ proxyUrl +:+ String quote EmptyString
      | None => uriOpen +:+ uri +:+ String quote EmptyString
      end
  | None => uriOpen +:+ uri +:+ String quote EmptyString
  end.

(** Replace every match of the pattern, left to right.  [skip] counts the
    characters of the current match still to pass over. *)
Fixpoint replaceAll (skip : nat) (s : string) : string :=
  match s with
  | EmptyString => EmptyString
  | String a s' =>
      match skip with
      | S k => replaceAll k s'
      | O =>
          if Str.startsWith uriOpen s then
            match RFC.cut quote (Str.drop 5 s) with
            | (uri, Some _) =>
                replaceMatch uri +:+ replaceAll (5 + String.length uri) s'
            | (_, None) => String a (replaceAll 0 s')
            end
          else String a (replaceAll 0 s')
      end
  end.

Definition rewriteURIAttributes (line : string) : string := replaceAll 0 line.

(** The body of the loop over the lines. *)
Definition rewriteLine (line : string) : string :=
  if Str.contains uriOpen line then rewriteURIAttributes line
  else if negb (Str.startsWith "#" line) && negb (Str.isEmpty (Str.trim ws line)) then
    match resolveUrl (Str.trim ws line) with
    | Some segmentUrl =>
        match createProxyUrl segmentUrl with
        | Some proxyUrl => proxyUrl
        | None => line
        end
    | None => line
    end
  else line.

(** The loop: every piece of the content split at the line feeds is
    rewritten and written out followed by a line feed. *)
Fixpoint appendLines (lines : list string) : string :=
  match lines with
  | [] => EmptyString
  | line :: rest => rewriteLine line +:+ Http.LF +:+ appendLines rest
  end.

Definition rewriteContent (content : string) : string :=
  appendLines (Str.split "010" content).

End Rewriter.

End HLS.

(** ** The Android proxy (CMCDProxy.kt) *)

Module Android.

Import Http.

Record OkHttpClient := mkClient {
  followRedirects : bool;
  connectTimeoutSeconds : Z;
  readTimeoutSeconds : Z
}.

Definition httpClient : OkHttpClient := mkClient true 30 30.

(** The fields of the proxy object, then the two sets that record on which
    server sockets [close()] and on which executors [shutdownNow()] has
    been called.  Sockets and executors are named by numbers. *)
Record CMCDProxy := mkProxy {
  serverSocket : option nat;
  executor : option nat;
  _port : Z;
  isRunning : bool;
  dynamicHeadersProvider : option (option (unit → gmap string string));
  staticHeaders : gmap string string;
  closedSockets : gset nat;
  shutdownExecutors : gset nat
}.

Definition port (p : CMCDProxy) : Z := _port p.
Definition isReady (p : CMCDProxy) : bool := (0 <? _port p)%Z.

(** [CMCDProxyManager.isRunning]. *)
Definition Manager_isRunning (p : CMCDProxy) : bool := (0 <? port p)%Z.

Definition stop (p : CMCDProxy) : CMCDProxy :=
  {| serverSocket := None;
     executor := None;
     _port := 0;
     isRunning := false;
     dynamicHeadersProvider := dynamicHeadersProvider p;
     staticHeaders := staticHeaders p;
     closedSockets :=
       match serverSocket p with
       | Some s => {[ s ]} ∪ closedSockets p
       | None => closedSockets p
       end;
     shutdownExecutors :=
       match executor p with
       | Some e => {[ e ]} ∪ shutdownExecutors p
       | None => shutdownExecutors p
       end |}.

Definition proxyPath (originalUrl : string) : string :=
  "/proxy?url=" +:+ Java.URLEncoder_encode originalUrl.

Definition createProxyUrl (p : CMCDProxy) (originalUrl : string) : option string :=
  let currentPort := _port p in
  if (currentPort =? 0)%Z then None
  else Some ("http://127.0.0.1:" +:+ pretty currentPort +:+ proxyPath originalUrl).

Definition httpStatusMessage (code : Z) : string :=
  if (code =? 200)%Z then "OK"
  else if (code =? 400)%Z then "Bad Request"
  else if (code =? 404)%Z then "Not Found"
  else if (code =? 405)%Z then "Method Not Allowed"
  else if (code =? 500)%Z then "Internal Server Error"
  else if (code =? 502)%Z then "Bad Gateway"
  else "Unknown".

Definition byteCount (b : string) : string := pretty (Z.of_nat (String.length b)).

Definition skippedHeader (lowerKey : string) : bool :=
  String.eqb lowerKey "content-encoding" || String.eqb lowerKey "transfer-encoding"
  || String.eqb lowerKey "content-length".

Definition sendResponse (statusCode : Z) (headers : gmap string string) (body : string) : Response :=
  mkResponse statusCode (httpStatusMessage statusCode)
    (("Access-Control-Allow-Origin", "*")
       :: filter (λ h, negb (skippedHeader (Str.lowercase (fst h)))) (map_to_list headers)
       ++ [("Content-Length", byteCount body)])
    body.

(** The canned error text; its lines end in a bare line feed. *)
Definition sendErrorResponse (statusCode : Z) (message : string) : Response :=
  mkResponse statusCode (httpStatusMessage statusCode)
    [("Content-Type", "text/plain");
     ("Content-Length", byteCount message);
     ("Access-Control-Allow-Origin", "*")]
    message.

Definition resolveUrl (baseUri : RFC.Ref) (urlString : string) : option string :=
  if Str.startsWith "http://" urlString || Str.startsWith "https://" urlString
  then Some urlString
  else match Java.URI_create urlString with
       | Some child => Some (Java.URI_toString (Java.URI_resolve baseUri child))
       | None => None
       end.

Definition rewriteURIAttributes (p : CMCDProxy) (line : string) (baseUri : RFC.Ref) : string :=
  HLS.rewriteURIAttributes string (resolveUrl baseUri) (createProxyUrl p) line.

Definition rewriteHLSManifest (p : CMCDProxy) (content baseUrl : string) : string :=
  match Java.URI_create baseUrl with
  | None => content
  | Some baseUri =>
      HLS.rewriteContent string (resolveUrl baseUri) (createProxyUrl p)
        Str.isWhitespace content
  end.

(** The header lines of the upstream request: one [addHeader] per static
    entry, then one per entry the dynamic provider returns. *)
Definition requestHeaders (p : CMCDProxy) : list (string * string) :=
  map_to_list (staticHeaders p)
  ++ match dynamicHeadersProvider p with
     | Some (Some provider) => map_to_list (provider ())
     | _ => []
     end.

(** The status codes on which OkHttp issues a follow-up request. *)
Definition followsUp (code : Z) : bool :=
  (code =? 300)%Z || (code =? 301)%Z || (code =? 302)%Z || (code =? 303)%Z
  || (code =? 307)%Z || (code =? 308)%Z.

(** [client.newCall(request).execute()]: with [followRedirects] the client
    itself requests the [Location] of a redirect, up to twenty times in a
    row.  A URL the request builder refuses counts as a failed exchange. *)
Fixpoint execute (followUps : nat) (client : OkHttpClient) (origin : Origin)
    (url : string) (hs : list (string * string)) : Upstream :=
  match origin url hs with
  | UpstreamError m => UpstreamError m
  | UpstreamOk r =>
      if followRedirects client && followsUp (statusCode r) then
        match headerValue "Location" (allHeaderFields r) with
        | Some location =>
            match followUps with
            | O => UpstreamError "Too many follow-up requests: 21"
            | S n =>
                execute n client origin
                  (RFC.unparse (RFC.resolve false (RFC.parse url) (RFC.parse location))) hs
            end
        | None => UpstreamOk r
        end
      else UpstreamOk r
  end.

(** [resp.headers.toMap()]: a later field of a name replaces an earlier one. *)
Definition toMap (hs : list (string * string)) : gmap string string :=
  foldl (λ m h, <[ fst h := snd h ]> m) ∅ hs.

Definition urlPath (originalUrl : string) : string :=
  match Java.URI_create originalUrl with
  | Some u => if Java.isOpaque u then Str.lowercase originalUrl
              else Str.lowercase (Java.URI_path u)
  | None => Str.lowercase originalUrl
  end.

Definition isManifest (contentType originalUrl : string) : bool :=
  Str.contains "mpegurl" (Str.lowercase contentType)
  || Str.contains (Str.lowercase "x-mpegURL") (Str.lowercase contentType)
  || Str.endsWith ".m3u8" (urlPath originalUrl).

(** What [fetchAndProxy] writes for a given outcome of the exchange. *)
Definition proxyResponse (p : CMCDProxy) (originalUrl : string) (up : Upstream) : Response :=
  match up with
  | UpstreamError m => sendErrorResponse 502 ("Bad Gateway: " +:+ m)
  | UpstreamOk resp =>
      let contentType := default "" (headerValue "Content-Type" (allHeaderFields resp)) in
      let headersMap := toMap (allHeaderFields resp) in
      if isManifest contentType originalUrl then
        sendResponse (statusCode resp)
          (<[ "Content-Type" := "application/vnd.apple.mpegurl" ]> headersMap)
          (rewriteHLSManifest p (data resp) originalUrl)
      else sendResponse (statusCode resp) headersMap (data resp)
  end.

Definition fetchAndProxy (p : CMCDProxy) (origin : Origin) (originalUrl : string) : list Event :=
  let hs := requestHeaders p in
  [Fetch originalUrl hs;
   Send (proxyResponse p originalUrl (execute 20 httpClient origin originalUrl hs))].

(** What the request line asks for. *)
Inductive Action :=
| Respond (statusCode : Z) (message : string)
| Proxy (originalUrl : string).

(** The reading half of [handleClient], on the request line. *)
Definition route (requestLine : string) : Action :=
  match Str.split " " requestLine with
  | method :: path :: _ =>
      if negb (String.eqb method "GET") then Respond 405 "Method Not Allowed"
      else if negb (Str.startsWith "/proxy?url=" path) then Respond 400 "Invalid proxy path"
      else match Java.URLDecoder_decode (Str.substringAfter "/proxy?url=" path) with
           | Some originalUrl => Proxy originalUrl
           | None => Respond 400 "Invalid URL encoding"
           end
  | _ => Respond 400 "Bad Request"
  end.

(** [handleClient] on the lines read from the socket: nothing is written
    when there is no line at all; the socket is closed on every path. *)
Definition handleClient (p : CMCDProxy) (origin : Origin) (lines : list string) : list Event :=
  match lines with
  | [] => [Close]
  | requestLine :: _ =>
      match route requestLine with
      | Respond code message => [Send (sendErrorResponse code message); Close]
      | Proxy originalUrl => fetchAndProxy p origin originalUrl ++ [Close]
      end
  end.

End Android.

(** ** The iOS proxy (ios/Proxy/CMCDProxy.swift, path-embedding) *)

Module IOS.

Import Http Foundation.

(** The network a proxy talks to: the origins, and the number of
    redirections a URLSession task follows on its own before it fails. *)
Record Network := mkNetwork {
  origin : Origin;
  redirectLimit : nat
}.

(** [urlSession(_:task:willPerformHTTPRedirection:newRequest:completionHandler:)]
    of a session delegate: the request to go on with, or [None] to finish
    the task with the redirect response itself. *)
Definition RedirectDelegate := UpstreamResponse → string → option string.

(** [NoRedirectDelegate]: the completion handler always receives nil. *)
Definition NoRedirectDelegate : RedirectDelegate := λ _ _, None.

Definition followsRedirect (code : Z) : bool :=
  (code =? 301)%Z || (code =? 302)%Z || (code =? 303)%Z
  || (code =? 307)%Z || (code =? 308)%Z.

(** A data task of a session with the given delegate (a session without
    one follows every redirection). *)
Fixpoint dataTask (limit : nat) (delegate : option RedirectDelegate) (origin : Origin)
    (url : string) (hs : list (string * string)) : Upstream :=
  match origin url hs with
  | UpstreamError m => UpstreamError m
  | UpstreamOk r =>
      if followsRedirect (statusCode r) then
        match headerValue "Location" (allHeaderFields r) with
        | Some location =>
            let newRequest :=
              RFC.unparse (RFC.resolve false (RFC.parse url) (RFC.parse location)) in
            match (match delegate with
                   | Some d => d r newRequest
                   | None => Some newRequest
                   end) with
            | Some next =>
                match limit with
                | O => UpstreamError "too many HTTP redirects"
                | S n => dataTask n delegate origin next hs
                end
            | None => UpstreamOk r
            end
        | None => UpstreamOk r
        end
      else UpstreamOk r
  end.

(** The fields of the proxy object, then the sets of the listeners and
    connections on which [cancel()] has been called.  Listeners and
    connections are named by numbers. *)
Record CMCDProxy := mkProxy {
  listener : option nat;
  port : N;
  activeConnections : list nat;
  dynamicHeadersProvider : option (unit → gmap string string);
  staticHeaders : gmap string string;
  cancelledListeners : gset nat;
  cancelledConnections : gset nat
}.

Definition isReady (p : CMCDProxy) : bool := (0 <? port p)%N.

(** [CMCDProxyManager.isRunning]. *)
Definition Manager_isRunning (p : CMCDProxy) : bool := (0 <? port p)%N.

Definition proxyBaseUrl (p : CMCDProxy) : string :=
  "http://localhost:" +:+ pretty (port p) +:+ "/".

Definition stop (p : CMCDProxy) : CMCDProxy :=
  {| listener := None;
     port := 0;
     activeConnections := [];
     dynamicHeadersProvider := dynamicHeadersProvider p;
     staticHeaders := staticHeaders p;
     cancelledListeners :=
       match listener p with
       | Some l => {[ l ]} ∪ cancelledListeners p
       | None => cancelledListeners p
       end;
     cancelledConnections :=
       list_to_set (activeConnections p) ∪ cancelledConnections p |}.

(** [handleConnection] and [removeConnection] on the tracked connections. *)
Definition handleConnection (p : CMCDProxy) (connection : nat) : CMCDProxy :=
  {| listener := listener p; port := port p;
     activeConnections := activeConnections p ++ [connection];
     dynamicHeadersProvider := dynamicHeadersProvider p;
     staticHeaders := staticHeaders p;
     cancelledListeners := cancelledListeners p;
     cancelledConnections := cancelledConnections p |}.

Definition removeConnection (p : CMCDProxy) (connection : nat) : CMCDProxy :=
  {| listener := listener p; port := port p;
     activeConnections := filter (λ c, c ≠ connection) (activeConnections p);
     dynamicHeadersProvider := dynamicHeadersProvider p;
     staticHeaders := staticHeaders p;
     cancelledListeners := cancelledListeners p;
     cancelledConnections := cancelledConnections p |}.

Definition createProxyUrl (p : CMCDProxy) (originalUrl : URL) : option URL :=
  if (0 <? port p)%N
  then URL_string (proxyBaseUrl p +:+ absoluteString originalUrl)
  else None.

Definition unproxiedUrl (p : CMCDProxy) (url : URL) : option URL :=
  let urlString := absoluteString url in
  if Str.startsWith (proxyBaseUrl p) urlString
  then URL_string (Str.drop (String.length (proxyBaseUrl p)) urlString)
  else None.

Definition httpStatusMessage (code : Z) : string :=
  if (code =? 200)%Z then "OK"
  else if (code =? 301)%Z then "Moved Permanently"
  else if (code =? 302)%Z then "Found"
  else if (code =? 307)%Z then "Temporary Redirect"
  else if (code =? 308)%Z then "Permanent Redirect"
  else if (code =? 400)%Z then "Bad Request"
  else if (code =? 404)%Z then "Not Found"
  else if (code =? 405)%Z then "Method Not Allowed"
  else if (code =? 500)%Z then "Internal Server Error"
  else if (code =? 502)%Z then "Bad Gateway"
  else "Unknown".

Definition byteCount (b : string) : string := pretty (Z.of_nat (String.length b)).

Definition sendResponse (statusCode : Z) (contentType : option string) (data : string) : Response :=
  mkResponse statusCode (httpStatusMessage statusCode)
    ([("Access-Control-Allow-Origin", "*")]
       ++ match contentType with
          | Some ct => [("Content-Type", ct)]
          | None => []
          end
       ++ [("Content-Length", byteCount data)])
    data.

Definition sendRedirectResponse (statusCode : Z) (location : string) : Response :=
  mkResponse statusCode (httpStatusMessage statusCode)
    [("Location", location); ("Content-Length", "0")]
    EmptyString.

Definition sendErrorResponse (statusCode : Z) (message : string) : Response :=
  sendResponse statusCode (Some "text/plain") message.

(** [request.setValue(value, forHTTPHeaderField: key)] for every entry of a
    dictionary. *)
Definition setValues (headers request : gmap string string) : gmap string string :=
  map_fold (λ key value r, <[ key := value ]> r) request headers.

(** What the dynamic provider returns at the time of a request (nothing
    when no provider is set). *)
Definition dynamicHeaders (p : CMCDProxy) : gmap string string :=
  match dynamicHeadersProvider p with
  | Some provider => provider ()
  | None => ∅
  end.

(** The header fields of the upstream request: the forwarded ones, then
    the static ones, then those the dynamic provider returns. *)
Definition requestHeaders (p : CMCDProxy) (originalHeaders : gmap string string) : gmap string string :=
  let r1 := setValues originalHeaders ∅ in
  let r2 := setValues (staticHeaders p) r1 in
  match dynamicHeadersProvider p with
  | Some provider => setValues (provider ()) r2
  | None => r2
  end.

(** The URL a [Location] value stands for, seen from the request's URL. *)
Definition redirectTarget (location : string) (originalUrl : URL) : option URL :=
  match URL_string_relativeTo location originalUrl with
  | Some u => Some u
  | None => URL_string location
  end.

(** What the completion handler of [fetchAndProxy] writes. *)
Definition proxyResponse (p : CMCDProxy) (originalUrl : URL) (up : Upstream) : Response :=
  match up with
  | UpstreamError m => sendErrorResponse 502 ("Upstream error: " +:+ m)
  | UpstreamOk r =>
      let passThrough :=
        sendResponse (statusCode r) (headerValue "Content-Type" (allHeaderFields r)) (data r) in
      if isRedirectStatus (statusCode r) then
        match headerValue "Location" (allHeaderFields r) with
        | Some location =>
            match redirectTarget location originalUrl with
            | Some redirectUrl =>
                match createProxyUrl p redirectUrl with
                | Some proxiedRedirectUrl =>
                    sendRedirectResponse (statusCode r) (absoluteString proxiedRedirectUrl)
                | None => passThrough
                end
            | None => passThrough
            end
        | None => passThrough
        end
      else passThrough
  end.

Definition fetchAndProxy (p : CMCDProxy) (net : Network) (originalUrl : URL)
    (originalHeaders : gmap string string) : list Event :=
  let hs := map_to_list (requestHeaders p originalHeaders) in
  [Fetch (absoluteString originalUrl) hs;
   Send (proxyResponse p originalUrl
           (dataTask (redirectLimit net) (Some NoRedirectDelegate) (origin net)
              (absoluteString originalUrl) hs));
   Close].

(** The header lines of the request up to the first empty line, without
    the Host field. *)
Fixpoint parseHeaders (lines : list string) (originalHeaders : gmap string string)
    : gmap string string :=
  match lines with
  | [] => originalHeaders
  | line :: rest =>
      if Str.isEmpty line then originalHeaders
      else match RFC.cut ":" line with
           | (k, Some v) =>
               let key := Str.trim Str.isBlank k in
               let value := Str.trim Str.isBlank v in
               if String.eqb (Str.lowercase key) "host"
               then parseHeaders rest originalHeaders
               else parseHeaders rest (<[ key := value ]> originalHeaders)
           | (_, None) => parseHeaders rest originalHeaders
           end
  end.

Inductive Action :=
| Respond (statusCode : Z) (message : string)
| Proxy (originalUrl : URL) (originalHeaders : gmap string string).

(** The parsing half of [processRequest], on the text of the request. *)
Definition route (requestString : string) : Action :=
  let lines := Str.components_crlf requestString in
  match lines with
  | [] => Respond 400 "Empty request"
  | requestLine :: headerLines =>
      match Str.split " " requestLine with
      | method :: path :: _ =>
          if negb (String.eqb method "GET") then Respond 405 "Method not allowed"
          else
            let originalUrlString := Str.drop 1 path in
            match URL_string originalUrlString with
            | Some originalUrl => Proxy originalUrl (parseHeaders headerLines ∅)
            | None => Respond 400 ("Invalid URL: " +:+ originalUrlString)
            end
      | _ => Respond 400 "Invalid request line"
      end
  end.

Definition processRequest (p : CMCDProxy) (net : Network) (requestString : string) : list Event :=
  match route requestString with
  | Respond code message => [Send (sendErrorResponse code message); Close]
  | Proxy originalUrl originalHeaders => fetchAndProxy p net originalUrl originalHeaders
  end.

End IOS.

(** ** The earlier Swift proxy (query-embedding, playlist rewriting) *)

Module IOSQuery.

Import Http Foundation.

Record CMCDProxy := mkProxy {
  listener : option nat;
  port : N;
  activeConnections : gset nat;
  dynamicHeadersProvider : option (unit → gmap string string);
  staticHeaders : gmap string string;
  cancelledListeners : gset nat;
  cancelledConnections : gset nat
}.

Definition isReady (p : CMCDProxy) : bool := (0 <? port p)%N.

Definition stop (p : CMCDProxy) : CMCDProxy :=
  {| listener := None;
     port := 0;
     activeConnections := ∅;
     dynamicHeadersProvider := dynamicHeadersProvider p;
     staticHeaders := staticHeaders p;
     cancelledListeners :=
       match listener p with
       | Some l => {[ l ]} ∪ cancelledListeners p
       | None => cancelledListeners p
       end;
     cancelledConnections := activeConnections p ∪ cancelledConnections p |}.

Definition createProxyUrl (p : CMCDProxy) (originalUrl : URL) : option URL :=
  if (0 <? port p)%N then
    match addingPercentEncoding (absoluteString originalUrl) with
    | Some encoded =>
        URL_string ("http://127.0.0.1:" +:+ pretty (port p) +:+ "/proxy?url=" +:+ encoded)
    | None => None
    end
  else None.

Definition resolveUrl (urlString : string) (baseUrl : URL) : option URL :=
  if Str.startsWith "http://" urlString || Str.startsWith "https://" urlString
  then URL_string urlString
  else absoluteURL <$> URL_string_relativeTo urlString baseUrl.

Definition rewriteURIAttributes (p : CMCDProxy) (line : string) (baseUrl : URL) : string :=
  HLS.rewriteURIAttributes URL (λ s, resolveUrl s baseUrl)
    (λ u, absoluteString <$> createProxyUrl p u) line.

Definition rewriteHLSManifest (p : CMCDProxy) (data : string) (baseUrl : URL) : string :=
  HLS.rewriteContent URL (λ s, resolveUrl s baseUrl)
    (λ u, absoluteString <$> createProxyUrl p u) Str.isBlank data.

Definition httpStatusMessage (code : Z) : string :=
  if (code =? 200)%Z then "OK"
  else if (code =? 400)%Z then "Bad Request"
  else if (code =? 404)%Z then "Not Found"
  else if (code =? 405)%Z then "Method Not Allowed"
  else if (code =? 500)%Z then "Internal Server Error"
  else if (code =? 502)%Z then "Bad Gateway"
  else "Unknown".

Definition byteCount (b : string) : string := pretty (Z.of_nat (String.length b)).

Definition skippedHeader (lowerKey : string) : bool :=
  String.eqb lowerKey "content-encoding" || String.eqb lowerKey "transfer-encoding"
  || String.eqb lowerKey "content-length".

(** [isManifest] is accepted and not consulted. *)
Definition sendResponse (statusCode : Z) (headers : gmap string string) (data : string)
    (isManifest : bool) : Response :=
  mkResponse statusCode (httpStatusMessage statusCode)
    (("Access-Control-Allow-Origin", "*")
       :: filter (λ h, negb (skippedHeader (Str.lowercase (fst h)))) (map_to_list headers)
       ++ [("Content-Length", byteCount data)])
    data.

Definition sendErrorResponse (statusCode : Z) (message : string) : Response :=
  sendResponse statusCode {[ "Content-Type" := "text/plain" ]} message false.

(** [httpResponse.allHeaderFields] as a dictionary of strings. *)
Definition headerDictionary (hs : list (string * string)) : gmap string string :=
  foldl (λ m h, <[ fst h := snd h ]> m) ∅ hs.

Definition isManifest (contentType : string) (originalUrl : URL) : bool :=
  Str.contains "mpegurl" contentType
  || Str.contains "x-mpegURL" contentType
  || String.eqb (Str.lowercase (pathExtension originalUrl)) "m3u8".

(** What the completion handler of [fetchAndProxy] writes. *)
Definition proxyResponse (p : CMCDProxy) (originalUrl : URL) (up : Upstream) : Response :=
  match up with
  | UpstreamError m => sendErrorResponse 502 ("Upstream error: " +:+ m)
  | UpstreamOk r =>
      let contentType := default "" (headerValue "Content-Type" (allHeaderFields r)) in
      let manifest := isManifest contentType originalUrl in
      let responseData :=
        if manifest then rewriteHLSManifest p (data r) originalUrl else data r in
      sendResponse (statusCode r) (headerDictionary (allHeaderFields r)) responseData manifest
  end.

Definition requestHeaders (p : CMCDProxy) : gmap string string :=
  let r1 := IOS.setValues (staticHeaders p) ∅ in
  match dynamicHeadersProvider p with
  | Some provider => IOS.setValues (provider ()) r1
  | None => r1
  end.

(** The task runs on [URLSession.shared], which follows redirections. *)
Definition fetchAndProxy (p : CMCDProxy) (net : IOS.Network) (originalUrl : URL) : list Event :=
  let hs := map_to_list (requestHeaders p) in
  [Fetch (absoluteString originalUrl) hs;
   Send (proxyResponse p originalUrl
           (IOS.dataTask (IOS.redirectLimit net) None (IOS.origin net)
              (absoluteString originalUrl) hs));
   Close].

Inductive Action :=
| Respond (statusCode : Z) (message : string)
| Proxy (originalUrl : URL).

Definition route (requestString : string) : Action :=
  match Str.components_crlf requestString with
  | [] => Respond 400 "Empty request"
  | requestLine :: _ =>
      match Str.split " " requestLine with
      | method :: path :: _ =>
          if negb (String.eqb method "GET") then Respond 405 "Method not allowed"
          else if negb (Str.startsWith "/proxy?url=" path) then Respond 400 "Invalid proxy URL"
          else
            match removingPercentEncoding (Str.drop 11 path) with
            | Some encodedUrl =>
                match URL_string encodedUrl with
                | Some originalUrl => Proxy originalUrl
                | None => Respond 400 "Invalid proxy URL"
                end
            | None => Respond 400 "Invalid proxy URL"
            end
      | _ => Respond 400 "Invalid request line"
      end
  end.

Definition processRequest (p : CMCDProxy) (net : IOS.Network) (requestString : string) : list Event :=
  match route requestString with
  | Respond code message => [Send (sendErrorResponse code message); Close]
  | Proxy originalUrl => fetchAndProxy p net originalUrl
  end.

End IOSQuery.

(** ** The JavaScript side (src/CMCDProxy.ts) *)

Module TS.

(** [encodeURIComponent] on the bytes of well-formed text: letters, digits
    and [- _ . ! ~ * ' ( )] stay, every other byte is escaped. *)
Definition uriUnescaped (c : ascii) : bool :=
  Str.is_alnum c || Str.mem c "-_.!~*'()".

Definition encodeURIComponent (s : string) : string :=
  RFC.percent_encode uriUnescaped s.

(** [CMCDProxy.createProxyUrl]; [port] is what the native module reports. *)
Definition createProxyUrl (port : Z) (originalUrl : string) : option string :=
  if (port =? 0)%Z then None
  else Some ("http://127.0.0.1:" +:+ pretty port +:+ "/proxy?url="
             +:+ encodeURIComponent originalUrl).

(** [CMCDProxy.getBaseUrl]. *)
Definition getBaseUrl (port : Z) : option string :=
  if (port =? 0)%Z then None else Some ("http://127.0.0.1:" +:+ pretty port).

(** The value a group's header takes: the non-empty parts joined by
    commas, if the group has any part at all. *)
Definition headerOf (parts : list string) : option string :=
  match parts with
  | [] => None
  | _ => Some (Str.join "," (filter (λ s, s ≠ "") parts))
  end.

Section Cmcd.

(** JavaScript numbers with the operations the formatter applies to them:
    [Number.isInteger], the text a template literal gives a number, and
    [toFixed(0)]. *)
Variable number : Type.
Variable isInteger : number → bool.
Variable numberToString : number → string.
Variable toFixed0 : number → string.

Inductive JSValue :=
| JSBoolean (b : bool)
| JSString (s : string)
| JSNumber (n : number).

Record CmcdData := mkCmcdData {
  sid : option string;
  cid : option string;
  br : option number;
  d : option number;
  ot : option string;
  tb : option number;
  bl : option number;
  dl : option number;
  mtp : option number;
  nor : option string;
  nrr : option string;
  su : option bool;
  bs : option bool;
  pr : option number;
  sf : option string;
  st : option string;
  v : option number;
  rtp : option number
}.

Definition isToken (key : string) : bool :=
  String.eqb key "ot" || String.eqb key "sf" || String.eqb key "st".

Definition formatValue (key : string) (value : JSValue) : string :=
  match value with
  | JSBoolean b => if b then key else ""
  | JSString s =>
      if isToken key then key +:+ "=" +:+ s
      else key +:+ "=" +:+ String HLS.quote s +:+ String HLS.quote EmptyString
  | JSNumber n =>
      if isInteger n then key +:+ "=" +:+ numberToString n
      else key +:+ "=" +:+ toFixed0 n
  end.

(** [if (data.k !== undefined) parts.push(formatValue('k', data.k))]. *)
Definition push (key : string) (value : option JSValue) (parts : list string) : list string :=
  match value with
  | Some x => parts ++ [formatValue key x]
  | None => parts
  end.

(** [if (parts.length > 0) headers[name] = parts.filter(Boolean).join(',')]. *)
Definition setHeader (name : string) (parts : list string) (headers : gmap string string)
    : gmap string string :=
  if (0 <? length parts)%nat
  then <[ name := Str.join "," (filter (λ s, s ≠ "") parts) ]> headers
  else headers.

Definition objectParts (data : CmcdData) : list string :=
  push "tb" (JSNumber <$> tb data)
    (push "ot" (JSString <$> ot data)
       (push "d" (JSNumber <$> d data)
          (push "br" (JSNumber <$> br data) []))).

Definition requestParts (data : CmcdData) : list string :=
  push "su" (JSBoolean <$> su data)
    (push "nrr" (JSString <$> nrr data)
       (push "nor" (JSString <$> nor data)
          (push "mtp" (JSNumber <$> mtp data)
             (push "dl" (JSNumber <$> dl data)
                (push "bl" (JSNumber <$> bl data) []))))).

Definition sessionParts (data : CmcdData) : list string :=
  push "v" (JSNumber <$> v data)
    (push "st" (JSString <$> st data)
       (push "sid" (JSString <$> sid data)
          (push "sf" (JSString <$> sf data)
             (push "pr" (JSNumber <$> pr data)
                (push "cid" (JSString <$> cid data) []))))).

Definition statusParts (data : CmcdData) : list string :=
  push "rtp" (JSNumber <$> rtp data)
    (push "bs" (JSBoolean <$> bs data) []).

Definition formatCmcdHeaders (data : CmcdData) : gmap string string :=
  setHeader "CMCD-Status" (statusParts data)
    (setHeader "CMCD-Session" (sessionParts data)
       (setHeader "CMCD-Request" (requestParts data)
          (setHeader "CMCD-Object" (objectParts data) ∅))).

End Cmcd.

End TS.

(** ** The dynamic-header data sources of the Android player *)

Module DataSource.

(** The request properties of an HTTP data source; [setRequestProperty]
    sets one of them. *)
Definition setRequestProperty (key value : string) (properties : gmap string string)
    : gmap string string :=
  <[ key := value ]> properties.

(** [map.forEach { (key, value) -> dataSource.setRequestProperty(key, value) }]
    and [allHeaders.putAll(map)]. *)
Definition setAll (headers properties : gmap string string) : gmap string string :=
  map_fold setRequestProperty properties headers.

(** [DynamicHeadersDataSource.open], on the request properties of the
    wrapped source.  [dynamic] is what
    [playerRef.get()?.dynamicRequestHeaders] yields at the time of the call
    ([None] once the player is gone). *)
Definition open (dynamic : option (gmap string string)) (wrapped : gmap string string)
    : gmap string string :=
  match dynamic with
  | Some headers => setAll headers wrapped
  | None => wrapped
  end.

(** The map [allHeaders] of [DynamicHeadersDataSourceFactory.createDataSource]. *)
Definition allHeaders (baseHeaders dynamic : option (gmap string string))
    : gmap string string :=
  let m0 : gmap string string := ∅ in
  let m1 := match baseHeaders with Some b => setAll b m0 | None => m0 end in
  match dynamic with Some d => setAll d m1 | None => m1 end.

(** [DynamicHeadersDataSourceFactory.createDataSource]: the request
    properties of the data source it returns.  [httpAgent] is the system
    property http.agent. *)
Definition createDataSource (httpAgent : option string)
    (baseHeaders dynamic : option (gmap string string)) : gmap string string :=
  let dataSource : gmap string string := ∅ in
  let all := allHeaders baseHeaders dynamic in
  if bool_decide (all = ∅) then dataSource
  else setAll all (setRequestProperty "User-Agent" (default "ExoPlayer" httpAgent) dataSource).

End DataSource.

(** ** Session identifiers (src/CMCDProxy.ts, generateSessionId) *)

Module SessionId.

Definition hex : string := "0123456789abcdef".

(** [hex[i]] appended to a string: the character at [i], or the text
    undefined when there is none. *)
Definition hexAt (i : Z) : string :=
  if (i <? 0)%Z then "undefined"
  else match String.get (Z.to_nat i) hex with
       | Some c => String c EmptyString
       | None => "undefined"
       end.

(** [x | 0] on a number within the 32-bit range: the integer part. *)
Definition toInt (x : Q) : Z := Z.quot (Qnum x) (Z.pos (Qden x)).

(** One pass of the loop body at index [i]; [calls] counts the calls of
    [Math.random] made so far, [random k] being the result of call [k]. *)
Definition step (random : nat → Q) (i : Z) (calls : nat) (uuid : string) : nat * string :=
  if (i =? 8)%Z || (i =? 13)%Z || (i =? 18)%Z || (i =? 23)%Z then (calls, uuid +:+ "-")
  else if (i =? 14)%Z then (calls, uuid +:+ "4")
  else if (i =? 19)%Z
  then (S calls, uuid +:+ hexAt (Z.lor (toInt (random calls * 4)%Q) 8))
  else (S calls, uuid +:+ hexAt (toInt (random calls * 16)%Q)).

Fixpoint loop (random : nat → Q) (n : nat) (i : Z) (calls : nat) (uuid : string) : string :=
  match n with
  | O => uuid
  | S n' =>
      let '(calls', uuid') := step random i calls uuid in
      loop random n' (i + 1)%Z calls' uuid'
  end.

Definition generateSessionId (random : nat → Q) : string :=
  loop random 36 0 0 EmptyString.

(** The shape of a version-4 UUID in lower-case hexadecimal. *)
Fixpoint shaped (i : nat) (s : string) : bool :=
  match s with
  | EmptyString => (i =? 36)%nat
  | String c s' =>
      (if (i =? 8)%nat || (i =? 13)%nat || (i =? 18)%nat || (i =? 23)%nat
       then Ascii.eqb c "-"
       else if (i =? 14)%nat then Ascii.eqb c "4"
       else if (i =? 19)%nat then Str.mem c "89ab"
       else Str.mem c hex)
      && shaped (S i) s'
  end.

Definition isUuidV4 (s : string) : bool := shaped 0 s.

End SessionId.

(** ** What a connection may look like *)

Module Outcome.

Import Http.

(** Neither a space nor a carriage return: the characters of a request
    target that stays in one piece of the request line. *)
Definition inLine (c : ascii) : bool :=
  negb (Ascii.eqb c " ") && negb (Ascii.eqb c "013").

(** A connection on which one URL is fetched, then one response written,
    then the connection closed. *)
Definition served (P : Response → Prop) (events : list Event) : Prop :=
  ∃ url hs r, events = [Fetch url hs; Send r; Close] ∧ P r.

(** A connection refused with status 400 or 405, nothing fetched. *)
Definition refused (events : list Event) : Prop :=
  refusedWith 400 events ∨ refusedWith 405 events.

(** The names of the header lines of a response. *)
Definition fieldNames (r : Response) : list string := fst <$> headerLines r.

End Outcome.

(** ** Sample states and origins for the evaluations below *)

Module Samples.

Import Http.

Definition manifestUrl : string := "https://cdn.example/media/index.m3u8".

Definition staticA1 : gmap string string := {[ "A" := "1" ]}.
Definition dynamicA2B3 : gmap string string := <[ "B" := "3" ]> {[ "A" := "2" ]}.

Definition android : Android.CMCDProxy :=
  Android.mkProxy (Some 1%nat) (Some 1%nat) 8080 true
    (Some (Some (λ _, dynamicA2B3))) staticA1 ∅ ∅.

Definition ios : IOS.CMCDProxy :=
  IOS.mkProxy (Some 1%nat) 8080 [4%nat; 7%nat]
    (Some (λ _, dynamicA2B3)) staticA1 ∅ ∅.

Definition iosQuery : IOSQuery.CMCDProxy :=
  IOSQuery.mkProxy (Some 1%nat) 8080 {[ 4%nat; 7%nat ]}
    (Some (λ _, dynamicA2B3)) staticA1 ∅ ∅.

(** An origin that redirects [https://cdn.example/a/b.m3u8] to
    [/v2/seg.ts] and serves a one-line playlist anywhere else. *)
Definition redirecting : Origin := λ url _,
  if String.eqb url "https://cdn.example/a/b.m3u8"
  then UpstreamOk (mkUpstream 302 [("Location", "/v2/seg.ts")] "")
  else UpstreamOk
         (mkUpstream 200 [("Content-Type", "application/vnd.apple.mpegurl")]
            ("#EXTM3U" +:+ LF)).

Definition network : IOS.Network := IOS.mkNetwork redirecting 16.

(** A playlist reported as plain text. *)
Definition plainPlaylist : UpstreamResponse :=
  mkUpstream 200 [("Content-Type", "text/plain")] ("#EXTM3U" +:+ LF).

End Samples.

(** * Properties *)

(** ** Strings *)

Local Arguments String.append !_ _ : simpl nomatch.

(** A fact about every byte, settled on each of the 256. *)
Ltac by_byte c := destruct c as [[] [] [] [] [] [] [] []]; reflexivity.

Lemma append_assoc (a b c : string) : (a +:+ b) +:+ c = a +:+ (b +:+ c).
Proof. induction a as [|x a IH]; simpl; [done | by rewrite IH]. Qed.

Lemma append_nil_r (a : string) : a +:+ "" = a.
Proof. induction a as [|x a IH]; simpl; [done | by rewrite IH]. Qed.

Lemma length_append (a b : string) :
  String.length (a +:+ b) = (String.length a + String.length b)%nat.
Proof. induction a as [|x a IH]; simpl; [done | by rewrite IH]. Qed.

Lemma startsWith_append (a b : string) : Str.startsWith a (a +:+ b) = true.
Proof.
  unfold Str.startsWith. induction a as [|x a IH]; simpl.
  - by destruct b.
  - destruct (ascii_dec x x); [exact IH | done].
Qed.

Lemma drop_append (a b : string) : Str.drop (String.length a) (a +:+ b) = b.
Proof. induction a as [|x a IH]; simpl; [by destruct b | exact IH]. Qed.

Lemma after_first_startsWith (d s : string) :
  Str.startsWith d s = true →
  Str.after_first d s = Some (Str.drop (String.length d) s).
Proof. intros H. destruct s; cbn [Str.after_first]; by rewrite H. Qed.

Lemma after_first_append (d s : string) : Str.after_first d (d +:+ s) = Some s.
Proof.
  rewrite after_first_startsWith by apply startsWith_append.
  by rewrite drop_append.
Qed.

Lemma substringAfter_append (d s : string) : Str.substringAfter d (d +:+ s) = s.
Proof. unfold Str.substringAfter. by rewrite after_first_append. Qed.

Lemma forallb_append (p : ascii → bool) (a b : string) :
  Str.forallb p (a +:+ b) = Str.forallb p a && Str.forallb p b.
Proof. induction a as [|x a IH]; simpl; [done | by rewrite IH, andb_assoc]. Qed.

Lemma forallb_impl (p q : ascii → bool) (s : string) :
  (∀ c, p c = true → q c = true) → Str.forallb p s = true → Str.forallb q s = true.
Proof.
  intros Hpq. induction s as [|x s IH]; simpl; [done |].
  rewrite !andb_true_iff. intros [Hx Hs]. auto.
Qed.

(** Splitting at a separator that the first piece does not contain. *)
Lemma split_append (c : ascii) (a b : string) :
  Str.forallb (λ x, negb (Ascii.eqb x c)) a = true →
  Str.split c (a +:+ String c b) = a :: Str.split c b.
Proof.
  induction a as [|x a IH]; simpl.
  - intros _. by rewrite Ascii.eqb_refl.
  - rewrite andb_true_iff. intros [Hx Ha].
    apply negb_true_iff in Hx. rewrite Hx, (IH Ha). done.
Qed.

Lemma split_no_sep (c : ascii) (a : string) :
  Str.forallb (λ x, negb (Ascii.eqb x c)) a = true → Str.split c a = [a].
Proof.
  induction a as [|x a IH]; simpl; [done |].
  rewrite andb_true_iff. intros [Hx Ha].
  apply negb_true_iff in Hx. rewrite Hx, (IH Ha). done.
Qed.

(** The digits of a port number. *)
Lemma pretty_N_go_forallb (p : ascii → bool) (x : N) (s : string) :
  (∀ d, (d < 10)%N → p (pretty_N_char d) = true) →
  Str.forallb p s = true → Str.forallb p (pretty_N_go x s) = true.
Proof.
  intros Hd. revert s.
  induction (N.lt_wf_0 x) as [x _ IH]. intros s Hs.
  destruct (decide (x = 0)%N) as [->|Hx].
  - by rewrite pretty_N_go_0.
  - rewrite pretty_N_go_step by lia.
    apply IH.
    + apply N.div_lt; lia.
    + simpl. rewrite Hs, andb_true_r. apply Hd. apply N.mod_lt. lia.
Qed.

Lemma pretty_N_forallb (p : ascii → bool) (x : N) :
  (∀ d, (d < 10)%N → p (pretty_N_char d) = true) →
  Str.forallb p (pretty x) = true.
Proof.
  intros Hd. unfold pretty, pretty_N.
  destruct (decide (x = 0)%N).
  - simpl. rewrite andb_true_r. apply (Hd 0%N). lia.
  - by apply pretty_N_go_forallb.
Qed.

(** The decimal text of a port is made of legal URL characters, none of
    them a percent sign. *)
Lemma pretty_N_plain (x : N) :
  Str.forallb (λ c, Foundation.isURLLegalCharacter c && negb (Ascii.eqb c "%"))
    (pretty x) = true.
Proof.
  apply pretty_N_forallb. intros d Hd.
  unfold pretty_N_char. repeat case_match; done.
Qed.

Lemma pretty_N_legal (x : N) :
  Str.forallb Foundation.isURLLegalCharacter (pretty x) = true.
Proof.
  eapply forallb_impl; [| apply (pretty_N_plain x)].
  intros c. by rewrite andb_true_iff; intros [? _].
Qed.

Lemma pretty_N_no_percent (x : N) :
  Str.forallb (λ c, negb (Ascii.eqb c "%")) (pretty x) = true.
Proof.
  eapply forallb_impl; [| apply (pretty_N_plain x)].
  intros c. by rewrite andb_true_iff; intros [_ ?].
Qed.

(** ** The query codec of the Android proxy *)

Lemma decode_encodeByte (c : ascii) (rest : string) :
  Java.URLDecoder_decode (Java.encodeByte c +:+ rest)
  = String c <$> Java.URLDecoder_decode rest.
Proof. by_byte c. Qed.

Lemma URLDecoder_URLEncoder (u : string) :
  Java.URLDecoder_decode (Java.URLEncoder_encode u) = Some u.
Proof.
  induction u as [|c u IH]; simpl; [done |].
  rewrite decode_encodeByte, IH. done.
Qed.

Lemma encodeByte_no_space (c : ascii) :
  Str.forallb (λ x, negb (Ascii.eqb x " ")) (Java.encodeByte c) = true.
Proof. by_byte c. Qed.

Lemma URLEncoder_no_space (u : string) :
  Str.forallb (λ x, negb (Ascii.eqb x " ")) (Java.URLEncoder_encode u) = true.
Proof.
  induction u as [|c u IH]; simpl; [done |].
  by rewrite forallb_append, encodeByte_no_space, IH.
Qed.

(** The request line a client sends for a proxy path is routed to the URL
    the path was made from. *)
Lemma android_route_proxyPath (u : string) :
  Android.route ("GET " +:+ Android.proxyPath u +:+ " HTTP/1.1") = Android.Proxy u.
Proof.
  unfold Android.route.
  change ("GET " +:+ Android.proxyPath u +:+ " HTTP/1.1")
    with ("GET" +:+ String " " (Android.proxyPath u +:+ String " " "HTTP/1.1")).
  rewrite split_append by done.
  rewrite split_append.
  2:{ unfold Android.proxyPath. rewrite forallb_append, URLEncoder_no_space. done. }
  change (negb ("GET" =? "GET")) with false. cbv iota.
  unfold Android.proxyPath.
  rewrite startsWith_append. cbn [negb].
  rewrite substringAfter_append, URLDecoder_URLEncoder. done.
Qed.

(** ** Legal URL strings *)

Lemma escapes_ok_append (a b : string) :
  Str.forallb (λ c, negb (Ascii.eqb c "%")) a = true →
  RFC.escapes_ok (a +:+ b) = RFC.escapes_ok b.
Proof.
  induction a as [|x a IH]; simpl; [done |].
  rewrite andb_true_iff. intros [Hx Ha].
  apply negb_true_iff in Hx. rewrite Hx. auto.
Qed.

Lemma isEmpty_append (a b : string) :
  Str.isEmpty (a +:+ b) = Str.isEmpty a && Str.isEmpty b.
Proof. by destruct a. Qed.

(** A legal URL string stays legal behind a prefix of legal characters
    that holds no percent sign. *)
Lemma legal_prefix (a s : string) :
  Str.forallb (λ c, Foundation.isURLLegalCharacter c && negb (Ascii.eqb c "%")) a = true →
  Foundation.isLegalURLString s = true →
  Foundation.isLegalURLString (a +:+ s) = true.
Proof.
  unfold Foundation.isLegalURLString. intros Ha.
  rewrite !andb_true_iff, !negb_true_iff. intros [[Hne Hs] He].
  rewrite isEmpty_append, Hne, andb_false_r.
  rewrite forallb_append, Hs, andb_true_r.
  rewrite escapes_ok_append, He.
  - split; [split; [done |] | done].
    eapply forallb_impl; [| exact Ha]. intros c. by rewrite andb_true_iff; intros [? _].
  - eapply forallb_impl; [| exact Ha]. intros c. by rewrite andb_true_iff; intros [_ ?].
Qed.

Lemma ios_proxyBaseUrl_chars (p : IOS.CMCDProxy) :
  Str.forallb (λ c, Foundation.isURLLegalCharacter c && negb (Ascii.eqb c "%"))
    (IOS.proxyBaseUrl p) = true.
Proof.
  unfold IOS.proxyBaseUrl.
  by rewrite !forallb_append, pretty_N_plain.
Qed.

Lemma ios_proxied_legal (p : IOS.CMCDProxy) (s : string) :
  Foundation.isLegalURLString s = true →
  Foundation.isLegalURLString (IOS.proxyBaseUrl p +:+ s) = true.
Proof. apply legal_prefix, ios_proxyBaseUrl_chars. Qed.

Lemma encode_query_chars (c : ascii) :
  Str.forallb Foundation.isURLLegalCharacter
    (if Foundation.urlQueryAllowed c then String c "" else RFC.escape c) = true.
Proof. by_byte c. Qed.

Lemma encode_query_escapes (c : ascii) (rest : string) :
  RFC.escapes_ok ((if Foundation.urlQueryAllowed c then String c "" else RFC.escape c) +:+ rest)
  = RFC.escapes_ok rest.
Proof. by_byte c. Qed.

Lemma percent_encode_query_legal (s : string) :
  Str.forallb Foundation.isURLLegalCharacter
    (RFC.percent_encode Foundation.urlQueryAllowed s) = true
  ∧ RFC.escapes_ok (RFC.percent_encode Foundation.urlQueryAllowed s) = true.
Proof.
  induction s as [|c s [IH1 IH2]]; simpl; [done |].
  by rewrite forallb_append, encode_query_chars, IH1, encode_query_escapes, IH2.
Qed.

Lemma iosquery_proxied_legal (port : N) (s : string) :
  Foundation.isLegalURLString
    ("http://127.0.0.1:" +:+ pretty port +:+ "/proxy?url="
     +:+ RFC.percent_encode Foundation.urlQueryAllowed s) = true.
Proof.
  destruct (percent_encode_query_legal s) as [H1 H2].
  unfold Foundation.isLegalURLString.
  rewrite !andb_true_iff. split; [split; [done |] |].
  - by rewrite !forallb_append, H1, pretty_N_legal.
  - rewrite escapes_ok_append; [| done].
    rewrite escapes_ok_append; [| apply pretty_N_no_percent].
    by rewrite escapes_ok_append.
Qed.

Lemma URL_string_Some (s : string) (u : Foundation.URL) :
  Foundation.URL_string s = Some u →
  u = Foundation.mkURL s None ∧ Foundation.isLegalURLString s = true.
Proof.
  unfold Foundation.URL_string.
  destruct (Foundation.isLegalURLString s); [| done].
  intros [= <-]. done.
Qed.

(** ** The path codec of the iOS proxy *)

Lemma ios_unproxied_proxied (p : IOS.CMCDProxy) (s : string) (u : Foundation.URL) :
  (0 < IOS.port p)%N →
  Foundation.URL_string s = Some u →
  IOS.createProxyUrl p u ≫= IOS.unproxiedUrl p = Some u.
Proof.
  intros Hp Hu. destruct (URL_string_Some s u Hu) as [-> Hs].
  unfold IOS.createProxyUrl.
  apply N.ltb_lt in Hp. rewrite Hp.
  cbn [Foundation.absoluteString Foundation.baseURL Foundation.relativeString].
  unfold Foundation.URL_string at 1. rewrite (ios_proxied_legal p s Hs).
  cbn [mbind option_bind]. unfold IOS.unproxiedUrl.
  cbn [Foundation.absoluteString Foundation.baseURL Foundation.relativeString].
  rewrite startsWith_append, drop_append. exact Hu.
Qed.

(** ** C1: the header fields of the upstream request *)

(** Setting the entries of a dictionary one by one on a request gives the
    dictionary's union with the request, the dictionary's values winning. *)
Lemma setValues_union (headers request : gmap string string) :
  IOS.setValues headers request = headers ∪ request.
Proof.
  unfold IOS.setValues.
  induction headers as [|k x m Hk Hfold IH] using map_first_key_ind.
  - by rewrite map_fold_empty, (left_id_L ∅ (∪)).
  - rewrite map_fold_insert_first_key by done.
    rewrite IH. by rewrite insert_union_l.
Qed.

(** On iOS the upstream request carries the merge of the forwarded, the
    static and the dynamic headers, a later map overriding an earlier one:
    a name has the dynamic value if there is one, else the static value if
    there is one, else the forwarded value. *)
Lemma ios_requestHeaders_merge (p : IOS.CMCDProxy) (f : gmap string string) :
  IOS.requestHeaders p f = IOS.dynamicHeaders p ∪ (IOS.staticHeaders p ∪ f)
  ∧ ∀ name,
      IOS.requestHeaders p f !! name
      = match IOS.dynamicHeaders p !! name with
        | Some x => Some x
        | None => match IOS.staticHeaders p !! name with
                  | Some x => Some x
                  | None => f !! name
                  end
        end.
Proof.
  assert (H : IOS.requestHeaders p f = IOS.dynamicHeaders p ∪ (IOS.staticHeaders p ∪ f)).
  { unfold IOS.requestHeaders, IOS.dynamicHeaders.
    destruct (IOS.dynamicHeadersProvider p) as [provider|];
      rewrite !setValues_union, (right_id_L ∅ (∪)); [done |].
    by rewrite (left_id_L ∅ (∪)). }
  split; [exact H |]. intros name. rewrite H.
  rewrite !lookup_union.
  destruct (IOS.dynamicHeaders p !! name), (IOS.staticHeaders p !! name), (f !! name); done.
Qed.

(** On Android the upstream request has one line per static entry and one
    per dynamic entry: a name that both maps hold is sent twice. *)
Lemma android_requestHeaders_lines (p : Android.CMCDProxy)
    (provider : unit → gmap string string) (name x y : string) :
  Android.dynamicHeadersProvider p = Some (Some provider) →
  Android.staticHeaders p !! name = Some x →
  provider () !! name = Some y →
  (name, x) ∈ Android.requestHeaders p ∧ (name, y) ∈ Android.requestHeaders p.
Proof.
  intros Hp Hs Hd. unfold Android.requestHeaders. rewrite Hp.
  rewrite !elem_of_app, !elem_of_map_to_list. auto.
Qed.

(** C1.  On Android a header name held by both the static map and the
    dynamic provider's result is sent twice, once with each value.  With
    static headers A: 1 and a dynamic provider returning A: 2 and B: 3, the
    Android proxy's upstream request has the three lines A: 1, A: 2, B: 3,
    two of them named A, where the merge has the two entries A: 2 and B: 3
    that the iOS proxy sends. *)
Theorem android_request_repeats_header :
  (∀ p provider name x y,
     Android.dynamicHeadersProvider p = Some (Some provider) →
     Android.staticHeaders p !! name = Some x →
     provider () !! name = Some y →
     (name, x) ∈ Android.requestHeaders p ∧ (name, y) ∈ Android.requestHeaders p)
  ∧ Android.staticHeaders Samples.android = {[ "A" := "1" ]}
  ∧ Android.requestHeaders Samples.android = [("A", "1"); ("A", "2"); ("B", "3")]
  ∧ Http.fieldsNamed "A" (Android.requestHeaders Samples.android)
    = [("A", "1"); ("A", "2")]
  ∧ head (Android.fetchAndProxy Samples.android Samples.redirecting Samples.manifestUrl)
    = Some (Http.Fetch Samples.manifestUrl [("A", "1"); ("A", "2"); ("B", "3")])
  ∧ map_to_list (IOS.requestHeaders Samples.ios ∅) = [("A", "2"); ("B", "3")].
Proof.
  split; [apply android_requestHeaders_lines |].
  repeat split; reflexivity.
Qed.

(** ** C2: the URL codec round trip *)

(** C2.  A proxy URL decodes to the URL it was made from.  On iOS
    [unproxiedUrl] undoes [createProxyUrl] on every URL that [URL(string:)]
    yields; on Android the proxy URL is the origin [http://127.0.0.1:port]
    followed by the proxy path, and [handleClient], reading the request line
    a client sends for that path, fetches the original URL. *)
Theorem codec_round_trip (ip : IOS.CMCDProxy) (ap : Android.CMCDProxy)
    (origin : Http.Origin) (headerLines : list string)
    (s : string) (u : Foundation.URL) :
  (0 < IOS.port ip)%N →
  Android._port ap ≠ 0%Z →
  Foundation.URL_string s = Some u →
  (IOS.createProxyUrl ip u ≫= IOS.unproxiedUrl ip = Some u)
  ∧ Android.createProxyUrl ap s
    = Some ("http://127.0.0.1:" +:+ pretty (Android._port ap) +:+ Android.proxyPath s)
  ∧ Android.route ("GET " +:+ Android.proxyPath s +:+ " HTTP/1.1") = Android.Proxy s
  ∧ Android.handleClient ap origin
      (("GET " +:+ Android.proxyPath s +:+ " HTTP/1.1") :: headerLines)
    = (Android.fetchAndProxy ap origin s ++ [Http.Close])%list.
Proof.
  intros Hip Hap Hu. split; [| split; [| split]].
  - by apply (ios_unproxied_proxied ip s u).
  - unfold Android.createProxyUrl.
    apply Z.eqb_neq in Hap. by rewrite Hap.
  - apply android_route_proxyPath.
  - unfold Android.handleClient. by rewrite android_route_proxyPath.
Qed.

Lemma codec_round_trip_witness :
  (0 < IOS.port Samples.ios)%N
  ∧ Android._port Samples.android ≠ 0%Z
  ∧ Foundation.URL_string Samples.manifestUrl
    = Some (Foundation.mkURL Samples.manifestUrl None)
  ∧ (IOS.createProxyUrl Samples.ios (Foundation.mkURL Samples.manifestUrl None)
       ≫= IOS.unproxiedUrl Samples.ios
     = Some (Foundation.mkURL Samples.manifestUrl None))
  ∧ Android.route ("GET " +:+ Android.proxyPath Samples.manifestUrl +:+ " HTTP/1.1")
    = Android.Proxy Samples.manifestUrl.
Proof.
  assert (H1 : (0 < IOS.port Samples.ios)%N) by (simpl; lia).
  assert (H2 : Android._port Samples.android ≠ 0%Z) by (simpl; lia).
  assert (H3 : Foundation.URL_string Samples.manifestUrl
               = Some (Foundation.mkURL Samples.manifestUrl None)) by reflexivity.
  pose proof (codec_round_trip Samples.ios Samples.android Samples.redirecting []
                Samples.manifestUrl _ H1 H2 H3) as (Hi & _ & Hr & _).
  exact (conj H1 (conj H2 (conj H3 (conj Hi Hr)))).
Defined.

(** ** C3: the playlist rewriter *)

Lemma join_cons_head (sep : string) (a : ascii) (l : list string) :
  l ≠ [] → Str.join sep (Str.cons_head a l) = String a (Str.join sep l).
Proof. destruct l as [|h [|h' t]]; done. Qed.

Lemma split_not_nil (c : ascii) (s : string) : Str.split c s ≠ [].
Proof.
  induction s as [|a s IH]; simpl; [done |].
  destruct (Ascii.eqb a c); [done |].
  by destruct (Str.split c s).
Qed.

(** Joining the pieces of a split with the separator gives the text back. *)
Lemma join_split (c : ascii) (s : string) :
  Str.join (String c "") (Str.split c s) = s.
Proof.
  induction s as [|a s IH]; [done |].
  cbn [Str.split]. destruct (Ascii.eqb_spec a c) as [-> | Hne].
  - pose proof (split_not_nil c s) as Hn.
    destruct (Str.split c s) as [|h t]; [done |].
    change (Str.join (String c "") ("" :: h :: t))
      with (String c (Str.join (String c "") (h :: t))).
    by rewrite IH.
  - rewrite join_cons_head by apply split_not_nil. by rewrite IH.
Qed.

Section RewriterFacts.

Context (U : Type) (resolveUrl : string → option U)
  (createProxyUrl : U → option string) (ws : ascii → bool).

(** The loop writes the rewritten lines joined by line feeds and one more
    line feed after the last of them. *)
Lemma appendLines_join (lines : list string) :
  lines ≠ [] →
  HLS.appendLines U resolveUrl createProxyUrl ws lines
  = Str.join Http.LF (HLS.rewriteLine U resolveUrl createProxyUrl ws <$> lines) +:+ Http.LF.
Proof.
  induction lines as [|l [|l' rest] IH]; [done | |]; intros _.
  - reflexivity.
  - cbn [HLS.appendLines]. cbn [HLS.appendLines] in IH. rewrite IH by done.
    cbn [fmap list_fmap Str.join]. by rewrite !append_assoc.
Qed.

Lemma rewriteContent_join (content : string) :
  HLS.rewriteContent U resolveUrl createProxyUrl ws content
  = Str.join Http.LF
      (HLS.rewriteLine U resolveUrl createProxyUrl ws <$> Str.split "010" content)
    +:+ Http.LF.
Proof. unfold HLS.rewriteContent. apply appendLines_join, split_not_nil. Qed.

(** A body none of whose lines is rewritten comes out with one line feed
    more than it came in with. *)
Lemma rewriteContent_unrewritten (content : string) :
  Forall (λ line, HLS.rewriteLine U resolveUrl createProxyUrl ws line = line)
    (Str.split "010" content) →
  HLS.rewriteContent U resolveUrl createProxyUrl ws content = content +:+ Http.LF.
Proof.
  intros Hl. rewrite rewriteContent_join. f_equal.
  rewrite <- (join_split "010" content) at 2. f_equal.
  induction Hl as [|l ls Hl _ IH]; [done |].
  cbn [fmap list_fmap]. rewrite Hl. f_equal. exact IH.
Qed.

(** The lines the loop leaves alone: tags and comments without a URI
    attribute, blank lines, lines that do not resolve and lines for which
    no proxy URL can be made. *)
Lemma rewriteLine_unchanged (line : string) :
  Str.contains HLS.uriOpen line = false →
  Str.startsWith "#" line = true
  ∨ Str.isEmpty (Str.trim ws line) = true
  ∨ resolveUrl (Str.trim ws line) = None
  ∨ (∃ u, resolveUrl (Str.trim ws line) = Some u ∧ createProxyUrl u = None) →
  HLS.rewriteLine U resolveUrl createProxyUrl ws line = line.
Proof.
  intros Hc H. unfold HLS.rewriteLine. rewrite Hc.
  destruct (Str.startsWith "#" line); [done |].
  destruct (Str.isEmpty (Str.trim ws line)); [done |].
  cbn [negb andb].
  destruct H as [? | [? | [-> | (u & -> & ->)]]]; done.
Qed.

(** A line that is neither blank nor a tag, holds no URI attribute and
    resolves becomes the proxy URL of what it resolves to. *)
Lemma rewriteLine_segment (line : string) (u : U) (proxyUrl : string) :
  Str.contains HLS.uriOpen line = false →
  Str.startsWith "#" line = false →
  Str.isEmpty (Str.trim ws line) = false →
  resolveUrl (Str.trim ws line) = Some u →
  createProxyUrl u = Some proxyUrl →
  HLS.rewriteLine U resolveUrl createProxyUrl ws line = proxyUrl.
Proof.
  intros Hc Hs He Hr Hp. unfold HLS.rewriteLine.
  by rewrite Hc, Hs, He, Hr, Hp.
Qed.

End RewriterFacts.

(** A key tag: only the value of its URI attribute changes. *)
Example android_rewrites_uri_attribute :
  Android.rewriteHLSManifest Samples.android
    ("#EXT-X-KEY:METHOD=AES-128,URI=" +:+ String HLS.quote "key.bin"
     +:+ String HLS.quote ",IV=0x1")
    Samples.manifestUrl
  = "#EXT-X-KEY:METHOD=AES-128,URI="
    +:+ String HLS.quote
          "http://127.0.0.1:8080/proxy?url=https%3A%2F%2Fcdn.example%2Fmedia%2Fkey.bin"
    +:+ String HLS.quote ",IV=0x1" +:+ Http.LF.
Proof. reflexivity. Qed.

(** A segment line ending in CR LF: on Android the line is trimmed before it
    is resolved and its carriage return is not written back; the earlier
    Swift proxy, whose trimming leaves the carriage return, finds no URL in
    the line and keeps it. *)
Example rewrites_crlf_line :
  Android.rewriteHLSManifest Samples.android ("seg.ts" +:+ Http.CRLF) Samples.manifestUrl
  = "http://127.0.0.1:8080/proxy?url=https%3A%2F%2Fcdn.example%2Fmedia%2Fseg.ts"
    +:+ Http.LF +:+ Http.LF
  ∧ IOSQuery.rewriteHLSManifest Samples.iosQuery ("seg.ts" +:+ Http.CRLF)
      (Foundation.mkURL Samples.manifestUrl None)
    = "seg.ts" +:+ Http.CRLF +:+ Http.LF.
Proof. split; reflexivity. Qed.

Lemma append_LF_differs (s : string) : s +:+ Http.LF ≠ s.
Proof.
  intros H. apply (f_equal String.length) in H.
  rewrite length_append in H. simpl in H. lia.
Qed.

(** C3.  The rewriters write the rewritten lines joined by line feeds and
    then one line feed more.  So a body none of whose lines is rewritten
    does not come out as it went in but with a line feed added: the
    playlist that is the line #EXTM3U and a line feed comes out with two
    line feeds, on Android and in the earlier Swift proxy.  The two segment
    lines of the specification become their proxy URLs, followed by an
    empty line. *)
Theorem rewriter_appends_line_feed :
  (∀ p content baseUrl baseUri,
     Java.URI_create baseUrl = Some baseUri →
     Android.rewriteHLSManifest p content baseUrl
     = Str.join Http.LF
         (HLS.rewriteLine string (Android.resolveUrl baseUri) (Android.createProxyUrl p)
            Str.isWhitespace <$> Str.split "010" content)
       +:+ Http.LF
     ∧ (Forall (λ line, HLS.rewriteLine string (Android.resolveUrl baseUri)
                          (Android.createProxyUrl p) Str.isWhitespace line = line)
          (Str.split "010" content) →
        Android.rewriteHLSManifest p content baseUrl = content +:+ Http.LF
        ∧ Android.rewriteHLSManifest p content baseUrl ≠ content))
  ∧ Android.rewriteHLSManifest Samples.android ("#EXTM3U" +:+ Http.LF) Samples.manifestUrl
    = "#EXTM3U" +:+ Http.LF +:+ Http.LF
  ∧ IOSQuery.rewriteHLSManifest Samples.iosQuery ("#EXTM3U" +:+ Http.LF)
      (Foundation.mkURL Samples.manifestUrl None)
    = "#EXTM3U" +:+ Http.LF +:+ Http.LF
  ∧ Android.rewriteHLSManifest Samples.android
      ("segment1.ts" +:+ Http.LF +:+ "segment2.ts" +:+ Http.LF) Samples.manifestUrl
    = "http://127.0.0.1:8080/proxy?url=https%3A%2F%2Fcdn.example%2Fmedia%2Fsegment1.ts"
      +:+ Http.LF
      +:+ "http://127.0.0.1:8080/proxy?url=https%3A%2F%2Fcdn.example%2Fmedia%2Fsegment2.ts"
      +:+ Http.LF +:+ Http.LF.
Proof.
  split; [| repeat split; reflexivity].
  intros p content baseUrl baseUri Hb.
  unfold Android.rewriteHLSManifest. rewrite Hb.
  split; [apply rewriteContent_join |].
  intros Hl. rewrite rewriteContent_unrewritten by done.
  split; [done | apply append_LF_differs].
Qed.

(** ** C4: redirects *)








(** ** C5: what the response writers emit *)

Lemma fieldsNamed_forwarded (skipped : string → bool) (name : string)
    (l : list (string * string)) :
  skipped (Str.lowercase name) = true →
  Http.fieldsNamed name (filter (λ h, negb (skipped (Str.lowercase (fst h)))) l) = [].
Proof.
  intros Hn. unfold Http.fieldsNamed.
  induction l as [|h l IH]; [done |].
  rewrite filter_cons. case_decide as Hh; [| exact IH].
  rewrite filter_cons. case_decide as Hh'; [| exact IH].
  rewrite Hh', Hn in Hh. done.
Qed.

(** A response whose header lines are the CORS header, the forwarded
    upstream fields and the recomputed Content-Length. *)
Lemma forwarded_wellWritten (skipped : string → bool) (statusCode : Z) (reason : string)
    (l : list (string * string)) (body : string) :
  skipped "content-encoding" = true →
  skipped "transfer-encoding" = true →
  skipped "content-length" = true →
  Http.wellWritten
    (Http.mkResponse statusCode reason
       (("Access-Control-Allow-Origin", "*")
          :: filter (λ h, negb (skipped (Str.lowercase (fst h)))) l
          ++ [("Content-Length", pretty (Z.of_nat (String.length body)))])
       body).
Proof.
  intros He Ht Hl.
  unfold Http.wellWritten, Http.hasCorsHeader, Http.lengthRecomputed.
  cbn [Http.headerLines Http.body].
  split; [apply list_elem_of_here |].
  assert (Hf : ∀ name rest,
             Str.lowercase "Access-Control-Allow-Origin" ≠ Str.lowercase name →
             skipped (Str.lowercase name) = true →
             Http.fieldsNamed name
               (("Access-Control-Allow-Origin", "*")
                  :: filter (λ h, negb (skipped (Str.lowercase (fst h)))) l ++ rest)
             = Http.fieldsNamed name rest).
  { intros name rest Hne Hs. unfold Http.fieldsNamed at 1.
    rewrite filter_cons_False by done. rewrite filter_app.
    fold (Http.fieldsNamed name (filter (λ h, negb (skipped (Str.lowercase (fst h)))) l)).
    by rewrite fieldsNamed_forwarded. }
  rewrite !Hf by done. done.
Qed.

(** The responses [sendResponse] writes on Android and in the earlier
    Swift proxy, whatever the upstream header fields; the responses
    [sendResponse] writes on iOS; the error responses of all three. *)
Lemma ordinary_responses_wellWritten (statusCode : Z) (headers : gmap string string)
    (contentType : option string) (body message : string) (isManifest : bool) :
  Http.wellWritten (Android.sendResponse statusCode headers body)
  ∧ Http.wellWritten (IOSQuery.sendResponse statusCode headers body isManifest)
  ∧ Http.wellWritten (IOS.sendResponse statusCode contentType body)
  ∧ Http.wellWritten (Android.sendErrorResponse statusCode message)
  ∧ Http.wellWritten (IOS.sendErrorResponse statusCode message)
  ∧ Http.wellWritten (IOSQuery.sendErrorResponse statusCode message).
Proof.
  split; [by apply (forwarded_wellWritten Android.skippedHeader) |].
  split; [by apply (forwarded_wellWritten IOSQuery.skippedHeader) |].
  split.
  { unfold Http.wellWritten, Http.hasCorsHeader, Http.lengthRecomputed.
    destruct contentType; cbn; (split; [apply list_elem_of_here | done]). }
  split.
  { unfold Http.wellWritten, Http.hasCorsHeader, Http.lengthRecomputed. cbn.
    split; [| done]. do 2 apply list_elem_of_further. apply list_elem_of_here. }
  split.
  { unfold Http.wellWritten, Http.hasCorsHeader, Http.lengthRecomputed. cbn.
    split; [apply list_elem_of_here | done]. }
  by apply (forwarded_wellWritten IOSQuery.skippedHeader).
Qed.

(** The redirect response of the iOS proxy has two header lines, neither of
    them the CORS header. *)
Lemma ios_redirect_lines (statusCode : Z) (location : string) :
  Http.headerLines (IOS.sendRedirectResponse statusCode location)
  = [("Location", location); ("Content-Length", "0")]
  ∧ Http.fieldsNamed "Access-Control-Allow-Origin"
      (Http.headerLines (IOS.sendRedirectResponse statusCode location)) = []
  ∧ ¬ Http.hasCorsHeader (IOS.sendRedirectResponse statusCode location).
Proof.
  split; [done |]. split; [done |].
  unfold Http.hasCorsHeader. cbn.
  intros H. apply elem_of_cons in H as [[=] | H].
  apply elem_of_cons in H as [[=] | H].
  by apply not_elem_of_nil in H.
Qed.

(** C5.  No response written by [sendRedirectResponse] carries the CORS
    header.  The iOS proxy answers an upstream 302 whose Location resolves
    with such a response: its header lines are Location and
    Content-Length: 0, and Access-Control-Allow-Origin is not among them
    (the responses [sendResponse] writes do carry it). *)
Theorem ios_redirect_response_lacks_cors :
  (∀ statusCode location,
     ¬ Http.hasCorsHeader (IOS.sendRedirectResponse statusCode location))
  ∧ IOS.proxyResponse Samples.ios (Foundation.mkURL "https://cdn.example/a/b.m3u8" None)
    (Samples.redirecting "https://cdn.example/a/b.m3u8" [])
  = IOS.sendRedirectResponse 302 "http://localhost:8080/https://cdn.example/v2/seg.ts"
  ∧ Http.wire Http.CRLF
      (IOS.sendRedirectResponse 302 "http://localhost:8080/https://cdn.example/v2/seg.ts")
    = "HTTP/1.1 302 Found" +:+ Http.CRLF
      +:+ "Location: http://localhost:8080/https://cdn.example/v2/seg.ts" +:+ Http.CRLF
      +:+ "Content-Length: 0" +:+ Http.CRLF +:+ Http.CRLF
  ∧ Http.fieldsNamed "Access-Control-Allow-Origin"
      (Http.headerLines
         (IOS.sendRedirectResponse 302 "http://localhost:8080/https://cdn.example/v2/seg.ts"))
    = []
  ∧ ¬ Http.hasCorsHeader
        (IOS.sendRedirectResponse 302 "http://localhost:8080/https://cdn.example/v2/seg.ts").
Proof.
  split; [intros statusCode location; apply ios_redirect_lines |].
  split; [reflexivity |]. split; [reflexivity |]. split; [reflexivity |].
  apply ios_redirect_lines.
Qed.

(** ** C6: the content type of a rewritten playlist *)


(** C6.  In the earlier Swift proxy [sendResponse] writes the same response
    whether or not it is told that the body is a playlist.  A playlist at a
    URL ending in .m3u8 that the origin reports as text/plain: that proxy
    classifies it as a playlist, rewrites its body and writes it with the
    origin's Content-Type, text/plain; the Android proxy writes
    application/vnd.apple.mpegurl. *)
Theorem iosquery_manifest_keeps_upstream_type :
  (∀ statusCode headers data,
     IOSQuery.sendResponse statusCode headers data true
     = IOSQuery.sendResponse statusCode headers data false)
  ∧ IOSQuery.isManifest "text/plain" (Foundation.mkURL Samples.manifestUrl None) = true
  ∧ IOSQuery.proxyResponse Samples.iosQuery (Foundation.mkURL Samples.manifestUrl None)
      (Http.UpstreamOk Samples.plainPlaylist)
    = Http.mkResponse 200 "OK"
        [("Access-Control-Allow-Origin", "*"); ("Content-Type", "text/plain");
         ("Content-Length", "9")]
        ("#EXTM3U" +:+ Http.LF +:+ Http.LF)
  ∧ Http.fieldsNamed "Content-Type"
      (Http.headerLines
         (IOSQuery.proxyResponse Samples.iosQuery (Foundation.mkURL Samples.manifestUrl None)
            (Http.UpstreamOk Samples.plainPlaylist)))
    = [("Content-Type", "text/plain")]
  ∧ Http.fieldsNamed "Content-Type"
      (Http.headerLines
         (Android.proxyResponse Samples.android Samples.manifestUrl
            (Http.UpstreamOk Samples.plainPlaylist)))
    = [("Content-Type", "application/vnd.apple.mpegurl")].
Proof.
  split; [reflexivity |].
  repeat split; reflexivity.
Qed.

(** ** C7: requests that are not GET *)



(** ** C8: [stop] *)

Lemma ios_stop_idempotent (p : IOS.CMCDProxy) : IOS.stop (IOS.stop p) = IOS.stop p.
Proof.
  unfold IOS.stop at 1. cbn [IOS.listener IOS.activeConnections IOS.stop
    IOS.dynamicHeadersProvider IOS.staticHeaders IOS.cancelledListeners
    IOS.cancelledConnections].
  unfold IOS.stop. f_equal. rewrite list_to_set_nil. by rewrite (left_id_L ∅ (∪)).
Qed.

Lemma iosquery_stop_idempotent (p : IOSQuery.CMCDProxy) :
  IOSQuery.stop (IOSQuery.stop p) = IOSQuery.stop p.
Proof.
  unfold IOSQuery.stop at 1. cbn [IOSQuery.listener IOSQuery.activeConnections
    IOSQuery.stop IOSQuery.dynamicHeadersProvider IOSQuery.staticHeaders
    IOSQuery.cancelledListeners IOSQuery.cancelledConnections].
  unfold IOSQuery.stop. f_equal. by rewrite (left_id_L ∅ (∪)).
Qed.

Lemma android_stop_idempotent (p : Android.CMCDProxy) :
  Android.stop (Android.stop p) = Android.stop p.
Proof. reflexivity. Qed.

(** C8.  After [stop], whatever the state before: the proxy is not running,
    its port is zero, no connection is tracked any more and [cancel()] has
    been called on every connection that was tracked (the Swift proxies,
    which track connections); on Android, which tracks none, the server
    socket has been closed and the executor shut down.  A second [stop]
    changes nothing. *)
Theorem stop_tears_down (ip : IOS.CMCDProxy) (qp : IOSQuery.CMCDProxy)
    (ap : Android.CMCDProxy) :
  (IOS.Manager_isRunning (IOS.stop ip) = false
   ∧ IOS.port (IOS.stop ip) = 0%N
   ∧ IOS.listener (IOS.stop ip) = None
   ∧ IOS.activeConnections (IOS.stop ip) = []
   ∧ (∀ c, c ∈ IOS.activeConnections ip → c ∈ IOS.cancelledConnections (IOS.stop ip))
   ∧ (∀ l, IOS.listener ip = Some l → l ∈ IOS.cancelledListeners (IOS.stop ip))
   ∧ IOS.stop (IOS.stop ip) = IOS.stop ip)
  ∧ (IOSQuery.isReady (IOSQuery.stop qp) = false
     ∧ IOSQuery.port (IOSQuery.stop qp) = 0%N
     ∧ IOSQuery.activeConnections (IOSQuery.stop qp) = ∅
     ∧ (∀ c, c ∈ IOSQuery.activeConnections qp
             → c ∈ IOSQuery.cancelledConnections (IOSQuery.stop qp))
     ∧ IOSQuery.stop (IOSQuery.stop qp) = IOSQuery.stop qp)
  ∧ (Android.Manager_isRunning (Android.stop ap) = false
     ∧ Android.isRunning (Android.stop ap) = false
     ∧ Android.port (Android.stop ap) = 0%Z
     ∧ Android.serverSocket (Android.stop ap) = None
     ∧ Android.executor (Android.stop ap) = None
     ∧ (∀ s, Android.serverSocket ap = Some s → s ∈ Android.closedSockets (Android.stop ap))
     ∧ (∀ e, Android.executor ap = Some e → e ∈ Android.shutdownExecutors (Android.stop ap))
     ∧ Android.stop (Android.stop ap) = Android.stop ap).
Proof.
  split; [| split].
  - repeat split; try done.
    + intros c Hc. cbn. set_solver.
    + intros l Hl. cbn. rewrite Hl. set_solver.
    + apply ios_stop_idempotent.
  - repeat split; try done.
    + intros c Hc. cbn. set_solver.
    + apply iosquery_stop_idempotent.
  - repeat split; try done.
    + intros s Hs. cbn. rewrite Hs. set_solver.
    + intros e He. cbn. rewrite He. set_solver.
Qed.

(** ** C9: when [createProxyUrl] yields nothing *)

(** C9.  [createProxyUrl] yields null exactly when the port is zero: in the
    JavaScript facade and on Android for every string, in the earlier Swift
    proxy for every URL, and in the iOS proxy for every URL whose absolute
    string is one [URL(string:)] accepts. *)
Theorem createProxyUrl_null_iff_stopped (port : Z) (ap : Android.CMCDProxy)
    (ip : IOS.CMCDProxy) (qp : IOSQuery.CMCDProxy)
    (s : string) (u : Foundation.URL) :
  (TS.createProxyUrl port s = None ↔ port = 0%Z)
  ∧ (Android.createProxyUrl ap s = None ↔ Android._port ap = 0%Z)
  ∧ (IOSQuery.createProxyUrl qp u = None ↔ IOSQuery.port qp = 0%N)
  ∧ (Foundation.isLegalURLString (Foundation.absoluteString u) = true →
     (IOS.createProxyUrl ip u = None ↔ IOS.port ip = 0%N)).
Proof.
  split; [| split; [| split]].
  - unfold TS.createProxyUrl. destruct (Z.eqb_spec port 0); naive_solver.
  - unfold Android.createProxyUrl.
    destruct (Z.eqb_spec (Android._port ap) 0); naive_solver.
  - unfold IOSQuery.createProxyUrl, Foundation.addingPercentEncoding, Foundation.URL_string.
    rewrite iosquery_proxied_legal.
    destruct (N.ltb_spec 0 (IOSQuery.port qp)); split; try done; lia.
  - intros Hu. unfold IOS.createProxyUrl, Foundation.URL_string.
    rewrite (ios_proxied_legal ip _ Hu).
    destruct (N.ltb_spec 0 (IOS.port ip)); split; try done; lia.
Qed.

(** A URL made relative to the sample playlist, on the running and on the
    stopped iOS proxy. *)
Lemma createProxyUrl_null_iff_stopped_witness :
  Foundation.isLegalURLString
    (Foundation.absoluteString (Foundation.mkURL "../v2/seg.ts" (Some Samples.manifestUrl)))
  = true
  ∧ (IOS.createProxyUrl Samples.ios (Foundation.mkURL "../v2/seg.ts" (Some Samples.manifestUrl))
     = None ↔ IOS.port Samples.ios = 0%N)
  ∧ (IOS.createProxyUrl (IOS.stop Samples.ios)
       (Foundation.mkURL "../v2/seg.ts" (Some Samples.manifestUrl))
     = None ↔ IOS.port (IOS.stop Samples.ios) = 0%N).
Proof.
  assert (H : Foundation.isLegalURLString
                (Foundation.absoluteString
                   (Foundation.mkURL "../v2/seg.ts" (Some Samples.manifestUrl))) = true)
    by reflexivity.
  split; [exact H |]. split.
  - exact (proj2 (proj2 (proj2
      (createProxyUrl_null_iff_stopped 0 Samples.android Samples.ios Samples.iosQuery "" _)))
      H).
  - exact (proj2 (proj2 (proj2
      (createProxyUrl_null_iff_stopped 0 Samples.android (IOS.stop Samples.ios)
         Samples.iosQuery "" _))) H).
Defined.

(** ** C10: CMCD headers of groups whose only field is a false flag *)

Section CmcdFacts.

Context (number : Type) (isInteger : number → bool)
  (numberToString toFixed0 : number → string).

Lemma setHeader_lookup_eq (name : string) (parts : list string) (h : gmap string string) :
  h !! name = None → TS.setHeader name parts h !! name = TS.headerOf parts.
Proof.
  intros Hh. unfold TS.setHeader. destruct parts as [|x parts]; simpl; [done |].
  apply lookup_insert_eq.
Qed.

Lemma setHeader_lookup_ne (name k : string) (parts : list string) (h : gmap string string) :
  name ≠ k → TS.setHeader name parts h !! k = h !! k.
Proof.
  intros Hne. unfold TS.setHeader. destruct parts as [|x parts]; simpl; [done |].
  by apply lookup_insert_ne.
Qed.

Lemma formatCmcdHeaders_lookup (data : TS.CmcdData number) :
  let headers := TS.formatCmcdHeaders number isInteger numberToString toFixed0 data in
  headers !! "CMCD-Object"
    = TS.headerOf (TS.objectParts number isInteger numberToString toFixed0 data)
  ∧ headers !! "CMCD-Request"
    = TS.headerOf (TS.requestParts number isInteger numberToString toFixed0 data)
  ∧ headers !! "CMCD-Session"
    = TS.headerOf (TS.sessionParts number isInteger numberToString toFixed0 data)
  ∧ headers !! "CMCD-Status"
    = TS.headerOf (TS.statusParts number isInteger numberToString toFixed0 data).
Proof.
  cbv zeta. unfold TS.formatCmcdHeaders. split; [| split; [| split]].
  - rewrite !setHeader_lookup_ne by done. by apply setHeader_lookup_eq.
  - rewrite !setHeader_lookup_ne by done. apply setHeader_lookup_eq.
    by rewrite setHeader_lookup_ne.
  - rewrite setHeader_lookup_ne by done. apply setHeader_lookup_eq.
    by rewrite !setHeader_lookup_ne.
  - apply setHeader_lookup_eq. by rewrite !setHeader_lookup_ne.
Qed.

Lemma headerOf_is_Some (parts : list string) : is_Some (TS.headerOf parts) ↔ parts ≠ [].
Proof.
  destruct parts; simpl.
  - split; [by intros [? ?] | done].
  - split; [done | by eexists].
Qed.

Lemma push_nil (key : string) (value : option (TS.JSValue number)) (parts : list string) :
  TS.push number isInteger numberToString toFixed0 key value parts = []
  ↔ value = None ∧ parts = [].
Proof.
  destruct value as [x|]; simpl.
  - split; [| by intros [? _]]. intros H. by apply app_eq_nil in H as [_ ?].
  - split; [done | by intros [_ ?]].
Qed.

Lemma objectParts_defined (data : TS.CmcdData number) :
  TS.objectParts number isInteger numberToString toFixed0 data ≠ []
  ↔ is_Some (TS.br number data) ∨ is_Some (TS.d number data)
    ∨ is_Some (TS.ot number data) ∨ is_Some (TS.tb number data).
Proof.
  unfold TS.objectParts. rewrite !push_nil, !fmap_None.
  destruct (TS.br number data), (TS.d number data), (TS.ot number data),
    (TS.tb number data); split; intros H;
    try (by repeat (first [left; by eexists | right]));
    try (by exfalso; apply H);
    try (by intros (? & ? & ? & ? & _));
    by destruct H as [[? ?] | [[? ?] | [[? ?] | [? ?]]]].
Qed.

Lemma requestParts_defined (data : TS.CmcdData number) :
  TS.requestParts number isInteger numberToString toFixed0 data ≠ []
  ↔ is_Some (TS.bl number data) ∨ is_Some (TS.dl number data)
    ∨ is_Some (TS.mtp number data) ∨ is_Some (TS.nor number data)
    ∨ is_Some (TS.nrr number data) ∨ is_Some (TS.su number data).
Proof.
  unfold TS.requestParts. rewrite !push_nil, !fmap_None.
  destruct (TS.bl number data), (TS.dl number data), (TS.mtp number data),
    (TS.nor number data), (TS.nrr number data), (TS.su number data); split; intros H;
    try (by repeat (first [left; by eexists | right; by eexists | right]));
    try (by exfalso; apply H);
    try (by intros (? & ? & ? & ? & ? & ? & _));
    by destruct H as [[? ?] | [[? ?] | [[? ?] | [[? ?] | [[? ?] | [? ?]]]]]].
Qed.

Lemma sessionParts_defined (data : TS.CmcdData number) :
  TS.sessionParts number isInteger numberToString toFixed0 data ≠ []
  ↔ is_Some (TS.cid number data) ∨ is_Some (TS.pr number data)
    ∨ is_Some (TS.sf number data) ∨ is_Some (TS.sid number data)
    ∨ is_Some (TS.st number data) ∨ is_Some (TS.v number data).
Proof.
  unfold TS.sessionParts. rewrite !push_nil, !fmap_None.
  destruct (TS.cid number data), (TS.pr number data), (TS.sf number data),
    (TS.sid number data), (TS.st number data), (TS.v number data); split; intros H;
    try (by repeat (first [left; by eexists | right; by eexists | right]));
    try (by exfalso; apply H);
    try (by intros (? & ? & ? & ? & ? & ? & _));
    by destruct H as [[? ?] | [[? ?] | [[? ?] | [[? ?] | [[? ?] | [? ?]]]]]].
Qed.

Lemma statusParts_defined (data : TS.CmcdData number) :
  TS.statusParts number isInteger numberToString toFixed0 data ≠ []
  ↔ is_Some (TS.bs number data) ∨ is_Some (TS.rtp number data).
Proof.
  unfold TS.statusParts. rewrite !push_nil, !fmap_None.
  destruct (TS.bs number data), (TS.rtp number data); split; intros H;
    try (by repeat (first [left; by eexists | right; by eexists | right]));
    try (by exfalso; apply H);
    try (by intros (? & ? & _));
    by destruct H as [[? ?] | [? ?]].
Qed.

End CmcdFacts.

(** C10.  When the only defined field of the request group is [su] and it
    is false, the result holds CMCD-Request with the empty string as its
    value; likewise CMCD-Status when [bs] alone is defined and false.  In
    general the header of a group is in the result exactly when one of the
    group's fields is defined. *)
Theorem cmcd_false_flag_keeps_header (number : Type) (isInteger : number → bool)
    (numberToString toFixed0 : number → string) (data : TS.CmcdData number) :
  let headers := TS.formatCmcdHeaders number isInteger numberToString toFixed0 data in
  (TS.bl number data = None ∧ TS.dl number data = None ∧ TS.mtp number data = None
   ∧ TS.nor number data = None ∧ TS.nrr number data = None
   ∧ TS.su number data = Some false
   → headers !! "CMCD-Request" = Some "")
  ∧ (TS.rtp number data = None ∧ TS.bs number data = Some false
     → headers !! "CMCD-Status" = Some "")
  ∧ (is_Some (headers !! "CMCD-Object")
     ↔ is_Some (TS.br number data) ∨ is_Some (TS.d number data)
       ∨ is_Some (TS.ot number data) ∨ is_Some (TS.tb number data))
  ∧ (is_Some (headers !! "CMCD-Request")
     ↔ is_Some (TS.bl number data) ∨ is_Some (TS.dl number data)
       ∨ is_Some (TS.mtp number data) ∨ is_Some (TS.nor number data)
       ∨ is_Some (TS.nrr number data) ∨ is_Some (TS.su number data))
  ∧ (is_Some (headers !! "CMCD-Session")
     ↔ is_Some (TS.cid number data) ∨ is_Some (TS.pr number data)
       ∨ is_Some (TS.sf number data) ∨ is_Some (TS.sid number data)
       ∨ is_Some (TS.st number data) ∨ is_Some (TS.v number data))
  ∧ (is_Some (headers !! "CMCD-Status")
     ↔ is_Some (TS.bs number data) ∨ is_Some (TS.rtp number data)).
Proof.
  cbv zeta.
  destruct (formatCmcdHeaders_lookup number isInteger numberToString toFixed0 data)
    as (Ho & Hr & Hs & Ht).
  rewrite Ho, Hr, Hs, Ht, !headerOf_is_Some.
  rewrite objectParts_defined, requestParts_defined, sessionParts_defined,
    statusParts_defined.
  split; [| split; [| done]].
  - intros (Hbl & Hdl & Hmtp & Hnor & Hnrr & Hsu).
    unfold TS.requestParts. by rewrite Hbl, Hdl, Hmtp, Hnor, Hnrr, Hsu.
  - intros (Hrtp & Hbs).
    unfold TS.statusParts. by rewrite Hrtp, Hbs.
Qed.

(** The input [{su: false}]. *)
Lemma cmcd_false_flag_keeps_header_witness :
  TS.formatCmcdHeaders Z (λ _, true) pretty pretty
    (TS.mkCmcdData Z None None None None None None None None None None None
       (Some false) None None None None None None)
  !! "CMCD-Request" = Some "".
Proof.
  exact (proj1 (cmcd_false_flag_keeps_header Z (λ _, true) pretty pretty
                  (TS.mkCmcdData Z None None None None None None None None None None None
                     (Some false) None None None None None None))
           (conj eq_refl (conj eq_refl (conj eq_refl (conj eq_refl (conj eq_refl eq_refl)))))).
Defined.

(** The inputs with [su] alone and with [bs] alone, both false, evaluated. *)
Example cmcd_su_false :
  TS.formatCmcdHeaders Z (λ _, true) pretty pretty
    (TS.mkCmcdData Z None None None None None None None None None None None
       (Some false) None None None None None None)
  = {[ "CMCD-Request" := "" ]}.
Proof. reflexivity. Qed.

Example cmcd_bs_false :
  TS.formatCmcdHeaders Z (λ _, true) pretty pretty
    (TS.mkCmcdData Z None None None None None None None None None None None
       None (Some false) None None None None None)
  = {[ "CMCD-Status" := "" ]}.
Proof. reflexivity. Qed.

(** ** Further properties of the proxies *)

(** X1.  On the iOS proxy the header fields of the upstream request are the
    merge of the forwarded request headers, then the static headers, then
    the dynamic provider's result, a later map's value replacing an earlier
    one's; with static A: 1 and dynamic A: 2, B: 3 they are A: 2 and B: 3. *)
Theorem ios_upstream_headers_are_the_merge (p : IOS.CMCDProxy) (f : gmap string string) :
  IOS.requestHeaders p f = IOS.dynamicHeaders p ∪ (IOS.staticHeaders p ∪ f)
  ∧ (∀ name,
       IOS.requestHeaders p f !! name
       = match IOS.dynamicHeaders p !! name with
         | Some x => Some x
         | None => match IOS.staticHeaders p !! name with
                   | Some x => Some x
                   | None => f !! name
                   end
         end)
  ∧ IOS.requestHeaders Samples.ios ∅ = <[ "B" := "3" ]> {[ "A" := "2" ]}.
Proof.
  destruct (ios_requestHeaders_merge p f) as [H1 H2].
  split; [exact H1 |]. split; [exact H2 |].
  destruct (ios_requestHeaders_merge Samples.ios ∅) as [-> _].
  apply map_eq. intros name.
  rewrite !lookup_union, lookup_empty.
  unfold IOS.dynamicHeaders, Samples.ios, Samples.dynamicA2B3, Samples.staticA1.
  cbn [IOS.dynamicHeadersProvider IOS.staticHeaders].
  destruct (decide (name = "B")) as [-> | HB]; [done |].
  rewrite lookup_insert_ne by done.
  destruct (decide (name = "A")) as [-> | HA]; [done |].
  by rewrite !lookup_singleton_ne.
Qed.

(** X2.  Every response written by [sendResponse] (Android, iOS and the
    earlier Swift proxy) and every error response carries the CORS header,
    no Content-Encoding and no Transfer-Encoding field, and exactly one
    Content-Length field, whose value is the byte count of the body
    written; no upstream Content-Length is forwarded. *)
Theorem sendResponse_writes_well (statusCode : Z) (headers : gmap string string)
    (contentType : option string) (body message : string) (isManifest : bool) :
  Http.wellWritten (Android.sendResponse statusCode headers body)
  ∧ Http.wellWritten (IOSQuery.sendResponse statusCode headers body isManifest)
  ∧ Http.wellWritten (IOS.sendResponse statusCode contentType body)
  ∧ Http.wellWritten (Android.sendErrorResponse statusCode message)
  ∧ Http.wellWritten (IOS.sendErrorResponse statusCode message)
  ∧ Http.wellWritten (IOSQuery.sendErrorResponse statusCode message).
Proof. apply ordinary_responses_wellWritten. Qed.



(** X4.  On Android, while the proxy runs, a playlist line that is not
    blank, does not start with # and holds no URI attribute becomes the
    proxy URL of its trimmed text resolved against the playlist's URL (an
    absolute http or https line resolves to itself), and the request for
    that proxy URL is routed to the resolved URL; a line that does not
    resolve stays as it is. *)
Theorem android_segment_line (p : Android.CMCDProxy) (baseUri : RFC.Ref) (line : string) :
  Android._port p ≠ 0%Z →
  Str.contains HLS.uriOpen line = false →
  Str.startsWith "#" line = false →
  Str.isEmpty (Str.trim Str.isWhitespace line) = false →
  (∀ seg,
     Android.resolveUrl baseUri (Str.trim Str.isWhitespace line) = Some seg →
     HLS.rewriteLine string (Android.resolveUrl baseUri) (Android.createProxyUrl p)
       Str.isWhitespace line
     = "http://127.0.0.1:" +:+ pretty (Android._port p) +:+ Android.proxyPath seg
     ∧ Android.route ("GET " +:+ Android.proxyPath seg +:+ " HTTP/1.1") = Android.Proxy seg)
  ∧ (Android.resolveUrl baseUri (Str.trim Str.isWhitespace line) = None →
     HLS.rewriteLine string (Android.resolveUrl baseUri) (Android.createProxyUrl p)
       Str.isWhitespace line = line)
  ∧ (Str.startsWith "http://" (Str.trim Str.isWhitespace line)
       || Str.startsWith "https://" (Str.trim Str.isWhitespace line) = true →
     Android.resolveUrl baseUri (Str.trim Str.isWhitespace line)
     = Some (Str.trim Str.isWhitespace line)).
Proof.
  intros Hp Hc Hs He. split; [| split].
  - intros seg Hr. split; [| apply android_route_proxyPath].
    apply rewriteLine_segment with (u := seg); try done.
    unfold Android.createProxyUrl. apply Z.eqb_neq in Hp. by rewrite Hp.
  - intros Hr. apply rewriteLine_unchanged; [done |]. auto.
  - intros Hh. unfold Android.resolveUrl. by rewrite Hh.
Qed.

Lemma android_segment_line_witness :
  HLS.rewriteLine string (Android.resolveUrl (RFC.parse Samples.manifestUrl))
    (Android.createProxyUrl Samples.android) Str.isWhitespace "segment1.ts"
  = "http://127.0.0.1:8080/proxy?url=https%3A%2F%2Fcdn.example%2Fmedia%2Fsegment1.ts"
  ∧ Android.route
      ("GET /proxy?url=https%3A%2F%2Fcdn.example%2Fmedia%2Fsegment1.ts HTTP/1.1")
    = Android.Proxy "https://cdn.example/media/segment1.ts".
Proof.
  assert (Hp : Android._port Samples.android ≠ 0%Z) by (simpl; lia).
  exact (proj1 (android_segment_line Samples.android (RFC.parse Samples.manifestUrl)
                  "segment1.ts" Hp eq_refl eq_refl eq_refl)
           "https://cdn.example/media/segment1.ts" eq_refl).
Defined.

(** ** Codecs across the layers *)

(** Percent-encoding with a set of allowed bytes that excludes the percent
    sign is undone by percent-decoding. *)
Lemma percent_decode_encode (allowed : ascii → bool) (s : string) :
  (∀ c rest,
     RFC.percent_decode ((if allowed c then String c "" else RFC.escape c) +:+ rest)
     = String c <$> RFC.percent_decode rest) →
  RFC.percent_decode (RFC.percent_encode allowed s) = Some s.
Proof.
  intros Hc. induction s as [|c s IH]; simpl; [done |].
  by rewrite Hc, IH.
Qed.

Lemma percent_encode_forallb (allowed p : ascii → bool) (s : string) :
  (∀ c, Str.forallb p (if allowed c then String c "" else RFC.escape c) = true) →
  Str.forallb p (RFC.percent_encode allowed s) = true.
Proof.
  intros Hc. induction s as [|c s IH]; simpl; [done |].
  by rewrite forallb_append, Hc, IH.
Qed.

Lemma percent_encode_escapes (allowed : ascii → bool) (s : string) :
  (∀ c rest,
     RFC.escapes_ok ((if allowed c then String c "" else RFC.escape c) +:+ rest)
     = RFC.escapes_ok rest) →
  RFC.escapes_ok (RFC.percent_encode allowed s) = true.
Proof.
  intros Hc. induction s as [|c s IH]; simpl; [done |].
  by rewrite Hc, IH.
Qed.

Lemma inLine_no_space (s : string) :
  Str.forallb Outcome.inLine s = true → Str.forallb (λ x, negb (Ascii.eqb x " ")) s = true.
Proof.
  apply forallb_impl. intros c. unfold Outcome.inLine. by rewrite andb_true_iff; intros [? _].
Qed.

Lemma inLine_no_cr (s : string) :
  Str.forallb Outcome.inLine s = true → Str.forallb (λ x, negb (Ascii.eqb x "013")) s = true.
Proof.
  apply forallb_impl. intros c. unfold Outcome.inLine. by rewrite andb_true_iff; intros [_ ?].
Qed.

Lemma query_piece_decodes (c : ascii) (rest : string) :
  RFC.percent_decode
    ((if Foundation.urlQueryAllowed c then String c "" else RFC.escape c) +:+ rest)
  = String c <$> RFC.percent_decode rest.
Proof. by_byte c. Qed.

Lemma query_piece_inLine (c : ascii) :
  Str.forallb Outcome.inLine (if Foundation.urlQueryAllowed c then String c "" else RFC.escape c)
  = true.
Proof. by_byte c. Qed.

Lemma component_piece_decodes (c : ascii) (rest : string) :
  RFC.percent_decode ((if TS.uriUnescaped c then String c "" else RFC.escape c) +:+ rest)
  = String c <$> RFC.percent_decode rest.
Proof. by_byte c. Qed.

Lemma component_piece_URLDecoder (c : ascii) (rest : string) :
  Java.URLDecoder_decode ((if TS.uriUnescaped c then String c "" else RFC.escape c) +:+ rest)
  = String c <$> Java.URLDecoder_decode rest.
Proof. by_byte c. Qed.

Lemma component_piece_inLine (c : ascii) :
  Str.forallb Outcome.inLine (if TS.uriUnescaped c then String c "" else RFC.escape c) = true.
Proof. by_byte c. Qed.

Lemma component_piece_legal (c : ascii) :
  Str.forallb Foundation.isURLLegalCharacter
    (if TS.uriUnescaped c then String c "" else RFC.escape c) = true.
Proof. by_byte c. Qed.

Lemma component_piece_escapes (c : ascii) (rest : string) :
  RFC.escapes_ok ((if TS.uriUnescaped c then String c "" else RFC.escape c) +:+ rest)
  = RFC.escapes_ok rest.
Proof. by_byte c. Qed.

Lemma URLDecoder_encodeURIComponent (u : string) :
  Java.URLDecoder_decode (TS.encodeURIComponent u) = Some u.
Proof.
  unfold TS.encodeURIComponent. induction u as [|c u IH]; simpl; [done |].
  by rewrite component_piece_URLDecoder, IH.
Qed.

Lemma legal_inLine (s : string) :
  Str.forallb Foundation.isURLLegalCharacter s = true → Str.forallb Outcome.inLine s = true.
Proof.
  apply forallb_impl. intros c.
  destruct c as [[] [] [] [] [] [] [] []]; intros H; first [reflexivity | discriminate H].
Qed.

(** Splitting at CR LF behind a first line that holds no carriage return. *)
Lemma components_crlf_append (a b : string) :
  Str.forallb (λ x, negb (Ascii.eqb x "013")) a = true →
  Str.components_crlf (a +:+ Http.CRLF +:+ b) = a :: Str.components_crlf b.
Proof.
  induction a as [|x a IH]; [done |].
  cbn [Str.forallb]. rewrite andb_true_iff. intros [Hx Ha].
  apply negb_true_iff in Hx. specialize (IH Ha).
  change (String x a +:+ Http.CRLF +:+ b) with (String x (a +:+ Http.CRLF +:+ b)).
  cbn [Str.components_crlf].
  destruct (a +:+ Http.CRLF +:+ b) as [|y r] eqn:E.
  - by destruct a.
  - rewrite Hx. cbn [andb]. by rewrite IH.
Qed.

(** The request line [GET path HTTP/1.1] in its three parts, and the lines
    of a request that starts with it. *)
Lemma split_request_line (path : string) :
  Str.forallb Outcome.inLine path = true →
  Str.split " " ("GET " +:+ path +:+ " HTTP/1.1") = ["GET"; path; "HTTP/1.1"].
Proof.
  intros Hp.
  change ("GET " +:+ path +:+ " HTTP/1.1")
    with ("GET" +:+ String " " (path +:+ String " " "HTTP/1.1")).
  rewrite split_append by done.
  by rewrite split_append by (by apply inLine_no_space).
Qed.

Lemma request_lines (path rest : string) :
  Str.forallb Outcome.inLine path = true →
  Str.components_crlf ("GET " +:+ path +:+ " HTTP/1.1" +:+ Http.CRLF +:+ rest)
  = ("GET " +:+ path +:+ " HTTP/1.1") :: Str.components_crlf rest.
Proof.
  intros Hp.
  rewrite <- (components_crlf_append ("GET " +:+ path +:+ " HTTP/1.1") rest).
  - by rewrite !append_assoc.
  - by rewrite !forallb_append, (inLine_no_cr path Hp).
Qed.

(** X5.  In the earlier Swift proxy the codec round trip holds as well:
    while the proxy runs, [createProxyUrl] on a URL that [URL(string:)]
    yields gives the origin followed by /proxy?url= and the percent-encoded
    URL, and [processRequest], on the request a client sends for it,
    fetches that very URL. *)
Theorem iosquery_codec_round_trip (qp : IOSQuery.CMCDProxy) (net : IOS.Network)
    (s rest : string) (u : Foundation.URL) :
  (0 < IOSQuery.port qp)%N →
  Foundation.URL_string s = Some u →
  IOSQuery.createProxyUrl qp u
  = Some (Foundation.mkURL
            ("http://127.0.0.1:" +:+ pretty (IOSQuery.port qp) +:+ "/proxy?url="
             +:+ RFC.percent_encode Foundation.urlQueryAllowed s) None)
  ∧ IOSQuery.route
      ("GET " +:+ ("/proxy?url=" +:+ RFC.percent_encode Foundation.urlQueryAllowed s)
       +:+ " HTTP/1.1" +:+ Http.CRLF +:+ rest)
    = IOSQuery.Proxy u
  ∧ IOSQuery.processRequest qp net
      ("GET " +:+ ("/proxy?url=" +:+ RFC.percent_encode Foundation.urlQueryAllowed s)
       +:+ " HTTP/1.1" +:+ Http.CRLF +:+ rest)
    = IOSQuery.fetchAndProxy qp net u.
Proof.
  intros Hp Hu.
  pose proof (URL_string_Some s u Hu) as [Hu' Hs].
  assert (Hroute : IOSQuery.route
            ("GET " +:+ ("/proxy?url=" +:+ RFC.percent_encode Foundation.urlQueryAllowed s)
             +:+ " HTTP/1.1" +:+ Http.CRLF +:+ rest) = IOSQuery.Proxy u).
  { unfold IOSQuery.route.
    assert (Hpath : Str.forallb Outcome.inLine
              ("/proxy?url=" +:+ RFC.percent_encode Foundation.urlQueryAllowed s) = true).
    { rewrite forallb_append, percent_encode_forallb; [done |]. apply query_piece_inLine. }
    rewrite (request_lines _ rest Hpath), (split_request_line _ Hpath).
    change (negb ("GET" =? "GET")) with false. cbv iota.
    rewrite startsWith_append. cbn [negb].
    change 11%nat with (String.length "/proxy?url=").
    rewrite drop_append.
    unfold Foundation.removingPercentEncoding.
    rewrite percent_decode_encode by apply query_piece_decodes.
    by rewrite Hu. }
  split; [| split; [exact Hroute |]].
  - unfold IOSQuery.createProxyUrl. apply N.ltb_lt in Hp. rewrite Hp.
    unfold Foundation.addingPercentEncoding, Foundation.URL_string.
    rewrite Hu'. cbn [Foundation.absoluteString Foundation.baseURL Foundation.relativeString].
    by rewrite iosquery_proxied_legal.
  - unfold IOSQuery.processRequest. by rewrite Hroute.
Qed.

Lemma iosquery_codec_round_trip_witness :
  IOSQuery.route
    ("GET /proxy?url=https://cdn.example/media/index.m3u8 HTTP/1.1" +:+ Http.CRLF
     +:+ "Host: 127.0.0.1:8080" +:+ Http.CRLF +:+ Http.CRLF)
  = IOSQuery.Proxy (Foundation.mkURL Samples.manifestUrl None).
Proof.
  assert (Hp : (0 < IOSQuery.port Samples.iosQuery)%N) by (simpl; lia).
  exact (proj1 (proj2 (iosquery_codec_round_trip Samples.iosQuery Samples.network
                         Samples.manifestUrl
                         ("Host: 127.0.0.1:8080" +:+ Http.CRLF +:+ Http.CRLF)
                         (Foundation.mkURL Samples.manifestUrl None) Hp eq_refl))).
Defined.

Lemma encodeURIComponent_inLine (u : string) :
  Str.forallb Outcome.inLine ("/proxy?url=" +:+ TS.encodeURIComponent u) = true.
Proof.
  unfold TS.encodeURIComponent.
  rewrite forallb_append, percent_encode_forallb; [done |]. apply component_piece_inLine.
Qed.

(** X6.  A proxy URL made by the JavaScript facade is understood by the
    query-decoding proxies: it is the facade's base URL followed by
    /proxy?url= and [encodeURIComponent] of the original URL; the Android
    proxy routes the request line for that path to the original URL, for
    every string, and the earlier Swift proxy routes the request to the URL
    value of that string whenever [URL(string:)] accepts it. *)
Theorem facade_proxy_url_is_routed (port : Z) (u rest : string) :
  (port ≠ 0%Z →
   ∃ base, TS.getBaseUrl port = Some base
           ∧ TS.createProxyUrl port u
             = Some (base +:+ "/proxy?url=" +:+ TS.encodeURIComponent u))
  ∧ Android.route ("GET " +:+ ("/proxy?url=" +:+ TS.encodeURIComponent u) +:+ " HTTP/1.1")
    = Android.Proxy u
  ∧ (∀ url, Foundation.URL_string u = Some url →
       IOSQuery.route
         ("GET " +:+ ("/proxy?url=" +:+ TS.encodeURIComponent u)
          +:+ " HTTP/1.1" +:+ Http.CRLF +:+ rest)
       = IOSQuery.Proxy url).
Proof.
  pose proof (encodeURIComponent_inLine u) as Hpath.
  split; [| split].
  - intros Hp. apply Z.eqb_neq in Hp.
    exists ("http://127.0.0.1:" +:+ pretty port).
    unfold TS.getBaseUrl, TS.createProxyUrl. rewrite Hp.
    by rewrite !append_assoc.
  - unfold Android.route.
    rewrite (split_request_line _ Hpath).
    change (negb ("GET" =? "GET")) with false. cbv iota.
    rewrite startsWith_append. cbn [negb].
    by rewrite substringAfter_append, URLDecoder_encodeURIComponent.
  - intros url Hu. unfold IOSQuery.route.
    rewrite (request_lines _ rest Hpath), (split_request_line _ Hpath).
    change (negb ("GET" =? "GET")) with false. cbv iota.
    rewrite startsWith_append. cbn [negb].
    change 11%nat with (String.length "/proxy?url=").
    rewrite drop_append.
    unfold Foundation.removingPercentEncoding, TS.encodeURIComponent.
    rewrite percent_decode_encode by apply component_piece_decodes.
    by rewrite Hu.
Qed.

Lemma encodeURIComponent_legal (u : string) :
  Foundation.isLegalURLString ("proxy?url=" +:+ TS.encodeURIComponent u) = true.
Proof.
  unfold Foundation.isLegalURLString, TS.encodeURIComponent.
  rewrite !andb_true_iff. split; [split; [done |] |].
  - rewrite forallb_append, percent_encode_forallb; [done |]. apply component_piece_legal.
  - rewrite escapes_ok_append by done.
    apply percent_encode_escapes, component_piece_escapes.
Qed.

(** X7.  The current iOS proxy does not decode the facade's proxy URLs: it
    takes the whole request target after the slash as the URL to fetch, so
    the request for /proxy?url= followed by the encoded URL is routed to
    the relative URL that starts with proxy?url=, and [unproxiedUrl]
    rejects the facade's URL, whose host is 127.0.0.1 and not localhost. *)
Theorem ios_does_not_decode_facade_urls (p : IOS.CMCDProxy) (port : Z) (u rest : string) :
  IOS.route
    ("GET " +:+ ("/proxy?url=" +:+ TS.encodeURIComponent u)
     +:+ " HTTP/1.1" +:+ Http.CRLF +:+ rest)
  = IOS.Proxy (Foundation.mkURL ("proxy?url=" +:+ TS.encodeURIComponent u) None)
      (IOS.parseHeaders (Str.components_crlf rest) ∅)
  ∧ (∀ proxied, TS.createProxyUrl port u = Some proxied →
       IOS.unproxiedUrl p (Foundation.mkURL proxied None) = None).
Proof.
  pose proof (encodeURIComponent_inLine u) as Hpath.
  split.
  - unfold IOS.route.
    rewrite (request_lines _ rest Hpath). cbv zeta.
    rewrite (split_request_line _ Hpath).
    change (negb ("GET" =? "GET")) with false. cbv iota.
    change (Str.drop 1 ("/proxy?url=" +:+ TS.encodeURIComponent u))
      with ("proxy?url=" +:+ TS.encodeURIComponent u).
    unfold Foundation.URL_string. by rewrite encodeURIComponent_legal.
  - unfold TS.createProxyUrl. destruct (port =? 0)%Z; [done |].
    intros proxied [= <-]. reflexivity.
Qed.

(** X8.  On the current iOS proxy the request a player sends for a proxy
    URL, whose target is a slash followed by the original URL, is routed to
    that URL together with the request's own header fields, and
    [processRequest] fetches it with them. *)
Theorem ios_request_is_routed (p : IOS.CMCDProxy) (net : IOS.Network)
    (s rest : string) (u : Foundation.URL) :
  Foundation.URL_string s = Some u →
  IOS.route ("GET " +:+ ("/" +:+ s) +:+ " HTTP/1.1" +:+ Http.CRLF +:+ rest)
  = IOS.Proxy u (IOS.parseHeaders (Str.components_crlf rest) ∅)
  ∧ IOS.processRequest p net
      ("GET " +:+ ("/" +:+ s) +:+ " HTTP/1.1" +:+ Http.CRLF +:+ rest)
    = IOS.fetchAndProxy p net u (IOS.parseHeaders (Str.components_crlf rest) ∅).
Proof.
  intros Hu. destruct (URL_string_Some s u Hu) as [_ Hs].
  assert (Hpath : Str.forallb Outcome.inLine ("/" +:+ s) = true).
  { rewrite forallb_append. apply andb_true_iff. split; [done |].
    apply legal_inLine. unfold Foundation.isLegalURLString in Hs.
    by apply andb_true_iff in Hs as [[_ ?]%andb_true_iff _]. }
  assert (Hr : IOS.route ("GET " +:+ ("/" +:+ s) +:+ " HTTP/1.1" +:+ Http.CRLF +:+ rest)
               = IOS.Proxy u (IOS.parseHeaders (Str.components_crlf rest) ∅)).
  { unfold IOS.route.
    rewrite (request_lines _ rest Hpath). cbv zeta.
    rewrite (split_request_line _ Hpath).
    change (negb ("GET" =? "GET")) with false. cbv iota.
    change (Str.drop 1 ("/" +:+ s)) with s. by rewrite Hu. }
  split; [exact Hr |]. unfold IOS.processRequest. by rewrite Hr.
Qed.

Lemma ios_request_is_routed_witness :
  IOS.route
    ("GET /https://cdn.example/media/index.m3u8 HTTP/1.1" +:+ Http.CRLF
     +:+ "Host: localhost:8080" +:+ Http.CRLF +:+ "Range: bytes=0-99" +:+ Http.CRLF
     +:+ Http.CRLF)
  = IOS.Proxy (Foundation.mkURL Samples.manifestUrl None) {[ "Range" := "bytes=0-99" ]}.
Proof.
  exact (proj1 (ios_request_is_routed Samples.ios Samples.network Samples.manifestUrl
                  ("Host: localhost:8080" +:+ Http.CRLF +:+ "Range: bytes=0-99"
                   +:+ Http.CRLF +:+ Http.CRLF)
                  (Foundation.mkURL Samples.manifestUrl None) eq_refl)).
Defined.

(** ** The request headers read by the iOS proxy *)

Lemma cut_append (c : ascii) (a b : string) :
  Str.forallb (λ x, negb (Ascii.eqb x c)) a = true →
  RFC.cut c (a +:+ String c b) = (a, Some b).
Proof.
  induction a as [|x a IH]; simpl.
  - by rewrite Ascii.eqb_refl.
  - rewrite andb_true_iff. intros [Hx Ha].
    apply negb_true_iff in Hx. by rewrite Hx, (IH Ha).
Qed.

Lemma parseHeaders_stops (before after : list string) (acc : gmap string string) :
  IOS.parseHeaders (before ++ "" :: after)%list acc = IOS.parseHeaders before acc.
Proof.
  revert acc. induction before as [|line before IH]; intros acc; [done |].
  cbn [app IOS.parseHeaders].
  destruct (Str.isEmpty line); [done |].
  destruct (RFC.cut ":" line) as [k [v|]]; [| apply IH]. cbv zeta.
  destruct (String.eqb (Str.lowercase (Str.trim Str.isBlank k)) "host"); apply IH.
Qed.

Lemma parseHeaders_keeps_host (lines : list string) (acc : gmap string string) (name : string) :
  Str.lowercase name = "host" →
  IOS.parseHeaders lines acc !! name = acc !! name.
Proof.
  intros Hn. revert acc. induction lines as [|line lines IH]; intros acc; [done |].
  cbn [IOS.parseHeaders].
  destruct (Str.isEmpty line); [done |].
  destruct (RFC.cut ":" line) as [k [v|]]; [| apply IH]. cbv zeta.
  destruct (String.eqb (Str.lowercase (Str.trim Str.isBlank k)) "host") eqn:E; [apply IH |].
  rewrite IH. apply lookup_insert_ne. intros Heq.
  apply String.eqb_neq in E. apply E. by rewrite Heq.
Qed.

(** X9.  The iOS proxy reads the request's header fields up to the first
    empty line and nothing after it; it never takes over a field whose
    name is Host in any letter case; and a field line is cut at its first
    colon only, name and value trimmed of spaces and tabs, so a value keeps
    its own colons. *)
Theorem ios_parseHeaders_reads_the_head (before after : list string)
    (acc : gmap string string) :
  IOS.parseHeaders (before ++ "" :: after)%list acc = IOS.parseHeaders before acc
  ∧ (∀ name, Str.lowercase name = "host" → IOS.parseHeaders before ∅ !! name = None)
  ∧ (∀ name value,
       Str.forallb (λ x, negb (Ascii.eqb x ":")) name = true →
       Str.lowercase (Str.trim Str.isBlank name) ≠ "host" →
       IOS.parseHeaders [name +:+ ":" +:+ value] acc
       = <[ Str.trim Str.isBlank name := Str.trim Str.isBlank value ]> acc)
  ∧ IOS.parseHeaders ["Host: localhost:8080"; "Referer : http://a.example:81/x"; "";
                      "Range: bytes=0-1"] ∅
    = {[ "Referer" := "http://a.example:81/x" ]}.
Proof.
  split; [apply parseHeaders_stops |]. split; [| split; [| reflexivity]].
  - intros name Hn. by rewrite parseHeaders_keeps_host.
  - intros name value Hc Hh. cbn [IOS.parseHeaders].
    rewrite isEmpty_append, andb_false_r.
    change (name +:+ ":" +:+ value) with (name +:+ String ":" value).
    rewrite (cut_append ":" name value Hc). cbv zeta.
    apply String.eqb_neq in Hh. by rewrite Hh.
Qed.

(** ** The course of a connection *)

Lemma refused_respond (code : Z) (r : Http.Response) :
  Http.status r = code → code = 400%Z ∨ code = 405%Z →
  Outcome.refused [Http.Send r; Http.Close].
Proof.
  intros Hs [-> | ->]; [left | right]; exists r; repeat split; try done;
    repeat constructor.
Qed.

Lemma android_route_codes (requestLine : string) (code : Z) (message : string) :
  Android.route requestLine = Android.Respond code message →
  code = 400%Z ∨ code = 405%Z.
Proof.
  unfold Android.route. repeat case_match; intros [= <- <-]; auto.
Qed.

Lemma ios_route_codes (requestString : string) (code : Z) (message : string) :
  IOS.route requestString = IOS.Respond code message →
  code = 400%Z ∨ code = 405%Z.
Proof.
  unfold IOS.route. cbv zeta. repeat case_match; intros [= <- <-]; auto.
Qed.

Lemma iosquery_route_codes (requestString : string) (code : Z) (message : string) :
  IOSQuery.route requestString = IOSQuery.Respond code message →
  code = 400%Z ∨ code = 405%Z.
Proof.
  unfold IOSQuery.route. repeat case_match; intros [= <- <-]; auto.
Qed.

Lemma android_proxyResponse_wellWritten (p : Android.CMCDProxy) (originalUrl : string)
    (up : Http.Upstream) :
  Http.wellWritten (Android.proxyResponse p originalUrl up).
Proof.
  destruct up as [m | resp]; cbn [Android.proxyResponse].
  - apply (ordinary_responses_wellWritten 502 ∅ None "" ("Bad Gateway: " +:+ m) false).
  - cbv zeta. case_match.
    + apply (ordinary_responses_wellWritten (Http.statusCode resp) _ None _ "" false).
    + apply (ordinary_responses_wellWritten (Http.statusCode resp) _ None _ "" false).
Qed.

Lemma iosquery_proxyResponse_wellWritten (p : IOSQuery.CMCDProxy)
    (originalUrl : Foundation.URL) (up : Http.Upstream) :
  Http.wellWritten (IOSQuery.proxyResponse p originalUrl up).
Proof.
  destruct up as [m | resp]; cbn [IOSQuery.proxyResponse].
  - apply (ordinary_responses_wellWritten 502 ∅ None "" ("Upstream error: " +:+ m) false).
  - cbv zeta.
    apply (ordinary_responses_wellWritten (Http.statusCode resp) _ None _ "" _).
Qed.

Lemma ios_proxyResponse_shape (p : IOS.CMCDProxy) (originalUrl : Foundation.URL)
    (up : Http.Upstream) :
  Http.wellWritten (IOS.proxyResponse p originalUrl up)
  ∨ (Http.isRedirectStatus (Http.status (IOS.proxyResponse p originalUrl up)) = true
     ∧ Outcome.fieldNames (IOS.proxyResponse p originalUrl up)
       = ["Location"; "Content-Length"]).
Proof.
  destruct up as [m | resp]; cbn [IOS.proxyResponse].
  - left. apply (ordinary_responses_wellWritten 502 ∅ None "" ("Upstream error: " +:+ m) false).
  - cbv zeta.
    pose proof (ordinary_responses_wellWritten (Http.statusCode resp) ∅
                  (Http.headerValue "Content-Type" (Http.allHeaderFields resp))
                  (Http.data resp) "" false) as (_ & _ & Hw & _).
    destruct (Http.isRedirectStatus (Http.statusCode resp)) eqn:Hr; [| by left].
    repeat case_match; try (by left).
    right. by split.
Qed.

(** X10.  Every connection a proxy handles takes one of few courses.  It
    is refused with status 400 or 405, one error response written and
    nothing fetched; or exactly one URL is fetched, then exactly one
    response written, then the connection closed, and nothing follows the
    close.  On Android a connection that delivers no line at all is closed
    with nothing written.  The one response written after a fetch is well
    written (CORS header, recomputed Content-Length, no Content-Encoding
    or Transfer-Encoding), except that on the current iOS proxy it may be
    a redirect response with just Location and Content-Length. *)
Theorem connection_courses (ap : Android.CMCDProxy) (origin : Http.Origin)
    (lines : list string) (ip : IOS.CMCDProxy) (qp : IOSQuery.CMCDProxy)
    (net : IOS.Network) (requestString : string) :
  (lines = [] ∧ Android.handleClient ap origin lines = [Http.Close]
   ∨ Outcome.refused (Android.handleClient ap origin lines)
   ∨ Outcome.served Http.wellWritten (Android.handleClient ap origin lines))
  ∧ (Outcome.refused (IOS.processRequest ip net requestString)
     ∨ Outcome.served
         (λ r, Http.wellWritten r
               ∨ (Http.isRedirectStatus (Http.status r) = true
                  ∧ Outcome.fieldNames r = ["Location"; "Content-Length"]))
         (IOS.processRequest ip net requestString))
  ∧ (Outcome.refused (IOSQuery.processRequest qp net requestString)
     ∨ Outcome.served Http.wellWritten (IOSQuery.processRequest qp net requestString)).
Proof.
  split; [| split].
  - destruct lines as [|requestLine headerLines]; [by left |].
    right. cbn [Android.handleClient].
    destruct (Android.route requestLine) as [code message | u] eqn:Hr.
    + left. apply (refused_respond code); [done |].
      by apply (android_route_codes requestLine code message).
    + right. eexists _, _, _. split; [reflexivity |].
      apply android_proxyResponse_wellWritten.
  - unfold IOS.processRequest.
    destruct (IOS.route requestString) as [code message | u hs] eqn:Hr.
    + left. apply (refused_respond code); [done |].
      by apply (ios_route_codes requestString code message).
    + right. eexists _, _, _. split; [reflexivity |].
      apply ios_proxyResponse_shape.
  - unfold IOSQuery.processRequest.
    destruct (IOSQuery.route requestString) as [code message | u] eqn:Hr.
    + left. apply (refused_respond code); [done |].
      by apply (iosquery_route_codes requestString code message).
    + right. eexists _, _, _. split; [reflexivity |].
      apply iosquery_proxyResponse_wellWritten.
Qed.

(** ** Request targets that cannot be decoded *)








(** ** What the proxies hand on from the origin *)

(** X12.  The current iOS proxy hands on the status code of the origin and
    its body as received (a translated redirect has an empty body), answers
    502 when the exchange fails, and of the origin's header fields hands
    on only Content-Type: every header line it writes is named
    Access-Control-Allow-Origin, Content-Type, Content-Length or
    Location, and a Content-Type line holds the origin's value. *)
Theorem ios_forwards_only_content_type (p : IOS.CMCDProxy) (originalUrl : Foundation.URL)
    (up : Http.Upstream) :
  Forall (λ name, name ∈ ["Access-Control-Allow-Origin"; "Content-Type";
                          "Content-Length"; "Location"])
    (Outcome.fieldNames (IOS.proxyResponse p originalUrl up))
  ∧ (∀ r, up = Http.UpstreamOk r →
       Http.status (IOS.proxyResponse p originalUrl up) = Http.statusCode r
       ∧ (Http.body (IOS.proxyResponse p originalUrl up) = Http.data r
          ∨ Http.isRedirectStatus (Http.statusCode r) = true
            ∧ Http.body (IOS.proxyResponse p originalUrl up) = "")
       ∧ (∀ v, ("Content-Type", v) ∈ Http.headerLines (IOS.proxyResponse p originalUrl up) →
            Http.headerValue "Content-Type" (Http.allHeaderFields r) = Some v))
  ∧ (∀ m, up = Http.UpstreamError m →
       Http.status (IOS.proxyResponse p originalUrl up) = 502%Z
       ∧ Http.body (IOS.proxyResponse p originalUrl up) = "Upstream error: " +:+ m).
Proof.
  assert (Hpass : ∀ code ct data,
            Forall (λ name, name ∈ ["Access-Control-Allow-Origin"; "Content-Type";
                                    "Content-Length"; "Location"])
              (Outcome.fieldNames (IOS.sendResponse code ct data))
            ∧ ∀ v, ("Content-Type", v) ∈ Http.headerLines (IOS.sendResponse code ct data) →
                   ct = Some v).
  { intros code ct data. destruct ct as [c|]; cbn.
    - split; [repeat constructor |].
      intros v Hv. apply elem_of_cons in Hv as [[=] | Hv].
      apply elem_of_cons in Hv as [[= ->] | Hv]; [done |].
      apply elem_of_cons in Hv as [[=] | Hv]. by apply not_elem_of_nil in Hv.
    - split; [repeat constructor |].
      intros v Hv. apply elem_of_cons in Hv as [[=] | Hv].
      apply elem_of_cons in Hv as [[=] | Hv]. by apply not_elem_of_nil in Hv. }
  split; [| split].
  - destruct up as [m | r]; cbn [IOS.proxyResponse]; [apply Hpass |]. cbv zeta.
    repeat case_match; try apply Hpass. cbn. repeat constructor.
  - intros r ->. cbn [IOS.proxyResponse]. cbv zeta.
    destruct (Http.isRedirectStatus (Http.statusCode r)) eqn:Hr.
    + repeat case_match;
        (split; [done |]; split; [by (left + right) |]); try apply Hpass.
      intros v Hv. cbn in Hv. apply elem_of_cons in Hv as [[=] | Hv].
      apply elem_of_cons in Hv as [[=] | Hv]. by apply not_elem_of_nil in Hv.
    + split; [done |]. split; [by left |]. apply Hpass.
  - by intros m ->.
Qed.

Lemma toMap_snoc (hs : list (string * string)) (h : string * string) :
  Android.toMap (hs ++ [h]) = <[ fst h := snd h ]> (Android.toMap hs).
Proof. unfold Android.toMap. by rewrite foldl_app. Qed.

(** The dictionary made of a header block holds, for each name, the value
    of the last field of exactly that name. *)
Lemma toMap_lookup (hs : list (string * string)) (name : string) :
  Android.toMap hs !! name = snd <$> last (filter (λ h, fst h = name) hs).
Proof.
  induction hs as [|h hs IH] using rev_ind; [done |].
  rewrite toMap_snoc, filter_app.
  destruct (decide (fst h = name)) as [<- | Hne].
  - rewrite lookup_insert_eq.
    rewrite (filter_cons_True (λ x, fst x = fst h) h []) by done.
    rewrite filter_nil. by rewrite last_snoc.
  - rewrite lookup_insert_ne by done.
    rewrite (filter_cons_False (λ x, fst x = name) h []) by done.
    rewrite filter_nil, app_nil_r. exact IH.
Qed.

(** X13.  The Android response writer, given the dictionary made of the
    origin's header block, writes the CORS line, the recomputed
    Content-Length line and, of the origin's fields, exactly the last one
    of each name that is not Content-Encoding, Transfer-Encoding or
    Content-Length in any letter case: an earlier field of a repeated name
    is dropped.  A response that is not a playlist is written this way.
    An Access-Control-Allow-Origin field of the origin is such a field, so
    it is written beside the proxy's own. *)
Theorem android_forwards_last_of_each_name (p : Android.CMCDProxy) (code : Z)
    (hs : list (string * string)) (body : string) :
  (∀ name value,
     (name, value) ∈ Http.headerLines (Android.sendResponse code (Android.toMap hs) body)
     ↔ (name, value) = ("Access-Control-Allow-Origin", "*")
       ∨ (name, value) = ("Content-Length", Android.byteCount body)
       ∨ (Android.skippedHeader (Str.lowercase name) = false
          ∧ snd <$> last (filter (λ h, fst h = name) hs) = Some value))
  ∧ (∀ originalUrl r,
       Android.isManifest
         (default "" (Http.headerValue "Content-Type" (Http.allHeaderFields r)))
         originalUrl = false →
       Android.proxyResponse p originalUrl (Http.UpstreamOk r)
       = Android.sendResponse (Http.statusCode r) (Android.toMap (Http.allHeaderFields r))
           (Http.data r))
  ∧ (∀ value,
       snd <$> last (filter (λ h, fst h = "Access-Control-Allow-Origin") hs) = Some value →
       ("Access-Control-Allow-Origin", "*")
         ∈ Http.headerLines (Android.sendResponse code (Android.toMap hs) body)
       ∧ ("Access-Control-Allow-Origin", value)
           ∈ Http.headerLines (Android.sendResponse code (Android.toMap hs) body)).
Proof.
  assert (Hiff : ∀ name value,
     (name, value) ∈ Http.headerLines (Android.sendResponse code (Android.toMap hs) body)
     ↔ (name, value) = ("Access-Control-Allow-Origin", "*")
       ∨ (name, value) = ("Content-Length", Android.byteCount body)
       ∨ (Android.skippedHeader (Str.lowercase name) = false
          ∧ snd <$> last (filter (λ h, fst h = name) hs) = Some value)).
  { intros name value. cbn [Android.sendResponse Http.headerLines].
    rewrite elem_of_cons, elem_of_app, list_elem_of_filter, list_elem_of_singleton.
    rewrite elem_of_map_to_list, toMap_lookup. cbn [fst].
    destruct (Android.skippedHeader (Str.lowercase name)); cbn [negb Is_true];
      intuition discriminate. }
  split; [exact Hiff |]. split.
  - intros originalUrl r Hm. cbn [Android.proxyResponse]. cbv zeta. by rewrite Hm.
  - intros value Hv. split; apply Hiff; [by left |].
    right. right. by split.
Qed.

(** ** URI attributes in playlist tags *)

Lemma contains_cons (d : string) (a : ascii) (s : string) :
  Str.contains d (String a s) = false →
  Str.startsWith d (String a s) = false ∧ Str.contains d s = false.
Proof.
  unfold Str.contains. cbn [Str.after_first].
  destruct (Str.startsWith d (String a s)); [done |]. by split.
Qed.

Lemma startsWith_split (p s : string) :
  Str.startsWith p s = true → s = p +:+ Str.drop (String.length p) s.
Proof.
  unfold Str.startsWith. revert s. induction p as [|x p IH]; intros s.
  - by destruct s.
  - destruct s as [|y s]; [done |]. cbn [String.prefix].
    destruct (ascii_dec x y) as [<- | ?]; [| done].
    intros H. cbn [String.length Str.drop String.append]. f_equal. by apply IH.
Qed.

Lemma cut_inv (c : ascii) (s h t : string) :
  RFC.cut c s = (h, Some t) → s = h +:+ String c t.
Proof.
  revert h. induction s as [|a s IH]; intros h; [done |].
  cbn [RFC.cut]. destruct (Ascii.eqb_spec a c) as [-> | Hne].
  - by intros [= <- <-].
  - destruct (RFC.cut c s) as [h' t'] eqn:E. intros [= <- ->].
    cbn [String.append]. f_equal. by apply IH.
Qed.

Lemma cut_none (c : ascii) (s : string) :
  Str.forallb (λ x, negb (Ascii.eqb x c)) s = true → RFC.cut c s = (s, None).
Proof.
  induction s as [|a s IH]; [done |]. cbn [Str.forallb RFC.cut].
  rewrite andb_true_iff. intros [Ha Hs].
  apply negb_true_iff in Ha. by rewrite Ha, (IH Hs).
Qed.

(** The opener does not start inside a text in front of an opener unless
    it starts inside that text alone. *)
Lemma startsWith_uriOpen_before (p t : string) :
  p ≠ "" →
  Str.startsWith HLS.uriOpen (p +:+ HLS.uriOpen +:+ t) = Str.startsWith HLS.uriOpen p.
Proof.
  intros Hp. unfold Str.startsWith, HLS.uriOpen, HLS.quote.
  destruct p as [|a [|b [|c [|d [|e r]]]]]; [done | | | | |];
    cbn [String.append String.prefix];
    repeat (match goal with
            | |- context [ascii_dec ?x ?y] => destruct (ascii_dec x y); try subst
            end; cbn [String.append String.prefix]; try done).
  by destruct r.
Qed.

(** The opener does not start inside a text that holds no double quote. *)
Lemma no_quote_no_opener (s : string) :
  Str.forallb (λ x, negb (Ascii.eqb x HLS.quote)) s = true →
  Str.contains HLS.uriOpen s = false.
Proof.
  induction s as [|a s IH]; [done |].
  intros Hs. pose proof Hs as Hs'. cbn [Str.forallb] in Hs'.
  apply andb_true_iff in Hs' as [_ Hs'].
  unfold Str.contains. cbn [Str.after_first].
  destruct (Str.startsWith HLS.uriOpen (String a s)) eqn:E.
  - exfalso. apply startsWith_split in E. rewrite E in Hs.
    rewrite forallb_append in Hs. by apply andb_true_iff in Hs as [Hs _].
  - specialize (IH Hs'). unfold Str.contains in IH.
    by destruct (Str.after_first HLS.uriOpen s).
Qed.

Section AttributeFacts.

Context (U : Type) (resolveUrl : string → option U)
  (createProxyUrl : U → option string) (ws : ascii → bool).

Lemma replaceAll_skip (x t : string) :
  HLS.replaceAll U resolveUrl createProxyUrl (String.length x) (x +:+ t)
  = HLS.replaceAll U resolveUrl createProxyUrl 0 t.
Proof.
  induction x as [|a x IH]; [done |].
  cbn [String.length String.append HLS.replaceAll]. exact IH.
Qed.

(** A text without an opener is copied. *)
Lemma replaceAll_none (s : string) :
  Str.contains HLS.uriOpen s = false →
  HLS.replaceAll U resolveUrl createProxyUrl 0 s = s.
Proof.
  induction s as [|a s IH]; [done |].
  intros [Hs Hc]%contains_cons. cbn [HLS.replaceAll].
  by rewrite Hs, (IH Hc).
Qed.

(** The text in front of the first opener is copied. *)
Lemma replaceAll_before (pre t : string) :
  Str.contains HLS.uriOpen pre = false →
  HLS.replaceAll U resolveUrl createProxyUrl 0 (pre +:+ HLS.uriOpen +:+ t)
  = pre +:+ HLS.replaceAll U resolveUrl createProxyUrl 0 (HLS.uriOpen +:+ t).
Proof.
  induction pre as [|a pre IH]; [done |].
  intros [Hs Hc]%contains_cons.
  pose proof (startsWith_uriOpen_before (String a pre) t) as Hb.
  rewrite Hs in Hb.
  change (String a pre +:+ HLS.uriOpen +:+ t) with (String a (pre +:+ HLS.uriOpen +:+ t)) in *.
  cbn [HLS.replaceAll]. rewrite Hb by done.
  by rewrite (IH Hc).
Qed.

(** An attribute with its closing quote is replaced as a whole and the
    scan goes on behind it. *)
Lemma replaceAll_attribute (uri post : string) :
  Str.forallb (λ x, negb (Ascii.eqb x HLS.quote)) uri = true →
  HLS.replaceAll U resolveUrl createProxyUrl 0
    (HLS.uriOpen +:+ uri +:+ String HLS.quote post)
  = HLS.replaceMatch U resolveUrl createProxyUrl uri
    +:+ HLS.replaceAll U resolveUrl createProxyUrl 0 post.
Proof.
  intros Hu.
  change (HLS.uriOpen +:+ uri +:+ String HLS.quote post)
    with (String "U" (("RI=" +:+ String HLS.quote "") +:+ uri +:+ String HLS.quote post)).
  cbn [HLS.replaceAll].
  change (String "U" (("RI=" +:+ String HLS.quote "") +:+ uri +:+ String HLS.quote post))
    with (HLS.uriOpen +:+ uri +:+ String HLS.quote post).
  rewrite startsWith_append.
  change 5%nat with (String.length HLS.uriOpen) at 1.
  rewrite drop_append, (cut_append HLS.quote uri post Hu).
  f_equal.
  rewrite <- (replaceAll_skip
                (("RI=" +:+ String HLS.quote "") +:+ uri +:+ String HLS.quote "") post).
  f_equal.
  - rewrite !length_append. cbn [String.length]. lia.
  - by rewrite !append_assoc.
Qed.

Lemma replaceAll_cons (a : ascii) (s : string) :
  HLS.replaceAll U resolveUrl createProxyUrl 0 (String a s)
  = if Str.startsWith HLS.uriOpen (String a s) then
      match RFC.cut HLS.quote (Str.drop 5 (String a s)) with
      | (uri, Some _) =>
          HLS.replaceMatch U resolveUrl createProxyUrl uri
          +:+ HLS.replaceAll U resolveUrl createProxyUrl (5 + String.length uri) s
      | (_, None) => String a (HLS.replaceAll U resolveUrl createProxyUrl 0 s)
      end
    else String a (HLS.replaceAll U resolveUrl createProxyUrl 0 s).
Proof. reflexivity. Qed.

(** An opener with no closing quote behind it is copied. *)
Lemma opener_tail_none (uri : string) :
  Str.forallb (λ x, negb (Ascii.eqb x HLS.quote)) uri = true →
  Str.contains HLS.uriOpen (String "R" (String "I" (String "=" (String HLS.quote uri))))
  = false.
Proof.
  intros Hu. pose proof (no_quote_no_opener uri Hu) as H.
  unfold Str.contains in *. cbn [Str.after_first].
  unfold Str.startsWith, HLS.uriOpen, HLS.quote in *.
  cbn [String.append String.prefix] in *.
  repeat (match goal with
          | |- context [ascii_dec ?x ?y] => destruct (ascii_dec x y); try done
          end; cbn [String.append String.prefix]).
Qed.

Lemma replaceAll_open (uri : string) :
  Str.forallb (λ x, negb (Ascii.eqb x HLS.quote)) uri = true →
  HLS.replaceAll U resolveUrl createProxyUrl 0 (HLS.uriOpen +:+ uri)
  = HLS.uriOpen +:+ uri.
Proof.
  intros Hu.
  change (HLS.uriOpen +:+ uri)
    with (String "U" (String "R" (String "I" (String "=" (String HLS.quote uri))))).
  rewrite replaceAll_cons.
  rewrite (replaceAll_none _ (opener_tail_none uri Hu)).
  change (String "U" (String "R" (String "I" (String "=" (String HLS.quote uri)))))
    with (HLS.uriOpen +:+ uri).
  rewrite startsWith_append.
  change 5%nat with (String.length HLS.uriOpen).
  by rewrite drop_append, (cut_none HLS.quote uri Hu).
Qed.

(** Where no proxy URL is ever made, every replacement is the match
    itself and the scan copies its text. *)
Lemma replaceAll_drop (k : nat) (s : string) :
  (∀ uri, HLS.replaceMatch U resolveUrl createProxyUrl uri
          = HLS.uriOpen +:+ uri +:+ String HLS.quote "") →
  HLS.replaceAll U resolveUrl createProxyUrl k s = Str.drop k s.
Proof.
  intros Hm. revert k. induction s as [|a s IH]; intros k; [by destruct k |].
  destruct k as [|k]; [| cbn [HLS.replaceAll Str.drop]; apply IH].
  rewrite replaceAll_cons. change (Str.drop 0 (String a s)) with (String a s).
  destruct (Str.startsWith HLS.uriOpen (String a s)) eqn:Hs; [| by rewrite IH].
  destruct (RFC.cut HLS.quote (Str.drop 5 (String a s))) as [uri [rest|]] eqn:Hc;
    [| by rewrite IH].
  rewrite Hm, IH.
  apply startsWith_split in Hs. apply cut_inv in Hc.
  change (String.length HLS.uriOpen) with 5%nat in Hs. rewrite Hc in Hs.
  assert (Hs' : s = ("RI=" +:+ String HLS.quote "") +:+ uri +:+ String HLS.quote rest)
    by (by injection Hs).
  rewrite Hs. rewrite Hs'.
  pose proof (drop_append
                ((("RI=" +:+ String HLS.quote "") +:+ uri) +:+ String HLS.quote "") rest) as Hd.
  rewrite !length_append in Hd. cbn [String.length] in Hd.
  replace (3 + 1 + String.length uri + 1)%nat with (5 + String.length uri)%nat in Hd by lia.
  rewrite !append_assoc in Hd. cbn [String.append] in Hd.
  rewrite !append_assoc. unfold HLS.uriOpen. cbn [String.append].
  by rewrite Hd.
Qed.

Lemma rewriteLine_no_proxy (line : string) :
  (∀ u, createProxyUrl u = None) →
  HLS.rewriteLine U resolveUrl createProxyUrl ws line = line.
Proof.
  intros Hn. unfold HLS.rewriteLine, HLS.rewriteURIAttributes.
  destruct (Str.contains HLS.uriOpen line).
  - apply (replaceAll_drop 0). intros uri. unfold HLS.replaceMatch.
    destruct (resolveUrl uri); [by rewrite Hn | done].
  - destruct (negb (Str.startsWith "#" line) && negb (Str.isEmpty (Str.trim ws line)));
      [| done].
    destruct (resolveUrl (Str.trim ws line)); [by rewrite Hn | done].
Qed.

Lemma contains_before (pre t : string) :
  Str.contains HLS.uriOpen (pre +:+ HLS.uriOpen +:+ t) = true.
Proof.
  unfold Str.contains. induction pre as [|a pre IH].
  - change ("" +:+ HLS.uriOpen +:+ t) with (HLS.uriOpen +:+ t).
    by rewrite after_first_append.
  - change (String a pre +:+ HLS.uriOpen +:+ t) with (String a (pre +:+ HLS.uriOpen +:+ t)).
    cbn [Str.after_first].
    destruct (Str.startsWith HLS.uriOpen (String a (pre +:+ HLS.uriOpen +:+ t))); [done |].
    exact IH.
Qed.

End AttributeFacts.

(** X14.  In a playlist line that holds a URI attribute only the
    attribute changes.  With no opener in the text in front of the first
    attribute and no double quote in its value, the line comes out as that
    text, then the replacement of the attribute, then the rewritten rest;
    a rest without an opener is copied as it is, and an opener that is
    never closed is left alone.  On Android, while the proxy runs, the
    replacement of a value that resolves is the attribute with the proxy
    URL of the resolved URL between the quotes. *)
Theorem uri_attribute_is_replaced_in_place (U : Type) (resolveUrl : string → option U)
    (createProxyUrl : U → option string) (ws : ascii → bool) (pre uri post : string) :
  Str.contains HLS.uriOpen pre = false →
  Str.forallb (λ x, negb (Ascii.eqb x HLS.quote)) uri = true →
  HLS.rewriteLine U resolveUrl createProxyUrl ws
    (pre +:+ HLS.uriOpen +:+ uri +:+ String HLS.quote post)
  = pre +:+ HLS.replaceMatch U resolveUrl createProxyUrl uri
    +:+ HLS.rewriteURIAttributes U resolveUrl createProxyUrl post
  ∧ (Str.contains HLS.uriOpen post = false →
     HLS.rewriteLine U resolveUrl createProxyUrl ws
       (pre +:+ HLS.uriOpen +:+ uri +:+ String HLS.quote post)
     = pre +:+ HLS.replaceMatch U resolveUrl createProxyUrl uri +:+ post)
  ∧ HLS.rewriteLine U resolveUrl createProxyUrl ws (pre +:+ HLS.uriOpen +:+ uri)
    = pre +:+ HLS.uriOpen +:+ uri
  ∧ (∀ (p : Android.CMCDProxy) baseUri resolved,
       Android._port p ≠ 0%Z →
       Android.resolveUrl baseUri uri = Some resolved →
       HLS.replaceMatch string (Android.resolveUrl baseUri) (Android.createProxyUrl p) uri
       = HLS.uriOpen +:+ ("http://127.0.0.1:" +:+ pretty (Android._port p)
                          +:+ Android.proxyPath resolved)
         +:+ String HLS.quote "").
Proof.
  intros Hpre Huri.
  assert (H1 : HLS.rewriteLine U resolveUrl createProxyUrl ws
                 (pre +:+ HLS.uriOpen +:+ uri +:+ String HLS.quote post)
               = pre +:+ HLS.replaceMatch U resolveUrl createProxyUrl uri
                 +:+ HLS.rewriteURIAttributes U resolveUrl createProxyUrl post).
  { unfold HLS.rewriteLine. rewrite contains_before.
    unfold HLS.rewriteURIAttributes.
    by rewrite replaceAll_before, replaceAll_attribute. }
  split; [exact H1 |]. split; [| split].
  - intros Hpost. rewrite H1. unfold HLS.rewriteURIAttributes.
    by rewrite replaceAll_none.
  - unfold HLS.rewriteLine. rewrite contains_before.
    unfold HLS.rewriteURIAttributes.
    by rewrite replaceAll_before, replaceAll_open.
  - intros p baseUri resolved Hp Hr. unfold HLS.replaceMatch. rewrite Hr.
    unfold Android.createProxyUrl. apply Z.eqb_neq in Hp. by rewrite Hp.
Qed.

Lemma uri_attribute_is_replaced_in_place_witness :
  HLS.rewriteLine string (Android.resolveUrl (RFC.parse Samples.manifestUrl))
    (Android.createProxyUrl Samples.android) Str.isWhitespace
    ("#EXT-X-MAP:BANDWIDTH=1," +:+ HLS.uriOpen +:+ "init.mp4"
     +:+ String HLS.quote ",BYTERANGE=1@0")
  = "#EXT-X-MAP:BANDWIDTH=1,"
    +:+ HLS.replaceMatch string (Android.resolveUrl (RFC.parse Samples.manifestUrl))
          (Android.createProxyUrl Samples.android) "init.mp4"
    +:+ ",BYTERANGE=1@0".
Proof.
  exact (proj1 (proj2 (uri_attribute_is_replaced_in_place string
                         (Android.resolveUrl (RFC.parse Samples.manifestUrl))
                         (Android.createProxyUrl Samples.android) Str.isWhitespace
                         "#EXT-X-MAP:BANDWIDTH=1," "init.mp4" ",BYTERANGE=1@0"
                         eq_refl eq_refl)) eq_refl).
Defined.

(** X15.  A proxy that is not running rewrites nothing: with port 0 no
    proxy URL is made, every line of a playlist is written as it came,
    URI attributes included, and the body comes out as it went in with one
    line feed added (on Android only if the playlist's URL parses; else
    unchanged).  This is so in particular after [stop]. *)
Theorem stopped_proxy_rewrites_nothing (p : Android.CMCDProxy) (qp : IOSQuery.CMCDProxy)
    (content baseUrl : string) (base : Foundation.URL) :
  (Android._port p = 0%Z →
   Android.rewriteHLSManifest p content baseUrl
   = match Java.URI_create baseUrl with
     | Some _ => content +:+ Http.LF
     | None => content
     end)
  ∧ (IOSQuery.port qp = 0%N →
     IOSQuery.rewriteHLSManifest qp content base = content +:+ Http.LF)
  ∧ Android.rewriteHLSManifest (Android.stop p) content baseUrl
    = match Java.URI_create baseUrl with
      | Some _ => content +:+ Http.LF
      | None => content
      end
  ∧ IOSQuery.rewriteHLSManifest (IOSQuery.stop qp) content base = content +:+ Http.LF.
Proof.
  assert (Ha : ∀ p', Android._port p' = 0%Z →
            Android.rewriteHLSManifest p' content baseUrl
            = match Java.URI_create baseUrl with
              | Some _ => content +:+ Http.LF
              | None => content
              end).
  { intros p' Hp. unfold Android.rewriteHLSManifest.
    destruct (Java.URI_create baseUrl) as [baseUri|]; [| done].
    apply rewriteContent_unrewritten, Forall_forall. intros line _.
    apply rewriteLine_no_proxy. intros u. unfold Android.createProxyUrl. by rewrite Hp. }
  assert (Hq : ∀ qp', IOSQuery.port qp' = 0%N →
            IOSQuery.rewriteHLSManifest qp' content base = content +:+ Http.LF).
  { intros qp' Hp. unfold IOSQuery.rewriteHLSManifest.
    apply rewriteContent_unrewritten, Forall_forall. intros line _.
    apply rewriteLine_no_proxy. intros u. unfold IOSQuery.createProxyUrl. by rewrite Hp. }
  split; [apply Ha |]. split; [apply Hq |]. split; [by apply Ha | by apply Hq].
Qed.

(** ** The characters of a proxy URL *)

Lemma pretty_Z_forallb (p : ascii → bool) (x : Z) :
  p "-"%char = true →
  (∀ d, (d < 10)%N → p (pretty_N_char d) = true) →
  Str.forallb p (pretty x) = true.
Proof.
  intros Hm Hd. unfold pretty, pretty_Z. destruct x as [|x|x].
  - apply (pretty_N_forallb p 0 Hd).
  - apply (pretty_N_forallb p (N.pos x) Hd).
  - rewrite forallb_append. cbn [Str.forallb]. rewrite Hm.
    cbn [andb]. apply (pretty_N_forallb p (N.pos x) Hd).
Qed.

(** Neither a double quote nor white space. *)
Lemma encodeByte_fits (c : ascii) :
  Str.forallb (λ x, Foundation.isURLLegalCharacter x && negb (Ascii.eqb x HLS.quote)
                    && negb (Str.isWhitespace x)) (Java.encodeByte c) = true.
Proof. by_byte c. Qed.

Lemma encodeByte_escapes (c : ascii) (rest : string) :
  RFC.escapes_ok (Java.encodeByte c +:+ rest) = RFC.escapes_ok rest.
Proof. by_byte c. Qed.

Lemma component_piece_fits (c : ascii) :
  Str.forallb (λ x, Foundation.isURLLegalCharacter x && negb (Ascii.eqb x HLS.quote)
                    && negb (Str.isWhitespace x))
    (if TS.uriUnescaped c then String c "" else RFC.escape c) = true.
Proof. by_byte c. Qed.

Lemma proxy_url_fits (port : Z) (enc : string) :
  Str.forallb (λ x, Foundation.isURLLegalCharacter x && negb (Ascii.eqb x HLS.quote)
                    && negb (Str.isWhitespace x)) enc = true →
  RFC.escapes_ok enc = true →
  Str.forallb (λ x, negb (Ascii.eqb x HLS.quote) && negb (Str.isWhitespace x))
    ("http://127.0.0.1:" +:+ pretty port +:+ "/proxy?url=" +:+ enc) = true
  ∧ Foundation.isLegalURLString
      ("http://127.0.0.1:" +:+ pretty port +:+ "/proxy?url=" +:+ enc) = true.
Proof.
  intros Hc He.
  assert (Hport : Str.forallb
            (λ x, Foundation.isURLLegalCharacter x && negb (Ascii.eqb x HLS.quote)
                  && negb (Str.isWhitespace x) && negb (Ascii.eqb x "%"))
            (pretty port) = true).
  { apply pretty_Z_forallb; [done |]. intros d Hd.
    unfold pretty_N_char. repeat case_match; done. }
  split.
  - rewrite !forallb_append. rewrite !andb_true_iff. split; [done |]. split; [| split; [done |]].
    + eapply forallb_impl; [| exact Hport]. intros c.
      rewrite !andb_true_iff. tauto.
    + eapply forallb_impl; [| exact Hc]. intros c.
      rewrite !andb_true_iff. tauto.
  - unfold Foundation.isLegalURLString. rewrite !andb_true_iff.
    split; [split; [done |] |].
    + rewrite !forallb_append. rewrite !andb_true_iff. split; [done |]. split; [| split; [done |]].
      * eapply forallb_impl; [| exact Hport]. intros c.
        rewrite !andb_true_iff. tauto.
      * eapply forallb_impl; [| exact Hc]. intros c.
        rewrite !andb_true_iff. tauto.
    + rewrite escapes_ok_append by done.
      rewrite escapes_ok_append.
      2:{ eapply forallb_impl; [| exact Hport]. intros c.
          rewrite !andb_true_iff. tauto. }
      by rewrite escapes_ok_append.
Qed.

(** X16.  A proxy URL made by the Android proxy or by the JavaScript
    facade holds no double quote and no white space, line breaks included,
    whatever the original URL holds, so it fits a playlist line and a
    quoted attribute; it is made of URL characters with well-formed
    escapes only. *)
Theorem proxy_url_fits_a_playlist (p : Android.CMCDProxy) (port : Z)
    (originalUrl url : string) :
  Android.createProxyUrl p originalUrl = Some url
  ∨ TS.createProxyUrl port originalUrl = Some url →
  Str.forallb (λ x, negb (Ascii.eqb x HLS.quote) && negb (Str.isWhitespace x)) url = true
  ∧ Foundation.isLegalURLString url = true.
Proof.
  intros [H | H].
  - unfold Android.createProxyUrl in H. cbv zeta in H.
    destruct (Android._port p =? 0)%Z; [done |]. injection H as <-.
    unfold Android.proxyPath.
    apply proxy_url_fits.
    + induction originalUrl as [|c s IH]; [done |].
      cbn [Java.URLEncoder_encode]. by rewrite forallb_append, encodeByte_fits, IH.
    + induction originalUrl as [|c s IH]; [done |].
      cbn [Java.URLEncoder_encode]. by rewrite encodeByte_escapes.
  - unfold TS.createProxyUrl in H.
    destruct (port =? 0)%Z; [done |]. injection H as <-.
    apply proxy_url_fits; unfold TS.encodeURIComponent.
    + apply percent_encode_forallb, component_piece_fits.
    + apply percent_encode_escapes, component_piece_escapes.
Qed.

Lemma proxy_url_fits_a_playlist_witness :
  Str.forallb (λ x, negb (Ascii.eqb x HLS.quote) && negb (Str.isWhitespace x))
    "http://127.0.0.1:8080/proxy?url=a+b%22%0A" = true.
Proof.
  exact (proj1 (proxy_url_fits_a_playlist Samples.android 0
                  ("a b" +:+ String HLS.quote Http.LF)
                  "http://127.0.0.1:8080/proxy?url=a+b%22%0A"
                  (or_introl eq_refl))).
Defined.

(** ** The CMCD header formatter *)

Section CmcdMore.

Context (number : Type) (isInteger : number → bool)
  (numberToString toFixed0 : number → string).

Lemma headerOf_None (parts : list string) : TS.headerOf parts = None ↔ parts = [].
Proof. by destruct parts. Qed.

Lemma formatCmcdHeaders_other (data : TS.CmcdData number) (k : string) :
  k ∉ ["CMCD-Object"; "CMCD-Request"; "CMCD-Session"; "CMCD-Status"] →
  TS.formatCmcdHeaders number isInteger numberToString toFixed0 data !! k = None.
Proof.
  intros Hk. unfold TS.formatCmcdHeaders.
  rewrite !setHeader_lookup_ne; [done | | | |];
    intros <-; apply Hk; repeat constructor.
Qed.

(** A false flag pushed behind other parts does not show in the header. *)
Lemma headerOf_false_flag (key : string) (parts : list string) :
  parts ≠ [] →
  TS.headerOf
    (TS.push number isInteger numberToString toFixed0 key (Some (TS.JSBoolean number false))
       parts)
  = TS.headerOf parts.
Proof.
  intros Hp. cbn [TS.push TS.formatValue].
  destruct parts as [|x parts]; [done |].
  unfold TS.headerOf. cbn [app]. f_equal. f_equal.
  change (x :: (parts ++ [""])%list) with ((x :: parts) ++ [""])%list.
  by rewrite filter_app, (filter_cons_False (λ s, s ≠ "") "" []), filter_nil, app_nil_r
    by (intros H; by apply H).
Qed.

End CmcdMore.

(** X17.  The formatter sets no header but CMCD-Object, CMCD-Request,
    CMCD-Session and CMCD-Status, and its result is empty exactly when no
    field of the data is defined. *)
Theorem cmcd_headers_are_the_four (number : Type) (isInteger : number → bool)
    (numberToString toFixed0 : number → string) (data : TS.CmcdData number) :
  let headers := TS.formatCmcdHeaders number isInteger numberToString toFixed0 data in
  (∀ k, is_Some (headers !! k) →
        k ∈ ["CMCD-Object"; "CMCD-Request"; "CMCD-Session"; "CMCD-Status"])
  ∧ (headers = ∅
     ↔ data = TS.mkCmcdData number None None None None None None None None None None
                None None None None None None None None).
Proof.
  cbv zeta. split.
  - intros k Hk.
    destruct (decide (k ∈ ["CMCD-Object"; "CMCD-Request"; "CMCD-Session"; "CMCD-Status"]))
      as [Hin | Hout]; [done |].
    rewrite (formatCmcdHeaders_other number isInteger numberToString toFixed0 data k Hout)
      in Hk.
    by destruct Hk.
  - split; [| by intros ->].
    intros He.
    destruct (formatCmcdHeaders_lookup number isInteger numberToString toFixed0 data)
      as (Ho & Hr & Hs & Ht).
    cbv zeta in Ho, Hr, Hs, Ht.
    rewrite He, lookup_empty in Ho, Hr, Hs, Ht.
    symmetry in Ho, Hr, Hs, Ht.
    apply headerOf_None in Ho, Hr, Hs, Ht.
    unfold TS.objectParts in Ho. unfold TS.requestParts in Hr.
    unfold TS.sessionParts in Hs. unfold TS.statusParts in Ht.
    rewrite !push_nil, !fmap_None in Ho. rewrite !push_nil, !fmap_None in Hr.
    rewrite !push_nil, !fmap_None in Hs. rewrite !push_nil, !fmap_None in Ht.
    destruct data; cbn in *.
    destruct Ho as (-> & -> & -> & -> & _).
    destruct Hr as (-> & -> & -> & -> & -> & -> & _).
    destruct Hs as (-> & -> & -> & -> & -> & -> & _).
    by destruct Ht as (-> & -> & _).
Qed.

(** X18.  A flag that is false leaves no trace in a header that has
    another part: with some other field of the request group defined, the
    CMCD-Request header for [su] false is the one for [su] undefined, and
    likewise CMCD-Status for [bs] beside [rtp]; no empty item and no stray
    comma is written. *)
Theorem cmcd_false_flag_beside_others (number : Type) (isInteger : number → bool)
    (numberToString toFixed0 : number → string)
    (sid cid : option string) (br d : option number) (ot : option string)
    (tb bl dl mtp : option number) (nor nrr : option string) (su bs : option bool)
    (pr : option number) (sf st : option string) (v rtp : option number) :
  (is_Some bl ∨ is_Some dl ∨ is_Some mtp ∨ is_Some nor ∨ is_Some nrr →
   TS.formatCmcdHeaders number isInteger numberToString toFixed0
     (TS.mkCmcdData number sid cid br d ot tb bl dl mtp nor nrr (Some false) bs pr sf st
        v rtp) !! "CMCD-Request"
   = TS.formatCmcdHeaders number isInteger numberToString toFixed0
       (TS.mkCmcdData number sid cid br d ot tb bl dl mtp nor nrr None bs pr sf st v rtp)
     !! "CMCD-Request")
  ∧ (is_Some rtp →
     TS.formatCmcdHeaders number isInteger numberToString toFixed0
       (TS.mkCmcdData number sid cid br d ot tb bl dl mtp nor nrr su (Some false) pr sf st
          v rtp) !! "CMCD-Status"
     = TS.formatCmcdHeaders number isInteger numberToString toFixed0
         (TS.mkCmcdData number sid cid br d ot tb bl dl mtp nor nrr su None pr sf st v rtp)
       !! "CMCD-Status").
Proof.
  split.
  - intros Hd.
    destruct (formatCmcdHeaders_lookup number isInteger numberToString toFixed0
                (TS.mkCmcdData number sid cid br d ot tb bl dl mtp nor nrr (Some false) bs
                   pr sf st v rtp)) as (_ & -> & _).
    destruct (formatCmcdHeaders_lookup number isInteger numberToString toFixed0
                (TS.mkCmcdData number sid cid br d ot tb bl dl mtp nor nrr None bs
                   pr sf st v rtp)) as (_ & -> & _).
    unfold TS.requestParts. cbn [TS.su TS.nrr TS.nor TS.mtp TS.dl TS.bl fmap option_fmap option_map].
    rewrite headerOf_false_flag; [done |].
    rewrite !push_nil, !fmap_None.
    intros (Hnrr & Hnor & Hmtp & Hdl & Hbl & _). subst.
    destruct Hd as [[? ?] | [[? ?] | [[? ?] | [[? ?] | [? ?]]]]]; done.
  - intros [n ->].
    destruct (formatCmcdHeaders_lookup number isInteger numberToString toFixed0
                (TS.mkCmcdData number sid cid br d ot tb bl dl mtp nor nrr su (Some false)
                   pr sf st v (Some n))) as (_ & _ & _ & ->).
    destruct (formatCmcdHeaders_lookup number isInteger numberToString toFixed0
                (TS.mkCmcdData number sid cid br d ot tb bl dl mtp nor nrr su None
                   pr sf st v (Some n))) as (_ & _ & _ & ->).
    unfold TS.statusParts.
    cbn [TS.rtp TS.bs fmap option_fmap option_map TS.push app].
    change (TS.formatValue number isInteger numberToString toFixed0 "bs"
              (TS.JSBoolean number false)) with "".
    unfold TS.headerOf. by rewrite (filter_cons_False (λ s, s ≠ "") "") by (intros H; by apply H).
Qed.

(** ** The dynamic-header data sources *)

Lemma setAll_union (headers properties : gmap string string) :
  DataSource.setAll headers properties = headers ∪ properties.
Proof. exact (setValues_union headers properties). Qed.

Lemma allHeaders_union (baseHeaders dynamic : option (gmap string string)) :
  DataSource.allHeaders baseHeaders dynamic = default ∅ dynamic ∪ default ∅ baseHeaders.
Proof.
  unfold DataSource.allHeaders. cbv zeta.
  destruct baseHeaders as [b|], dynamic as [d|]; cbn [default];
    rewrite ?setAll_union, ?(right_id_L ∅ (∪)), ?(left_id_L ∅ (∪)); done.
Qed.

(** X19.  The data source made by the factory carries the base headers
    overridden by the player's dynamic headers, and a User-Agent property
    (the system's http.agent, or ExoPlayer when there is none) unless the
    headers bring their own; with no header at all, or the player gone and
    no base headers, it carries nothing, not even the User-Agent. *)
Theorem created_data_source_headers (httpAgent : option string)
    (baseHeaders dynamic : option (gmap string string)) :
  let all := default ∅ dynamic ∪ default ∅ baseHeaders in
  (all = ∅ → DataSource.createDataSource httpAgent baseHeaders dynamic = ∅)
  ∧ (all ≠ ∅ →
     DataSource.createDataSource httpAgent baseHeaders dynamic
     = all ∪ {[ "User-Agent" := default "ExoPlayer" httpAgent ]})
  ∧ (∀ name,
       all ≠ ∅ →
       DataSource.createDataSource httpAgent baseHeaders dynamic !! name
       = match default ∅ dynamic !! name with
         | Some x => Some x
         | None =>
             match default ∅ baseHeaders !! name with
             | Some x => Some x
             | None => if decide (name = "User-Agent")
                       then Some (default "ExoPlayer" httpAgent) else None
             end
         end).
Proof.
  cbv zeta.
  assert (Hne : default ∅ dynamic ∪ default ∅ baseHeaders ≠ ∅ →
                DataSource.createDataSource httpAgent baseHeaders dynamic
                = (default ∅ dynamic ∪ default ∅ baseHeaders)
                  ∪ {[ "User-Agent" := default "ExoPlayer" httpAgent ]}).
  { intros Hall. unfold DataSource.createDataSource. cbv zeta.
    rewrite allHeaders_union, bool_decide_eq_false_2 by done.
    rewrite setAll_union. unfold DataSource.setRequestProperty.
    by rewrite insert_empty. }
  split; [| split; [exact Hne |]].
  - intros Hall. unfold DataSource.createDataSource. cbv zeta.
    by rewrite allHeaders_union, bool_decide_eq_true_2.
  - intros name Hall. rewrite (Hne Hall), !lookup_union.
    destruct (default ∅ dynamic !! name) as [x|]; [by rewrite !union_Some_l |].
    rewrite (left_id_L None (∪)).
    destruct (default ∅ baseHeaders !! name) as [x|]; [by rewrite union_Some_l |].
    rewrite (left_id_L None (∪)).
    destruct (decide (name = "User-Agent")) as [-> | Hn].
    + by rewrite lookup_singleton_eq.
    + by rewrite lookup_singleton_ne.
Qed.

(** X20.  Opening a data source sets the player's current dynamic headers
    on the wrapped source and removes none: a property set before, by an
    earlier opening or by the factory, stays unless the current headers
    hold its name, so a header the player has dropped since is still sent.
    With the player gone the properties are left as they are. *)
Theorem open_keeps_earlier_headers (dynamic : option (gmap string string))
    (wrapped earlier : gmap string string) :
  DataSource.open dynamic wrapped = default ∅ dynamic ∪ wrapped
  ∧ (∀ name value,
       wrapped !! name = Some value → default ∅ dynamic !! name = None →
       DataSource.open dynamic wrapped !! name = Some value)
  ∧ (∀ name value,
       default ∅ dynamic !! name = Some value →
       DataSource.open dynamic wrapped !! name = Some value)
  ∧ DataSource.open dynamic (DataSource.open (Some earlier) wrapped)
    = default ∅ dynamic ∪ (earlier ∪ wrapped)
  ∧ DataSource.open None wrapped = wrapped.
Proof.
  assert (Ho : ∀ w, DataSource.open dynamic w = default ∅ dynamic ∪ w).
  { intros w. destruct dynamic as [h|]; cbn [DataSource.open default].
    - apply setAll_union.
    - by rewrite (left_id_L ∅ (∪)). }
  split; [apply Ho |]. split; [| split; [| split; [| done]]].
  - intros name value Hw Hd. rewrite Ho, lookup_union, Hd, Hw. done.
  - intros name value Hd. rewrite Ho, lookup_union, Hd. by rewrite union_Some_l.
  - rewrite Ho. f_equal. apply setAll_union.
Qed.

(** ** Session identifiers *)

Lemma toInt_scaled (q : Q) (m : positive) :
  (0 <= q)%Q → (q < 1)%Q →
  (0 ≤ SessionId.toInt (q * (Z.pos m # 1))%Q < Z.pos m)%Z.
Proof.
  destruct q as [n d]. unfold Qle, Qlt, SessionId.toInt. cbn [Qnum Qden Qmult].
  rewrite Pos.mul_1_r. intros H0 H1.
  rewrite Z.quot_div_nonneg by lia.
  split.
  - apply Z.div_pos; lia.
  - apply Z.div_lt_upper_bound; nia.
Qed.

Lemma hex_digit (q : Q) :
  (0 <= q)%Q → (q < 1)%Q →
  ∃ c, SessionId.hexAt (SessionId.toInt (q * 16)%Q) = String c ""
       ∧ Str.mem c SessionId.hex = true.
Proof.
  intros H0 H1. pose proof (toInt_scaled q 16 H0 H1) as Hz.
  change (Z.pos 16 # 1) with 16%Q in Hz.
  set (z := SessionId.toInt (q * 16)%Q) in *.
  assert (Hc : (z = 0 ∨ z = 1 ∨ z = 2 ∨ z = 3 ∨ z = 4 ∨ z = 5 ∨ z = 6 ∨ z = 7 ∨ z = 8
                ∨ z = 9 ∨ z = 10 ∨ z = 11 ∨ z = 12 ∨ z = 13 ∨ z = 14 ∨ z = 15)%Z) by lia.
  clearbody z.
  repeat (destruct Hc as [-> | Hc]; [eexists; split; reflexivity |]).
  subst z. eexists; split; reflexivity.
Qed.

Lemma variant_digit (q : Q) :
  (0 <= q)%Q → (q < 1)%Q →
  ∃ c, SessionId.hexAt (Z.lor (SessionId.toInt (q * 4)%Q) 8) = String c ""
       ∧ Str.mem c "89ab" = true.
Proof.
  intros H0 H1. pose proof (toInt_scaled q 4 H0 H1) as Hz.
  change (Z.pos 4 # 1) with 4%Q in Hz.
  set (z := SessionId.toInt (q * 4)%Q) in *.
  assert (Hc : (z = 0 ∨ z = 1 ∨ z = 2 ∨ z = 3)%Z) by lia.
  clearbody z.
  repeat (destruct Hc as [-> | Hc]; [eexists; split; reflexivity |]).
  subst z. eexists; split; reflexivity.
Qed.

(** X21.  Whatever [Math.random] returns, each result being at least 0 and
    below 1, [generateSessionId] yields a version-4 UUID in lower case:
    36 characters, hyphens at positions 8, 13, 18 and 23, the digit 4 at
    position 14, one of 8, 9, a, b at position 19 and hexadecimal digits
    elsewhere. *)
Theorem session_id_is_uuid_v4 (random : nat → Q) :
  (∀ k, (0 <= random k)%Q ∧ (random k < 1)%Q) →
  SessionId.isUuidV4 (SessionId.generateSessionId random) = true
  ∧ String.length (SessionId.generateSessionId random) = 36%nat.
Proof.
  intros Hr.
  unfold SessionId.isUuidV4, SessionId.generateSessionId.
  cbv - [SessionId.hexAt SessionId.toInt Qmult Z.lor String.append SessionId.shaped
         String.length].
  destruct (variant_digit (random 15%nat) (proj1 (Hr _)) (proj2 (Hr _))) as (v & -> & Hv).
  repeat match goal with
         | |- context [SessionId.hexAt (SessionId.toInt (random ?k * 16)%Q)] =>
             let c := fresh "c" in
             let Hc := fresh "Hc" in
             destruct (hex_digit (random k) (proj1 (Hr k)) (proj2 (Hr k))) as (c & -> & Hc)
         end.
  cbn [String.append SessionId.shaped Nat.eqb orb String.length].
  rewrite Hv.
  repeat match goal with
         | H : Str.mem _ SessionId.hex = true |- _ => rewrite H; clear H
         end.
  by split.
Qed.

Lemma session_id_is_uuid_v4_witness :
  SessionId.isUuidV4 (SessionId.generateSessionId (λ k, Z.of_nat (k mod 16) # 16)) = true
  ∧ SessionId.generateSessionId (λ k, Z.of_nat (k mod 16) # 16)
    = "01234567-89ab-4cde-b012-3456789abcde".
Proof.
  split; [| reflexivity].
  refine (proj1 (session_id_is_uuid_v4 (λ k, Z.of_nat (k mod 16) # 16) _)).
  intros k. unfold Qle, Qlt. cbn [Qnum Qden].
  pose proof (Nat.mod_upper_bound k 16). lia.
Defined.

(** ** The connections the iOS proxy tracks *)

(** X22.  The iOS proxy tracks a connection from [handleConnection] until
    [removeConnection]: removing a connection takes it, and it alone, off
    the tracked ones, and undoes the tracking of a connection that was not
    tracked before; [stop] cancels a connection that is still tracked and
    does not touch one that has been removed; tracking changes neither the
    port nor the proxy URLs made. *)
Theorem ios_connection_tracking (p : IOS.CMCDProxy) (c c' : nat) (u : Foundation.URL) :
  c ∈ IOS.activeConnections (IOS.handleConnection p c)
  ∧ (c ∉ IOS.activeConnections (IOS.removeConnection p c))
  ∧ (c' ≠ c →
     ((c' ∈ IOS.activeConnections (IOS.removeConnection p c))
      ↔ (c' ∈ IOS.activeConnections p)))
  ∧ (c ∉ IOS.activeConnections p → IOS.removeConnection (IOS.handleConnection p c) c = p)
  ∧ c ∈ IOS.cancelledConnections (IOS.stop (IOS.handleConnection p c))
  ∧ (c ∉ IOS.cancelledConnections p →
     c ∉ IOS.cancelledConnections (IOS.stop (IOS.removeConnection p c)))
  ∧ IOS.createProxyUrl (IOS.handleConnection p c) u = IOS.createProxyUrl p u
  ∧ IOS.createProxyUrl (IOS.removeConnection p c) u = IOS.createProxyUrl p u.
Proof.
  split; [| split; [| split; [| split; [| split; [| split; [| split]]]]]]; try done.
  - cbn. set_solver.
  - cbn. rewrite list_elem_of_filter. by intros [? _].
  - intros Hne. cbn. rewrite list_elem_of_filter. split; [by intros [_ ?] | by split].
  - intros Hc. destruct p as [l pt ac dp sh cl cc]. unfold IOS.removeConnection, IOS.handleConnection.
    cbn in *. f_equal.
    rewrite filter_app, (filter_cons_False (λ x, x ≠ c) c []) by (intros H; by apply H).
    rewrite filter_nil, app_nil_r.
    induction ac as [|a ac IH]; [done |].
    apply not_elem_of_cons in Hc as [Hne Hc].
    rewrite filter_cons_True by done. by rewrite (IH Hc).
  - cbn. set_solver.
  - intros Hc. cbn. rewrite elem_of_union, elem_of_list_to_set, list_elem_of_filter.
    intros [[? _] | ?]; done.
Qed.

(** ** Redirections without end *)

Lemma execute_redirect_loop (origin : Http.Origin) (hs : list (string * string))
    (n : nat) (url : string) :
  (∀ u, ∃ r, origin u hs = Http.UpstreamOk r
             ∧ Android.followsUp (Http.statusCode r) = true
             ∧ is_Some (Http.headerValue "Location" (Http.allHeaderFields r))) →
  Android.execute n Android.httpClient origin url hs
  = Http.UpstreamError "Too many follow-up requests: 21".
Proof.
  intros Ho. revert url. induction n as [|n IH]; intros url;
    destruct (Ho url) as (r & Hr & Hf & [loc Hl]);
    cbn [Android.execute]; rewrite Hr; cbn [Android.followRedirects Android.httpClient andb];
    rewrite Hf, Hl; [done | apply IH].
Qed.

Lemma dataTask_redirect_loop (origin : Http.Origin) (hs : list (string * string))
    (n : nat) (url : string) :
  (∀ u, ∃ r, origin u hs = Http.UpstreamOk r
             ∧ IOS.followsRedirect (Http.statusCode r) = true
             ∧ is_Some (Http.headerValue "Location" (Http.allHeaderFields r))) →
  IOS.dataTask n None origin url hs = Http.UpstreamError "too many HTTP redirects".
Proof.
  intros Ho. revert url. induction n as [|n IH]; intros url;
    destruct (Ho url) as (r & Hr & Hf & [loc Hl]);
    cbn [IOS.dataTask]; rewrite Hr, Hf, Hl; [done | apply IH].
Qed.

(** X23.  Redirections without end do not hang the proxies that follow
    redirects themselves.  Before an origin every answer of which is a
    redirect (301, 302, 303, 307 or 308) with a Location, the Android
    proxy gives up after the twenty follow-ups of its client and the
    earlier Swift proxy after those of its session; each answers 502 once
    and writes nothing else. *)
Theorem redirect_loop_ends_in_502 (ap : Android.CMCDProxy) (qp : IOSQuery.CMCDProxy)
    (net : IOS.Network) (originalUrl : string) (u : Foundation.URL) :
  (∀ url hs, ∃ r, IOS.origin net url hs = Http.UpstreamOk r
                  ∧ IOS.followsRedirect (Http.statusCode r) = true
                  ∧ is_Some (Http.headerValue "Location" (Http.allHeaderFields r))) →
  Android.fetchAndProxy ap (IOS.origin net) originalUrl
  = [Http.Fetch originalUrl (Android.requestHeaders ap);
     Http.Send (Android.sendErrorResponse 502
                  "Bad Gateway: Too many follow-up requests: 21")]
  ∧ (∃ r, IOSQuery.fetchAndProxy qp net u
          = [Http.Fetch (Foundation.absoluteString u)
               (map_to_list (IOSQuery.requestHeaders qp));
             Http.Send r; Http.Close]
          ∧ Http.status r = 502%Z).
Proof.
  intros Ho. split.
  - unfold Android.fetchAndProxy. cbv zeta.
    rewrite execute_redirect_loop; [done |].
    intros url. destruct (Ho url (Android.requestHeaders ap)) as (r & Hr & Hf & Hl).
    exists r. split; [done |]. split; [| done].
    unfold IOS.followsRedirect in Hf. unfold Android.followsUp.
    destruct (Http.statusCode r =? 300)%Z; [done |]. exact Hf.
  - eexists. unfold IOSQuery.fetchAndProxy. cbv zeta.
    rewrite dataTask_redirect_loop; [by split |].
    intros url. apply Ho.
Qed.

Lemma redirect_loop_ends_in_502_witness :
  Android.fetchAndProxy Samples.android
    (λ _ _, Http.UpstreamOk (Http.mkUpstream 302 [("Location", "/again")] ""))
    Samples.manifestUrl
  = [Http.Fetch Samples.manifestUrl (Android.requestHeaders Samples.android);
     Http.Send (Android.sendErrorResponse 502
                  "Bad Gateway: Too many follow-up requests: 21")].
Proof.
  refine (proj1 (redirect_loop_ends_in_502 Samples.android Samples.iosQuery
                   (IOS.mkNetwork
                      (λ _ _, Http.UpstreamOk
                                (Http.mkUpstream 302 [("Location", "/again")] "")) 16)
                   Samples.manifestUrl (Foundation.mkURL Samples.manifestUrl None) _)).
  intros url hs. eexists. split; [reflexivity |]. split; [reflexivity |]. by eexists.
Defined.

(** ** The playlist test of the Android proxy *)

Lemma escapes_ok_app_upto (n : nat) (a b : string) :
  (String.length a ≤ n)%nat →
  RFC.escapes_ok a = true → RFC.escapes_ok (a +:+ b) = RFC.escapes_ok b.
Proof.
  revert a. induction n as [|n IH]; intros a Hn Ha.
  - destruct a; [done | simpl in Hn; lia].
  - destruct a as [|c a]; [done |].
    cbn [String.append RFC.escapes_ok] in *. simpl in Hn.
    destruct (Ascii.eqb c "%"); [| apply IH; [lia | done]].
    destruct a as [|h [|l r]]; [done | done |].
    cbn [String.append].
    destruct (RFC.hexval h); [| done]. destruct (RFC.hexval l); [| done].
    simpl in Hn. apply IH; [lia | done].
Qed.

Lemma startsWith_colon_append (u t : string) :
  u ≠ "" → Str.startsWith ":" (u +:+ t) = Str.startsWith ":" u.
Proof.
  intros Hu. destruct u as [|a u]; [done |].
  unfold Str.startsWith. cbn [String.append String.prefix].
  destruct (ascii_dec ":" a); [| done]. by destruct u, t.
Qed.

(** A query behind a text without [?] and [#] changes the query of the
    parsed reference and nothing else. *)
Lemma parse_with_query (u q : string) :
  Str.forallb (λ c, negb (Ascii.eqb c "?") && negb (Ascii.eqb c "#")) u = true →
  Str.forallb (λ c, negb (Ascii.eqb c "#")) q = true →
  RFC.parse (u +:+ "?" +:+ q)
  = RFC.mkRef (RFC.scheme (RFC.parse u)) (RFC.authority (RFC.parse u))
      (RFC.path (RFC.parse u)) (Some q) None
  ∧ RFC.query (RFC.parse u) = None.
Proof.
  intros Hu Hq.
  assert (Hu1 : Str.forallb (λ c, negb (Ascii.eqb c "?")) u = true).
  { eapply forallb_impl; [| exact Hu]. intros c. by rewrite andb_true_iff; intros [? _]. }
  assert (Hu2 : Str.forallb (λ c, negb (Ascii.eqb c "#")) u = true).
  { eapply forallb_impl; [| exact Hu]. intros c. by rewrite andb_true_iff; intros [_ ?]. }
  unfold RFC.parse.
  rewrite (cut_none "#" (u +:+ "?" +:+ q)) by (by rewrite !forallb_append, Hu2, Hq).
  rewrite (cut_none "#" u Hu2).
  change (u +:+ "?" +:+ q) with (u +:+ String "?" q).
  rewrite (cut_append "?" u q Hu1), (cut_none "?" u Hu1).
  destruct (match RFC.cut ":" u with
            | (h, Some t) => if RFC.is_scheme h then (Some h, t) else (None, u)
            | (_, None) => (None, u)
            end) as [sch rest].
  destruct (if Str.startsWith "//" rest
            then match RFC.cut "/" (Str.drop 2 rest) with
                 | (a, Some p) => (Some a, String "/" p)
                 | (a, None) => (Some a, "")
                 end
            else (None, rest)) as [auth pth].
  done.
Qed.

(** X24.  The playlist test of the Android proxy looks at the path of the
    request URL only: for a hierarchical URL that java.net.URI accepts, a
    query string behind it changes neither the path that is tested for the
    ending .m3u8 nor the outcome of the test, so a playlist URL with a
    token in its query is still taken for a playlist. *)
Theorem android_playlist_test_ignores_query (contentType u q : string) (r : RFC.Ref) :
  Java.URI_create u = Some r →
  Java.isOpaque r = false →
  Str.forallb (λ c, negb (Ascii.eqb c "?") && negb (Ascii.eqb c "#")) u = true →
  Str.forallb (λ c, Java.uriChar c && negb (Ascii.eqb c "#")) q = true →
  RFC.escapes_ok q = true →
  Android.urlPath (u +:+ "?" +:+ q) = Android.urlPath u
  ∧ Android.isManifest contentType (u +:+ "?" +:+ q) = Android.isManifest contentType u.
Proof.
  intros Hc Hop Hu Hq He.
  assert (Hpath : Android.urlPath (u +:+ "?" +:+ q) = Android.urlPath u).
  { unfold Android.urlPath. rewrite Hc, Hop.
    unfold Java.URI_create in Hc.
    destruct (Str.forallb Java.uriChar u && RFC.escapes_ok u
              && negb (Str.startsWith ":" u)) eqn:Hv; [| done].
    injection Hc as <-.
    apply andb_true_iff in Hv as [[Hv1 Hv2]%andb_true_iff Hv3].
    assert (Hq1 : Str.forallb Java.uriChar q = true).
    { eapply forallb_impl; [| exact Hq]. intros c. by rewrite andb_true_iff; intros [? _]. }
    assert (Hq2 : Str.forallb (λ c, negb (Ascii.eqb c "#")) q = true).
    { eapply forallb_impl; [| exact Hq]. intros c. by rewrite andb_true_iff; intros [_ ?]. }
    destruct (parse_with_query u q Hu Hq2) as [Hp Hnq].
    unfold Java.URI_create.
    assert (Hvalid : Str.forallb Java.uriChar (u +:+ "?" +:+ q)
                     && RFC.escapes_ok (u +:+ "?" +:+ q)
                     && negb (Str.startsWith ":" (u +:+ "?" +:+ q)) = true).
    { rewrite !forallb_append, Hv1, Hq1.
      rewrite (escapes_ok_app_upto (String.length u) u) by done.
      change (RFC.escapes_ok ("?" +:+ q)) with (RFC.escapes_ok q). rewrite He.
      destruct u as [|a u']; [done |].
      by rewrite startsWith_colon_append, Hv3. }
    rewrite Hvalid, Hp.
    unfold Java.isOpaque in *. cbn [RFC.scheme RFC.authority RFC.path].
    by rewrite Hop. }
  split; [exact Hpath |]. unfold Android.isManifest. by rewrite Hpath.
Qed.

Lemma android_playlist_test_ignores_query_witness :
  Android.isManifest "text/plain" "https://cdn.example/media/index.M3U8?token=a%2Fb"
  = Android.isManifest "text/plain" "https://cdn.example/media/index.M3U8".
Proof.
  exact (proj2 (android_playlist_test_ignores_query "text/plain"
                  "https://cdn.example/media/index.M3U8" "token=a%2Fb"
                  (RFC.parse "https://cdn.example/media/index.M3U8")
                  eq_refl eq_refl eq_refl eq_refl eq_refl)).
Defined.
